(** * Token Spy: provider pricing, usage extraction, registry and session health

    A shallow embedding of the Python sources

    - [providers/base.py]      (cost calculation),
    - [providers/anthropic.py] and [providers/openai.py]
                               (pricing lookup, request analysis, stream parsing),
    - [providers/registry.py]  (provider registry),
    - [db.py]                  (session-status analytics),

    followed by the properties stated about them.

    Conventions of the embedding.
    - A Python [int] is a [Z].  A Python [float] is an IEEE-754 binary64 value,
      a [spec_float] with precision 53 and maximal exponent 1024; every
      arithmetic operation rounds to nearest, ties to even.
    - A Python [str] is a [string]; [len] is [String.length].  Case folding and
      white space are the ASCII ones.
    - A raised exception is the left injection of [result].
    - A [dict] whose iteration order is observable is an association list in
      insertion order; a [dict] that is only read by key is a [gmap]. *)

From Stdlib Require Import ZArith List String Ascii Bool Lia Permutation Sorted.
From Stdlib Require Import Floats.SpecFloat.
From stdpp Require Import gmap strings list sorting.

Set Default Proof Using "Type".

(** ** Exceptions *)

Inductive exn : Type :=
| AttributeError
| KeyError
| IndexError
| TypeError
| OverflowError
| ZeroDivisionError
| RecursionError
| JSONDecodeError
| ValueError (msg : string).

Definition result (A : Type) : Type := (exn + A)%type.

Definition ret {A} (a : A) : result A := inr a.
Definition raise {A} (e : exn) : result A := inl e.

Definition bind {A B} (m : result A) (k : A -> result B) : result B :=
  match m with
  | inl e => inl e
  | inr a => k a
  end.

Notation "'let*' x ':=' m 'in' k" := (bind m (fun x => k))
  (at level 10, x name, m at level 100, k at level 200).

(** Monadic left fold: a [for] loop whose body may raise. *)
Fixpoint foldM {A B} (f : A -> B -> result A) (l : list B) (a : A) : result A :=
  match l with
  | [] => ret a
  | b :: l' => let* a' := f a b in foldM f l' a'
  end.

(** ** Binary64 arithmetic *)

Module F64.
Local Open Scope Z_scope.

Definition prec : Z := 53.
Definition emax : Z := 1024.

Definition add : spec_float -> spec_float -> spec_float := SFadd prec emax.
Definition mul : spec_float -> spec_float -> spec_float := SFmul prec emax.
Definition div : spec_float -> spec_float -> spec_float := SFdiv prec emax.
Definition ltb : spec_float -> spec_float -> bool := SFltb.

(** The double nearest to the integer [z]. *)
Definition of_Z (z : Z) : spec_float := binary_normalize prec emax z 0 false.

(** The double nearest to [n / d], for [0 <= n] and [0 < d], with sign [s]. *)
Definition quotient (s : bool) (n d : Z) : spec_float :=
  if n =? 0 then S754_zero s
  else
    let '(q, e, l) := SFdiv_core_binary prec emax n 0 d 0 in
    binary_round_aux prec emax s q e l.

(** The decimal literal [n * 10^-k], e.g. [dec 625 2] for [6.25]. *)
Definition dec (n k : Z) : spec_float := quotient false n (10 ^ k).

Definition zero : spec_float := S754_zero false.

Definition is_zero (f : spec_float) : bool :=
  match f with S754_zero _ => true | _ => false end.

Definition is_finite (f : spec_float) : bool :=
  match f with S754_zero _ | S754_finite _ _ _ => true | _ => false end.

(** Integers of magnitude [int_limit] or more do not round to a finite
    double. *)
Definition int_limit : Z := 2 ^ 1024 - 2 ^ 970.

(** Exact comparison of an integer with a double; [None] for a NaN. *)
Definition Zcompare (z : Z) (f : spec_float) : option comparison :=
  match f with
  | S754_nan => None
  | S754_infinity s => Some (if s then Gt else Lt)
  | S754_zero _ => Some (z ?= 0)
  | S754_finite s m e =>
      let v := if s then Zneg m else Zpos m in
      Some (if 0 <=? e then z ?= v * 2 ^ e else z * 2 ^ (- e) ?= v)
  end.

(** [n / d] rounded to the nearest integer, ties to even ([0 <= n], [0 < d]). *)
Definition round_half_even (n d : Z) : Z :=
  let q := n / d in
  match 2 * (n mod d) ?= d with
  | Lt => q
  | Eq => if Z.even q then q else q + 1
  | Gt => q + 1
  end.

(** [round(f, ndigits)] for [0 <= ndigits]: the exact value of [f] is rounded
    to [ndigits] decimal places, ties to even, and the decimal result is
    converted back to the nearest double. *)
Definition round (f : spec_float) (ndigits : Z) : spec_float :=
  match f with
  | S754_finite s m e =>
      if 323 <? ndigits then f
      else
        let p := 10 ^ ndigits in
        let n := if 0 <=? e then Zpos m * 2 ^ e * p
                 else round_half_even (Zpos m * p) (2 ^ (- e)) in
        quotient s n p
  | _ => f
  end.
End F64.

(** ** Python numbers: [int] and [float] under the arithmetic operators *)

Inductive num : Type :=
| NInt (z : Z)
| NFloat (f : spec_float).

(** [float(z)], as the operators convert an [int] operand. *)
Definition float_of_int (z : Z) : result spec_float :=
  if (Z.abs z <? F64.int_limit)%Z then ret (F64.of_Z z) else raise OverflowError.

(** [a + b] *)
Definition py_add (a b : num) : result num :=
  match a, b with
  | NInt x, NInt y => ret (NInt (x + y))
  | NInt x, NFloat g => let* f := float_of_int x in ret (NFloat (F64.add f g))
  | NFloat f, NInt y => let* g := float_of_int y in ret (NFloat (F64.add f g))
  | NFloat f, NFloat g => ret (NFloat (F64.add f g))
  end.

(** [a * b] *)
Definition py_mul (a b : num) : result num :=
  match a, b with
  | NInt x, NInt y => ret (NInt (x * y))
  | NInt x, NFloat g => let* f := float_of_int x in ret (NFloat (F64.mul f g))
  | NFloat f, NInt y => let* g := float_of_int y in ret (NFloat (F64.mul f g))
  | NFloat f, NFloat g => ret (NFloat (F64.mul f g))
  end.

(** [a / b] on two [int]s: the correctly rounded quotient. *)
Definition int_truediv (a b : Z) : result spec_float :=
  if (b =? 0)%Z then raise ZeroDivisionError
  else if (F64.int_limit * Z.abs b <=? Z.abs a)%Z then raise OverflowError
  else ret (F64.quotient (xorb (a <? 0)%Z (b <? 0)%Z) (Z.abs a) (Z.abs b)).

Definition float_truediv (f g : spec_float) : result spec_float :=
  if F64.is_zero g then raise ZeroDivisionError else ret (F64.div f g).

(** [a / b] *)
Definition py_truediv (a b : num) : result spec_float :=
  match a, b with
  | NInt x, NInt y => int_truediv x y
  | NInt x, NFloat g => let* f := float_of_int x in float_truediv f g
  | NFloat f, NInt y => let* g := float_of_int y in float_truediv f g
  | NFloat f, NFloat g => float_truediv f g
  end.

(** [a < b]; an [int] is compared with a [float] exactly. *)
Definition py_lt (a b : num) : bool :=
  match a, b with
  | NInt x, NInt y => (x <? y)%Z
  | NInt x, NFloat g =>
      match F64.Zcompare x g with Some Lt => true | _ => false end
  | NFloat f, NInt y =>
      match F64.Zcompare y f with Some Gt => true | _ => false end
  | NFloat f, NFloat g => F64.ltb f g
  end.

(** [a > b] *)
Definition py_gt (a b : num) : bool := py_lt b a.

(** [round(a, ndigits)] for a non-negative [ndigits]. *)
Definition py_round (a : num) (ndigits : Z) : num :=
  match a with
  | NInt z => NInt z
  | NFloat f => NFloat (F64.round f ndigits)
  end.

(** [sum(l)]: the items are added from left to right, starting from [0],
    each addition rounded as [+] rounds it (CPython up to 3.11; from 3.12 on
    [sum] carries a compensation term through a run of floats, which can
    change the last bits of a total of three or more floats). *)
Definition py_sum (l : list num) : result num := foldM py_add l (NInt 0).

(** [x or 0] on a nullable [INTEGER] column. *)
Definition int_or_0 (x : option Z) : Z :=
  match x with Some z => z | None => 0%Z end.

(** [x or 0] on a nullable [REAL] column: [None] and both zeros are falsy. *)
Definition float_or_0 (x : option spec_float) : num :=
  match x with
  | Some f => if F64.is_zero f then NInt 0 else NFloat f
  | None => NInt 0
  end.

(** ** Strings *)

(** [c.lower()] on one ASCII character. *)
Definition lower_ascii (c : ascii) : ascii :=
  let n := nat_of_ascii c in
  if (65 <=? n)%nat && (n <=? 90)%nat then ascii_of_nat (n + 32) else c.

(** [s.lower()] *)
Fixpoint lower (s : string) : string :=
  match s with
  | EmptyString => EmptyString
  | String c s' => String (lower_ascii c) (lower s')
  end.

(** [s.startswith(p)] *)
Fixpoint startswith (s p : string) : bool :=
  match p, s with
  | EmptyString, _ => true
  | String a p', String b s' => Ascii.eqb a b && startswith s' p'
  | String _ _, EmptyString => false
  end.

(** [sub in s]: [sub] occurs somewhere in [s]. *)
Fixpoint contains (sub s : string) : bool :=
  startswith s sub ||
  match s with
  | EmptyString => false
  | String _ s' => contains sub s'
  end.

(** White space as [str.strip] sees it. *)
Definition is_whitespace (c : ascii) : bool :=
  let n := nat_of_ascii c in
  ((9 <=? n)%nat && (n <=? 13)%nat) || ((28 <=? n)%nat && (n <=? 32)%nat).

Fixpoint lstrip (s : string) : string :=
  match s with
  | EmptyString => EmptyString
  | String c s' => if is_whitespace c then lstrip s' else s
  end.

Fixpoint rstrip (s : string) : string :=
  match s with
  | EmptyString => EmptyString
  | String c s' =>
      match rstrip s' with
      | EmptyString => if is_whitespace c then EmptyString else String c EmptyString
      | t => String c t
      end
  end.

(** [s.strip()] *)
Definition strip (s : string) : string := rstrip (lstrip s).

(** [s[n:]] *)
Fixpoint drop_chars (n : nat) (s : string) : string :=
  match n, s with
  | O, _ => s
  | S n', String _ s' => drop_chars n' s'
  | S _, EmptyString => EmptyString
  end.

(** [sep.join(l)] *)
Fixpoint str_join (sep : string) (l : list string) : string :=
  match l with
  | [] => EmptyString
  | [x] => x
  | x :: l' => x +:+ sep +:+ str_join sep l'
  end.

(** ** Pricing tables ([COST_TABLE]) and the pricing lookup *)

(** The value of a pricing entry: USD per million tokens. *)
Record rates : Type := {
  input : spec_float;
  output : spec_float;
  cache_read : spec_float;
  cache_write : spec_float
}.

Definition zero_rates : rates :=
  {| input := F64.zero; output := F64.zero;
     cache_read := F64.zero; cache_write := F64.zero |}.

(** [key=len, reverse=True]: [k] goes behind the strictly longer keys and in
    front of the others. *)
Fixpoint insert_by_len (k : string) (l : list string) : list string :=
  match l with
  | [] => [k]
  | k' :: l' =>
      if (String.length k <? String.length k')%nat
      then k' :: insert_by_len k l'
      else k :: l
  end.

(** [sorted(keys, key=len, reverse=True)]: a stable sort, so keys of equal
    length keep the order of the table. *)
Definition sorted_by_len_desc (keys : list string) : list string :=
  foldr insert_by_len [] keys.

(** [table[k]] for a key of the table. *)
Fixpoint table_lookup (table : list (string * rates)) (k : string) : option rates :=
  match table with
  | [] => None
  | (k', r) :: table' => if String.eqb k k' then Some r else table_lookup table' k
  end.

(** [get_model_pricing] as both providers write it, over their [COST_TABLE]. *)
Definition lookup_pricing (table : list (string * rates)) (model : string) : rates :=
  let model_lower := lower model in
  match List.find (fun prefix => contains prefix model_lower)
                  (sorted_by_len_desc (map fst table)) with
  | Some prefix => default zero_rates (table_lookup table prefix)
  | None => zero_rates
  end.

Definition price (i o r w : spec_float) : rates :=
  {| input := i; output := o; cache_read := r; cache_write := w |}.

Module AnthropicProvider.
Import F64.
Local Open Scope Z_scope.

Definition COST_TABLE : list (string * rates) :=
  [ ("claude-opus-4-6", price (dec 50 1) (dec 250 1) (dec 50 2) (dec 625 2));
    ("claude-opus-4-5", price (dec 50 1) (dec 250 1) (dec 50 2) (dec 625 2));
    ("claude-opus-4-1", price (dec 150 1) (dec 750 1) (dec 150 2) (dec 1875 2));
    ("claude-opus-4", price (dec 150 1) (dec 750 1) (dec 150 2) (dec 1875 2));
    ("claude-sonnet-4", price (dec 30 1) (dec 150 1) (dec 30 2) (dec 375 2));
    ("claude-haiku-4-5", price (dec 10 1) (dec 50 1) (dec 10 2) (dec 125 2));
    ("claude-haiku-3-5", price (dec 80 2) (dec 40 1) (dec 8 2) (dec 10 1));
    ("claude-haiku", price (dec 80 2) (dec 40 1) (dec 8 2) (dec 10 1)) ]%string.

Definition get_model_pricing (model : string) : rates :=
  lookup_pricing COST_TABLE model.
End AnthropicProvider.

Module OpenAICompatibleProvider.
Import F64.
Local Open Scope Z_scope.

Definition COST_TABLE : list (string * rates) :=
  [ ("kimi-k2-0711", price (dec 60 2) (dec 30 1) (dec 10 2) (dec 60 2));
    ("kimi-k2-0905", price (dec 60 2) (dec 250 2) (dec 15 2) (dec 60 2));
    ("kimi-k2-thinking", price (dec 60 2) (dec 250 2) (dec 15 2) (dec 60 2));
    ("kimi-k2.5", price (dec 60 2) (dec 250 2) (dec 15 2) (dec 60 2));
    ("kimi-k2", price (dec 60 2) (dec 250 2) (dec 15 2) (dec 60 2));
    ("gpt-4o", price (dec 250 2) (dec 100 1) (dec 125 2) (dec 0 1));
    ("gpt-4o-mini", price (dec 15 2) (dec 60 2) (dec 75 3) (dec 0 1));
    ("gpt-4-turbo", price (dec 100 1) (dec 300 1) (dec 0 1) (dec 0 1));
    ("gpt-4", price (dec 300 1) (dec 600 1) (dec 0 1) (dec 0 1));
    ("gpt-3.5-turbo", price (dec 50 2) (dec 150 2) (dec 0 1) (dec 0 1));
    ("o1", price (dec 150 1) (dec 600 1) (dec 750 2) (dec 0 1));
    ("o1-mini", price (dec 30 1) (dec 120 1) (dec 150 2) (dec 0 1));
    ("o1-pro", price (dec 1500 1) (dec 6000 1) (dec 0 1) (dec 0 1));
    ("deepseek-chat", price (dec 27 2) (dec 110 2) (dec 7 2) (dec 27 2));
    ("deepseek-reasoner", price (dec 55 2) (dec 219 2) (dec 14 2) (dec 55 2));
    ("qwen", price (dec 0 1) (dec 0 1) (dec 0 1) (dec 0 1));
    ("llama", price (dec 0 1) (dec 0 1) (dec 0 1) (dec 0 1));
    ("mistral", price (dec 0 1) (dec 0 1) (dec 0 1) (dec 0 1)) ]%string.

Definition get_model_pricing (model : string) : rates :=
  lookup_pricing COST_TABLE model.
End OpenAICompatibleProvider.

(** The provider classes of the repository; [MoonshotProvider] and
    [LocalProvider] inherit from [OpenAICompatibleProvider]. *)
Inductive provider_class : Type :=
| Anthropic
| OpenAICompatible
| Moonshot
| Local.

(** [self.get_model_pricing(model)], resolved along the class hierarchy:
    [LocalProvider] overrides it, [MoonshotProvider] inherits it. *)
Definition get_model_pricing (cls : provider_class) (model : string) : rates :=
  match cls with
  | Anthropic => AnthropicProvider.get_model_pricing model
  | OpenAICompatible | Moonshot => OpenAICompatibleProvider.get_model_pricing model
  | Local => zero_rates
  end.

(** ** Cost calculation ([LLMProvider.calculate_cost]) *)

(** [usage.get(key, 0)] *)
Definition usage_get (usage : gmap string Z) (key : string) : Z :=
  default 0%Z (usage !! key).

(** [tokens * rate / 1_000_000] *)
Definition per_million (tokens : Z) (rate : spec_float) : result spec_float :=
  let* x := py_mul (NInt tokens) (NFloat rate) in
  py_truediv x (NInt 1000000).

Definition calculate_cost (cls : provider_class) (usage : gmap string Z)
    (model : string) : result spec_float :=
  let rates := get_model_pricing cls model in
  let* a := per_million (usage_get usage "input_tokens") (input rates) in
  let* b := per_million (usage_get usage "output_tokens") (output rates) in
  let ab := F64.add a b in
  let* c := per_million (usage_get usage "cache_read_tokens") (cache_read rates) in
  let abc := F64.add ab c in
  let* d := per_million (usage_get usage "cache_write_tokens") (cache_write rates) in
  ret (F64.add abc d).

(** ** Session status ([db.query_session_status]) *)

(** A row of the [SELECT]: the columns the function reads, each nullable. *)
Record usage_row : Type := {
  conversation_history_chars : option Z;
  cache_read_tokens : option Z;
  cache_write_tokens : option Z;
  estimated_cost_usd : option spec_float
}.

(** The returned dict. *)
Record session_status : Type := {
  agent : string;
  current_session_turns : Z;
  current_history_chars : Z;
  last_turn_cost : num;
  avg_cost_last_5 : num;
  cache_write_pct_last_5 : num;
  cost_since_last_reset : num;
  turns_since_last_reset : Z;
  recommendation : string
}.

(** [r["conversation_history_chars"] or 0] *)
Definition history_chars (r : usage_row) : Z :=
  int_or_0 (conversation_history_chars r).

(** [r["estimated_cost_usd"] or 0] *)
Definition cost_or_0 (r : usage_row) : num :=
  float_or_0 (estimated_cost_usd r).

(** [(r["cache_read_tokens"] or 0) + (r["cache_write_tokens"] or 0)] *)
Definition cache_tokens (r : usage_row) : Z :=
  (int_or_0 (cache_read_tokens r) + int_or_0 (cache_write_tokens r))%Z.

(** [r["cache_write_tokens"] or 0] *)
Definition write_tokens (r : usage_row) : Z :=
  int_or_0 (cache_write_tokens r).

(** [sum] over [int]s. *)
Definition sum_Z (l : list Z) : Z := fold_left Z.add l 0%Z.

(** [prev > 1000 and curr < prev * 0.5] *)
Definition is_reset (prev curr : Z) : result bool :=
  if (1000 <? prev)%Z then
    let* half := py_mul (NInt prev) (NFloat (F64.dec 5 1)) in
    ret (py_lt (NInt curr) half)
  else ret false.

(** The body of the loop over [i], with [last_reset_idx] as its state. *)
Definition reset_step (rows : list usage_row) (last_reset_idx i : nat) : result nat :=
  match rows !! (i - 1)%nat, rows !! i with
  | Some prev, Some curr =>
      let* b := is_reset (history_chars prev) (history_chars curr) in
      ret (if b then i else last_reset_idx)
  | _, _ => raise IndexError
  end.

(** [for i in range(1, len(rows))], starting from [last_reset_idx = 0]. *)
Definition find_last_reset (rows : list usage_row) : result nat :=
  foldM (reset_step rows) (seq 1 (length rows - 1)) 0%nat.

(** [l[-5:]] *)
Definition last_five {A} (l : list A) : list A := drop (length l - 5) l.

(** The recommendation cascade. *)
Definition recommend (current_history char_limit : Z)
    (cache_write_pct : spec_float) (len_last_5 : nat) : result string :=
  let* limit_2_5 := py_mul (NInt char_limit) (NFloat (F64.dec 25 1)) in
  if py_gt (NInt current_history) limit_2_5 then ret "reset_recommended"
  else if py_gt (NInt current_history) (NInt (char_limit * 2)) then ret "compact_soon"
  else if py_gt (NInt current_history) (NInt char_limit) then ret "monitor"
  else if py_gt (NFloat cache_write_pct) (NFloat (F64.dec 20 2))
          && (3 <=? len_last_5)%nat then ret "cache_unstable"
  else ret "healthy".

(** [query_session_status(agent, char_limit)], with the result [rows] of its
    query as an argument: the agent's rows of the last 24 hours, in ascending
    order of time. *)
Definition query_session_status (agent : string) (rows : list usage_row)
    (char_limit : Z) : result session_status :=
  match rows with
  | [] =>
      ret {| agent := agent;
             current_session_turns := 0;
             current_history_chars := 0;
             last_turn_cost := NInt 0;
             avg_cost_last_5 := NInt 0;
             cache_write_pct_last_5 := NInt 0;
             cost_since_last_reset := NInt 0;
             turns_since_last_reset := 0;
             recommendation := "no_data" |}
  | _ :: _ =>
      let* last_reset_idx := find_last_reset rows in
      let session_rows := drop last_reset_idx rows in
      let* last_row :=
        match last session_rows with
        | Some r => ret r
        | None => raise IndexError
        end in
      let current_history := history_chars last_row in
      let last_cost := cost_or_0 last_row in
      let* total_cost := py_sum (map cost_or_0 session_rows) in
      let last_5 := last_five session_rows in
      let* sum_cost_5 := py_sum (map cost_or_0 last_5) in
      let* avg_cost_5 :=
        py_truediv sum_cost_5 (NInt (Z.max (Z.of_nat (length last_5)) 1)) in
      let total_cache_5 := sum_Z (map cache_tokens last_5) in
      let total_write_5 := sum_Z (map write_tokens last_5) in
      let* cache_write_pct :=
        py_truediv (NInt total_write_5) (NInt (Z.max total_cache_5 1)) in
      let* rec :=
        recommend current_history char_limit cache_write_pct (length last_5) in
      ret {| agent := agent;
             current_session_turns := Z.of_nat (length session_rows);
             current_history_chars := current_history;
             last_turn_cost := py_round last_cost 6;
             avg_cost_last_5 := py_round (NFloat avg_cost_5) 6;
             cache_write_pct_last_5 := py_round (NFloat cache_write_pct) 4;
             cost_since_last_reset := py_round total_cost 6;
             turns_since_last_reset := Z.of_nat (length session_rows);
             recommendation := rec |}
  end.

(** ** Python values of a parsed JSON document *)

#[warnings="-register-all"]
Inductive pyval : Type :=
| PNone
| PBool (b : bool)
| PInt (z : Z)
| PFloat (f : spec_float)
| PStr (s : string)
| PList (l : list pyval)
| PDict (d : list (string * pyval)).

(** [d[k]] on the items of a dict, if present. *)
Fixpoint dict_get (d : list (string * pyval)) (k : string) : option pyval :=
  match d with
  | [] => None
  | (k', v) :: d' => if String.eqb k k' then Some v else dict_get d' k
  end.

(** [v.get(k, dflt)]: only a dict has the method. *)
Definition py_get (v : pyval) (k : string) (dflt : pyval) : result pyval :=
  match v with
  | PDict d => ret (default dflt (dict_get d k))
  | _ => raise AttributeError
  end.

(** Truth value of [v], as [if v:] tests it. *)
Definition truthy (v : pyval) : bool :=
  match v with
  | PNone => false
  | PBool b => b
  | PInt z => negb (z =? 0)%Z
  | PFloat f => negb (F64.is_zero f)
  | PStr s => negb (String.eqb s EmptyString)
  | PList l => match l with [] => false | _ => true end
  | PDict d => match d with [] => false | _ => true end
  end.

(** [len(v)] *)
Definition py_len (v : pyval) : result Z :=
  match v with
  | PStr s => ret (Z.of_nat (String.length s))
  | PList l => ret (Z.of_nat (length l))
  | PDict d => ret (Z.of_nat (length d))
  | _ => raise TypeError
  end.

(** The characters of a string, each a string of length one. *)
Fixpoint chars (s : string) : list pyval :=
  match s with
  | EmptyString => []
  | String c s' => PStr (String c EmptyString) :: chars s'
  end.

(** The items [for x in v] visits. *)
Definition py_iter (v : pyval) : result (list pyval) :=
  match v with
  | PList l => ret l
  | PStr s => ret (chars s)
  | PDict d => ret (map (fun kv => PStr (fst kv)) d)
  | _ => raise TypeError
  end.

(** [v[0]] *)
Definition py_first (v : pyval) : result pyval :=
  match v with
  | PList (x :: _) => ret x
  | PList [] => raise IndexError
  | PStr (String c _) => ret (PStr (String c EmptyString))
  | PStr EmptyString => raise IndexError
  | PDict _ => raise KeyError
  | _ => raise TypeError
  end.

(** [v == s] for a string literal [s]. *)
Definition is_str (v : pyval) (s : string) : bool :=
  match v with PStr t => String.eqb t s | _ => false end.

(** ** Request analysis ([AnthropicProvider.analyze_request]) *)

Section Builtins.

(** [str(v)] of the standard library, for a value that is not a string. *)
Variable py_str : pyval -> string.

(** [json.dumps(v, separators=(",", ":"))] of the standard library. *)
Variable json_dumps : pyval -> result string.

(** [json.loads(s)] of the standard library; [JSONDecodeError] on a text that
    is not a JSON document. *)
Variable json_loads : string -> result pyval.

(** Workspace file markers and their metric keys, in the order of the dict. *)
Definition WORKSPACE_FILE_MAP : list (string * string) :=
  [ ("AGENTS.md", "workspace_agents_chars");
    ("SOUL.md", "workspace_soul_chars");
    ("TOOLS.md", "workspace_tools_chars");
    ("IDENTITY.md", "workspace_identity_chars");
    ("USER.md", "workspace_user_chars");
    ("HEARTBEAT.md", "workspace_heartbeat_chars");
    ("BOOTSTRAP.md", "workspace_bootstrap_chars");
    ("MEMORY.md", "workspace_memory_chars") ]%string.

(** [for key in keys: result[key] = 0] *)
Definition zero_keys (keys : list string) (result : gmap string Z) : gmap string Z :=
  foldl (fun acc key => <[key := 0%Z]> acc) result keys.

(** [f"## {filename}" in text or f"# {filename}" in text] *)
Definition has_marker (text filename : string) : bool :=
  contains ("## " +:+ filename) text || contains ("# " +:+ filename) text.

(** The inner loop: the metric key of the first file whose marker the text
    holds, or [None] when the loop ends without [break]. *)
Definition matched_workspace (text : string) : option string :=
  snd <$> List.find (fun entry => has_marker text (fst entry)) WORKSPACE_FILE_MAP.

(** [block.get("text", "")], converted with [str] when it is not a string. *)
Definition block_text (d : list (string * pyval)) : string :=
  match default (PStr EmptyString) (dict_get d "text") with
  | PStr s => s
  | v => py_str v
  end.

(** The state of the loop over the blocks. *)
Record prompt_acc : Type := {
  total_chars : Z;
  base_chars : Z;
  workspace_chars : gmap string Z
}.

(** The body of the loop over the blocks. *)
Definition analyze_block (acc : prompt_acc) (block : pyval) : prompt_acc :=
  match block with
  | PDict d =>
      let text := block_text d in
      let block_len := Z.of_nat (String.length text) in
      let total := (total_chars acc + block_len)%Z in
      match matched_workspace text with
      | Some metric_key =>
          {| total_chars := total;
             base_chars := base_chars acc;
             workspace_chars :=
               <[metric_key := (default 0%Z (workspace_chars acc !! metric_key)
                                + block_len)%Z]> (workspace_chars acc) |}
      | None =>
          {| total_chars := total;
             base_chars := (base_chars acc + block_len)%Z;
             workspace_chars := workspace_chars acc |}
      end
  | _ => acc
  end.

Definition _analyze_system_prompt (system : pyval) : gmap string Z :=
  let metric_keys := map snd WORKSPACE_FILE_MAP in
  let result :=
    zero_keys metric_keys
      (<["base_prompt_chars" := 0%Z]> {["system_prompt_total_chars" := 0%Z]}) in
  let analyze (blocks : list pyval) :=
    let acc := foldl analyze_block
                 {| total_chars := 0; base_chars := 0;
                    workspace_chars := zero_keys metric_keys ∅ |} blocks in
    foldl (fun res key => <[key := default 0%Z (workspace_chars acc !! key)]> res)
      (<["base_prompt_chars" := base_chars acc]>
         (<["system_prompt_total_chars" := total_chars acc]> result))
      metric_keys in
  match system with
  | PStr s => analyze [PDict [("type", PStr "text"); ("text", PStr s)]]
  | PList blocks => analyze blocks
  | _ => result
  end.

(** The loop of [_analyze_messages] over the messages. *)
Fixpoint count_roles (msgs : list pyval) (user_count assistant_count : Z)
    : result (Z * Z) :=
  match msgs with
  | [] => ret (user_count, assistant_count)
  | msg :: msgs' =>
      let* role := py_get msg "role" (PStr EmptyString) in
      if is_str role "user" then count_roles msgs' (user_count + 1)%Z assistant_count
      else if is_str role "assistant"
           then count_roles msgs' user_count (assistant_count + 1)%Z
      else count_roles msgs' user_count assistant_count
  end.

Definition _analyze_messages (messages : pyval) : result (gmap string Z) :=
  let* msgs := py_iter messages in
  let* counts := count_roles msgs 0%Z 0%Z in
  let* history_chars :=
    match json_dumps messages with
    | inr history_str => ret (Z.of_nat (String.length history_str))
    | inl TypeError | inl (ValueError _) => ret 0%Z
    | inl e => raise e
    end in
  let* message_count := py_len messages in
  ret (<["message_count" := message_count]>
         (<["user_message_count" := fst counts]>
            (<["assistant_message_count" := snd counts]>
               {["conversation_history_chars" := history_chars]}))).

(** [analyze_request(body)], on the items of the body. *)
Definition analyze_request (body : list (string * pyval)) : result (gmap string Z) :=
  let result :=
    zero_keys
      ([ "system_prompt_total_chars"; "base_prompt_chars"; "message_count";
         "user_message_count"; "assistant_message_count";
         "conversation_history_chars"; "tool_count" ]%string
       ++ map snd WORKSPACE_FILE_MAP) ∅ in
  let system := default (PList []) (dict_get body "system") in
  let result :=
    if truthy system then _analyze_system_prompt system ∪ result else result in
  let messages := default (PList []) (dict_get body "messages") in
  let* msg_analysis := _analyze_messages messages in
  let result := msg_analysis ∪ result in
  let* tool_count := py_len (default (PList []) (dict_get body "tools")) in
  ret (<["tool_count" := tool_count]> result).

(** ** Stream parsing ([extract_usage_from_stream]) *)

(** The lines up to [json.loads], shared by both providers: [None] for a line
    that is skipped, the parsed payload otherwise. *)
Definition stream_payload (line : string) : result (option pyval) :=
  let stripped := strip line in
  if negb (startswith stripped "data:") then ret None
  else
    let data_str := strip (drop_chars 5 stripped) in
    if String.eqb data_str "[DONE]" then ret None
    else
      match json_loads data_str with
      | inr data => ret (Some data)
      | inl JSONDecodeError => ret None
      | inl e => raise e
      end.

(** [result if result else None] *)
Definition nonempty_or_none (result : gmap string pyval) : option (gmap string pyval) :=
  if decide (result = ∅) then None else Some result.

(** The lines of [AnthropicProvider.extract_usage_from_stream] after
    [json.loads]. *)
Definition anthropic_usage_of (data : pyval) (event_type : option string)
    : result (option (gmap string pyval)) :=
  let result : gmap string pyval := ∅ in
  let* result :=
    if decide (event_type = Some "message_start"%string) then
      let* message := py_get data "message" (PDict []) in
      let* msg_usage := py_get message "usage" (PDict []) in
      if truthy msg_usage then
        let* i := py_get msg_usage "input_tokens" (PInt 0) in
        let result := <["input_tokens" := i]> result in
        let* r := py_get msg_usage "cache_read_input_tokens" (PInt 0) in
        let result := <["cache_read_tokens" := r]> result in
        let* w := py_get msg_usage "cache_creation_input_tokens" (PInt 0) in
        ret (<["cache_write_tokens" := w]> result)
      else ret result
    else if decide (event_type = Some "message_delta"%string) then
      let* delta_usage := py_get data "usage" (PDict []) in
      let* delta := py_get data "delta" (PDict []) in
      let* o := py_get delta_usage "output_tokens" PNone in
      let result :=
        match o with
        | PNone => result
        | _ => <["output_tokens" := o]> result
        end in
      let* stop := py_get delta "stop_reason" PNone in
      ret (if truthy stop then <["stop_reason" := stop]> result else result)
    else ret result in
  ret (nonempty_or_none result).

Definition anthropic_extract_usage_from_stream (line : string)
    (event_type : option string) : result (option (gmap string pyval)) :=
  let* payload := stream_payload line in
  match payload with
  | None => ret None
  | Some data => anthropic_usage_of data event_type
  end.

(** The lines of [OpenAICompatibleProvider.extract_usage_from_stream] after
    [json.loads]. *)
Definition openai_usage_of (data : pyval) : result (option (gmap string pyval)) :=
  let result : gmap string pyval := ∅ in
  let* usage := py_get data "usage" (PDict []) in
  let* result :=
    if truthy usage then
      let* p := py_get usage "prompt_tokens" (PInt 0) in
      let result := <["input_tokens" := p]> result in
      let* c := py_get usage "completion_tokens" (PInt 0) in
      let result := <["output_tokens" := c]> result in
      let* details := py_get usage "prompt_tokens_details" (PDict []) in
      if truthy details then
        let* cached := py_get details "cached_tokens" (PInt 0) in
        ret (<["cache_read_tokens" := cached]> result)
      else ret result
    else ret result in
  let* choices := py_get data "choices" (PList []) in
  let* result :=
    if truthy choices then
      let* choice := py_first choices in
      let* finish_reason := py_get choice "finish_reason" PNone in
      ret (if truthy finish_reason
           then <["stop_reason" := finish_reason]> result else result)
    else ret result in
  ret (nonempty_or_none result).

Definition openai_extract_usage_from_stream (line : string)
    (event_type : option string) : result (option (gmap string pyval)) :=
  let* payload := stream_payload line in
  match payload with
  | None => ret None
  | Some data => openai_usage_of data
  end.

End Builtins.

(** ** Provider registry ([ProviderRegistry]) *)

(** A provider object: its class and [self.config]. *)
Record provider_instance : Type := {
  instance_class : provider_class;
  instance_config : list (string * pyval)
}.

(** The class attributes [_providers] (a dict in insertion order) and
    [_instances], and the provider objects created so far.  An object is
    identified by its position in [objects]: two references are the same
    object exactly when the positions are equal. *)
Record registry : Type := {
  _providers : list (string * provider_class);
  _instances : gmap string nat;
  objects : list provider_instance
}.

Definition empty_registry : registry :=
  {| _providers := []; _instances := ∅; objects := [] |}.

(** [name in cls._providers], with the class when it is. *)
Fixpoint providers_get (providers : list (string * provider_class)) (name : string)
    : option provider_class :=
  match providers with
  | [] => None
  | (n, c) :: providers' =>
      if String.eqb name n then Some c else providers_get providers' name
  end.

(** [cls._providers[name] = provider_class]: an existing key keeps its place. *)
Fixpoint providers_set (providers : list (string * provider_class)) (name : string)
    (c : provider_class) : list (string * provider_class) :=
  match providers with
  | [] => [(name, c)]
  | (n, c') :: providers' =>
      if String.eqb name n then (n, c) :: providers'
      else (n, c') :: providers_set providers' name c
  end.

Definition register (name : string) (c : provider_class) (s : registry) : registry :=
  {| _providers := providers_set (_providers s) (lower name) c;
     _instances := _instances s;
     objects := objects s |}.

(** [provider_class(config)]: a new object; [self.config = config or {}]. *)
Definition construct (c : provider_class) (config : option (list (string * pyval)))
    (s : registry) : nat * registry :=
  (length (objects s),
   {| _providers := _providers s;
      _instances := _instances s;
      objects := objects s ++ [ {| instance_class := c;
                                   instance_config := default [] config |} ] |}).

(** [if config:] for an optional dict. *)
Definition config_given (config : option (list (string * pyval))) : bool :=
  match config with
  | Some (_ :: _) => true
  | _ => false
  end.

(** The message of the [ValueError] for an unknown name. *)
Definition unknown_provider (name : string) (s : registry) : string :=
  let joined := str_join ", " (map fst (_providers s)) in
  let available := if String.eqb joined EmptyString then "none"%string else joined in
  "Unknown provider: " +:+ name +:+ ". Available: " +:+ available.

(** [ProviderRegistry.get(name, config)]: the outcome and the registry after
    the call. *)
Definition get (name : string) (config : option (list (string * pyval)))
    (s : registry) : result nat * registry :=
  let name_lower := lower name in
  match providers_get (_providers s) name_lower with
  | None => (raise (ValueError (unknown_provider name s)), s)
  | Some c =>
      if config_given config then
        let '(obj, s') := construct c config s in (ret obj, s')
      else
        match _instances s !! name_lower with
        | Some obj => (ret obj, s)
        | None =>
            let '(obj, s') := construct c None s in
            (ret obj,
             {| _providers := _providers s';
                _instances := <[name_lower := obj]> (_instances s');
                objects := objects s' |})
        end
  end.

Definition get_or_none (name : string) (config : option (list (string * pyval)))
    (s : registry) : result (option nat) * registry :=
  match get name config s with
  | (inr obj, s') => (ret (Some obj), s')
  | (inl (ValueError _), s') => (ret None, s')
  | (inl e, s') => (raise e, s')
  end.

Definition list_providers (s : registry) : list string := map fst (_providers s).

Definition is_registered (name : string) (s : registry) : bool :=
  match providers_get (_providers s) (lower name) with
  | Some _ => true
  | None => false
  end.

Definition clear_cache (s : registry) : registry :=
  {| _providers := _providers s; _instances := ∅; objects := objects s |}.

Definition unregister (name : string) (s : registry) : bool * registry :=
  let name_lower := lower name in
  match providers_get (_providers s) name_lower with
  | Some _ =>
      (true,
       {| _providers :=
            List.filter (fun entry => negb (String.eqb name_lower (fst entry)))
                        (_providers s);
          _instances := delete name_lower (_instances s);
          objects := objects s |})
  | None => (false, s)
  end.

(** The registry after the four [@register_provider] decorators have run. *)
Definition initial_registry : registry :=
  register "local" Local
    (register "moonshot" Moonshot
       (register "openai" OpenAICompatible
          (register "anthropic" Anthropic empty_registry))).

(** ** Provider properties ([name], [default_base_url], [base_url], [api_endpoint]) *)

Module LLMProvider.

(** The [name] property of each class. *)
Definition name (c : provider_class) : string :=
  match c with
  | Anthropic => "anthropic"
  | OpenAICompatible => "openai"
  | Moonshot => "moonshot"
  | Local => "local"
  end.

(** The [default_base_url] property; [LocalProvider] reads it from the
    config. *)
Definition default_base_url (self : provider_instance) : pyval :=
  match instance_class self with
  | Anthropic => PStr "https://api.anthropic.com"
  | OpenAICompatible => PStr "https://api.openai.com"
  | Moonshot => PStr "https://api.moonshot.ai"
  | Local =>
      default (PStr "http://localhost:8000")
              (dict_get (instance_config self) "base_url")
  end.

(** [self.config.get("base_url", self.default_base_url)] *)
Definition base_url (self : provider_instance) : pyval :=
  default (default_base_url self) (dict_get (instance_config self) "base_url").

(** The [api_endpoint] property; the three OpenAI-compatible classes share
    it. *)
Definition api_endpoint (c : provider_class) : string :=
  match c with
  | Anthropic => "/v1/messages"
  | OpenAICompatible | Moonshot | Local => "/v1/chat/completions"
  end.

End LLMProvider.

(** ** Authentication headers ([get_auth_headers]) *)

(** [for key in keys: val = request_headers.get(key.lower()); if val:
    headers[key] = val] *)
Definition forward_headers (keys : list string)
    (request_headers headers : gmap string string) : gmap string string :=
  foldl (fun headers key =>
           match request_headers !! lower key with
           | Some val =>
               if String.eqb val EmptyString then headers else <[key := val]> headers
           | None => headers
           end) headers keys.

(** [LLMProvider.get_auth_headers]: nothing is forwarded. *)
Definition base_get_auth_headers (request_headers : gmap string string)
    : gmap string string := ∅.

Definition anthropic_get_auth_headers (request_headers : gmap string string)
    : gmap string string :=
  let headers := forward_headers ["x-api-key"%string] request_headers ∅ in
  forward_headers
    [ "anthropic-version"; "anthropic-beta";
      "anthropic-dangerous-direct-browser-access" ]%string
    request_headers headers.

Definition openai_get_auth_headers (request_headers : gmap string string)
    : gmap string string :=
  let headers : gmap string string := ∅ in
  let headers :=
    match request_headers !! "authorization"%string with
    | Some auth =>
        if String.eqb auth EmptyString then headers
        else <["Authorization"%string := auth]> headers
    | None => headers
    end in
  match request_headers !! "x-api-key"%string with
  | Some api_key =>
      if String.eqb api_key EmptyString then headers
      else <["x-api-key"%string := api_key]> headers
  | None => headers
  end.

(** ** Usage of a non-streaming response ([extract_usage_from_response]) *)

Definition anthropic_extract_usage_from_response (response : pyval)
    : result (gmap string pyval) :=
  let* usage := py_get response "usage" (PDict []) in
  let* i := py_get usage "input_tokens" (PInt 0) in
  let* o := py_get usage "output_tokens" (PInt 0) in
  let* r := py_get usage "cache_read_input_tokens" (PInt 0) in
  let* w := py_get usage "cache_creation_input_tokens" (PInt 0) in
  let* stop := py_get response "stop_reason" PNone in
  ret (<["stop_reason"%string := stop]>
         (<["cache_write_tokens"%string := w]>
            (<["cache_read_tokens"%string := r]>
               (<["output_tokens"%string := o]>
                  {["input_tokens"%string := i]})))).

Definition openai_extract_usage_from_response (response : pyval)
    : result (gmap string pyval) :=
  let* usage := py_get response "usage" (PDict []) in
  let* choices := py_get response "choices" (PList []) in
  let* stop_reason :=
    if truthy choices then
      let* choice := py_first choices in
      py_get choice "finish_reason" PNone
    else ret PNone in
  let* p := py_get usage "prompt_tokens" (PInt 0) in
  let* c := py_get usage "completion_tokens" (PInt 0) in
  let* details := py_get usage "prompt_tokens_details" (PDict []) in
  let* cached := py_get details "cached_tokens" (PInt 0) in
  ret (<["stop_reason"%string := stop_reason]>
         (<["cache_write_tokens"%string := PInt 0]>
            (<["cache_read_tokens"%string := cached]>
               (<["output_tokens"%string := c]>
                  {["input_tokens"%string := p]})))).

(** ** Request analysis and rewriting ([OpenAICompatibleProvider]) *)

(** [d[k] = v] on the items of a dict: an existing key keeps its place. *)
Fixpoint dict_set (d : list (string * pyval)) (k : string) (v : pyval)
    : list (string * pyval) :=
  match d with
  | [] => [(k, v)]
  | (k', v') :: d' =>
      if String.eqb k k' then (k', v) :: d' else (k', v') :: dict_set d' k v
  end.

(** The counters of the loop over the messages. *)
Record message_counts : Type := {
  user_count : Z;
  assistant_count : Z;
  system_chars : Z
}.

(** The body of the loop over the blocks of a system message. *)
Definition add_block_chars (system_chars : Z) (block : pyval) : Z :=
  match block with
  | PDict d =>
      match default (PStr EmptyString) (dict_get d "text") with
      | PStr text => (system_chars + Z.of_nat (String.length text))%Z
      | _ => system_chars
      end
  | PStr s => (system_chars + Z.of_nat (String.length s))%Z
  | _ => system_chars
  end.

Section OpenAIRequests.

Variable json_dumps : pyval -> result string.

(** The body of the loop over the messages. *)
Definition openai_analyze_message (acc : message_counts) (msg : pyval)
    : result message_counts :=
  let* role := py_get msg "role" (PStr EmptyString) in
  let* content := py_get msg "content" (PStr EmptyString) in
  if is_str role "user" then
    ret {| user_count := (user_count acc + 1)%Z;
           assistant_count := assistant_count acc;
           system_chars := system_chars acc |}
  else if is_str role "assistant" then
    ret {| user_count := user_count acc;
           assistant_count := (assistant_count acc + 1)%Z;
           system_chars := system_chars acc |}
  else if is_str role "system" || is_str role "developer" then
    match content with
    | PStr s =>
        ret {| user_count := user_count acc;
               assistant_count := assistant_count acc;
               system_chars := (system_chars acc + Z.of_nat (String.length s))%Z |}
    | PList blocks =>
        ret {| user_count := user_count acc;
               assistant_count := assistant_count acc;
               system_chars := foldl add_block_chars (system_chars acc) blocks |}
    | _ =>
        let* dumped := json_dumps content in
        ret {| user_count := user_count acc;
               assistant_count := assistant_count acc;
               system_chars :=
                 (system_chars acc + Z.of_nat (String.length dumped))%Z |}
    end
  else ret acc.

(** [OpenAICompatibleProvider.analyze_request(body)], on the items of the
    body. *)
Definition openai_analyze_request (body : list (string * pyval))
    : result (gmap string Z) :=
  let messages := default (PList []) (dict_get body "messages") in
  let* msgs := py_iter messages in
  let* acc :=
    foldM openai_analyze_message msgs
      {| user_count := 0; assistant_count := 0; system_chars := 0 |} in
  let* history_chars :=
    match json_dumps messages with
    | inr history_str => ret (Z.of_nat (String.length history_str))
    | inl TypeError | inl (ValueError _) => ret 0%Z
    | inl e => raise e
    end in
  let* message_count := py_len messages in
  let* tool_count :=
    py_len (default (default (PList []) (dict_get body "functions"))
                    (dict_get body "tools")) in
  ret (<["tool_count"%string := tool_count]>
         (<["conversation_history_chars"%string := history_chars]>
            (<["assistant_message_count"%string := assistant_count acc]>
               (<["user_message_count"%string := user_count acc]>
                  (<["message_count"%string := message_count]>
                     (<["base_prompt_chars"%string := system_chars acc]>
                        {["system_prompt_total_chars"%string := system_chars acc]})))))).

End OpenAIRequests.

(** The loop of [rewrite_request] over a list of messages: the messages as
    the loop leaves them, and the exception that ended it, if any.  A message
    with the role [developer] is changed in place. *)
Fixpoint rewrite_messages (msgs : list pyval) : list pyval * option exn :=
  match msgs with
  | [] => ([], None)
  | msg :: msgs' =>
      match py_get msg "role" PNone with
      | inl e => (msgs, Some e)
      | inr role =>
          let msg' :=
            match msg with
            | PDict d =>
                if is_str role "developer"
                then PDict (dict_set d "role" (PStr "system"))
                else msg
            | _ => msg
            end in
          let '(rest, raised) := rewrite_messages msgs' in
          (msg' :: rest, raised)
      end
  end.

(** [OpenAICompatibleProvider.rewrite_request(body)]: the body after the call,
    which is the object the call returns, and the exception raised, if any.
    The messages are rewritten in the list the body holds, so the closing
    [body["messages"] = messages] stores the object that is already there. *)
Definition openai_rewrite_request (body : list (string * pyval))
    : list (string * pyval) * option exn :=
  match dict_get body "messages" with
  | Some (PList msgs) =>
      let '(msgs', raised) := rewrite_messages msgs in
      (dict_set body "messages" (PList msgs'), raised)
  | Some messages =>
      match py_iter messages with
      | inl e => (body, Some e)
      | inr [] => (body, None)
      | inr (_ :: _) => (body, Some AttributeError)
      end
  | None => (body, None)
  end.

(** [AnthropicProvider.rewrite_request(body)] *)
Definition anthropic_rewrite_request (body : list (string * pyval))
    : list (string * pyval) := body.

(** ** Provider detection ([db_postgres._detect_provider]) *)

Definition _detect_provider (model : string) : string :=
  let model_lower := lower model in
  if contains "claude" model_lower then "anthropic"
  else if contains "kimi" model_lower then "moonshot"
  else if contains "gpt" model_lower || contains "o1" model_lower then "openai"
  else if contains "gemini" model_lower then "google"
  else if contains "qwen" model_lower then "alibaba"
  else "unknown".

(** ** The columns of the usage log ([log_usage]) *)

Module db.

(** The list [cols] of [log_usage]. *)
Definition cols : list string :=
  [ "agent"; "model";
    "request_body_bytes"; "message_count"; "user_message_count";
    "assistant_message_count"; "tool_count";
    "system_prompt_total_chars";
    "workspace_agents_chars"; "workspace_soul_chars"; "workspace_tools_chars";
    "workspace_identity_chars"; "workspace_user_chars"; "workspace_heartbeat_chars";
    "workspace_bootstrap_chars";
    "skill_injection_chars"; "base_prompt_chars";
    "conversation_history_chars";
    "input_tokens"; "output_tokens"; "cache_read_tokens"; "cache_write_tokens";
    "estimated_cost_usd"; "duration_ms"; "stop_reason" ]%string.

(** The statement and the parameters [log_usage] passes to [conn.execute]:
    a key the entry lacks is bound to [None]. *)
Definition log_usage (entry : gmap string pyval) : string * list pyval :=
  let values := map (fun c => default PNone (entry !! c)) cols in
  let placeholders := str_join ", " (replicate (length cols) "?"%string) in
  let col_names := str_join ", " cols in
  ("INSERT INTO usage (" +:+ col_names +:+ ") VALUES (" +:+ placeholders +:+ ")",
   values).

End db.

Module db_postgres.

(** The columns of the [INSERT INTO requests] of [log_usage], in its order. *)
Definition columns : list string :=
  [ "id"; "tenant_id"; "agent_id"; "provider"; "model";
    "request_body_bytes"; "message_count"; "user_message_count";
    "assistant_message_count"; "tool_count";
    "system_prompt_total_chars";
    "workspace_agents_chars"; "workspace_soul_chars"; "workspace_tools_chars";
    "workspace_identity_chars"; "workspace_user_chars"; "workspace_heartbeat_chars";
    "workspace_bootstrap_chars"; "workspace_memory_chars";
    "skill_injection_chars"; "base_prompt_chars";
    "conversation_history_chars";
    "input_tokens"; "output_tokens"; "cache_read_tokens"; "cache_write_tokens";
    "estimated_cost_usd"; "duration_ms"; "stop_reason" ]%string.

(** [entry.get(key, 0)] *)
Definition get_0 (entry : gmap string pyval) (key : string) : pyval :=
  default (PInt 0) (entry !! key).

(** [_detect_provider(entry.get("model", ""))]; the model is a string. *)
Definition provider_of (entry : gmap string pyval) : result string :=
  match default (PStr EmptyString) (entry !! "model"%string) with
  | PStr model => ret (_detect_provider model)
  | _ => raise AttributeError
  end.

(** The parameters of the [INSERT] of [log_usage], given the new row id, the
    tenant id and the agent id. *)
Definition log_usage_params (row_id tenant_id agent_id : pyval)
    (entry : gmap string pyval) : result (list pyval) :=
  let* provider := provider_of entry in
  ret ([ row_id; tenant_id; agent_id; PStr provider;
         default (PStr "unknown") (entry !! "model"%string) ]
       ++ map (get_0 entry)
            [ "request_body_bytes"; "message_count"; "user_message_count";
              "assistant_message_count"; "tool_count";
              "system_prompt_total_chars";
              "workspace_agents_chars"; "workspace_soul_chars";
              "workspace_tools_chars"; "workspace_identity_chars";
              "workspace_user_chars"; "workspace_heartbeat_chars";
              "workspace_bootstrap_chars"; "workspace_memory_chars";
              "skill_injection_chars"; "base_prompt_chars";
              "conversation_history_chars";
              "input_tokens"; "output_tokens"; "cache_read_tokens";
              "cache_write_tokens"; "estimated_cost_usd"; "duration_ms" ]%string
       ++ [ default PNone (entry !! "stop_reason"%string) ]).

End db_postgres.

(** * Specification vocabulary *)

(** [k] occurs in [s] at some position, not necessarily at the start. *)
Definition occurs_in (k s : string) : Prop :=
  exists pre post : string, s = pre +:+ k +:+ post.

(** [b] is not longer than [a]. *)
Definition not_longer (a b : string) : Prop :=
  (String.length b <= String.length a)%nat.

(** [r] is what a scan of [keys] from the front returns: the entry of the
    first key occurring in [s], or the all-zero rates when no key occurs. *)
Definition first_match (keys : list string) (table : list (string * rates))
    (s : string) (r : rates) : Prop :=
  (exists pre k post,
      keys = pre ++ k :: post /\ occurs_in k s /\
      Forall (fun k' => ~ occurs_in k' s) pre /\
      table_lookup table k = Some r)
  \/ (Forall (fun k' => ~ occurs_in k' s) keys /\ r = zero_rates).

(** The contract of a pricing lookup [get] over [table]. *)
Definition longest_match_lookup (table : list (string * rates))
    (get : string -> rates) : Prop :=
  forall model : string,
    let keys := sorted_by_len_desc (map fst table) in
    let s := lower model in
    let r := get model in
    (* the scan visits every key of the table, longest first *)
    Permutation keys (map fst table) /\
    StronglySorted not_longer keys /\
    (* and stops at the first key that occurs in the lower-cased name *)
    first_match keys table s r /\
    (* so no key that occurs is longer than the one whose rates are returned *)
    (forall k, In k (map fst table) -> occurs_in k s ->
       exists k', occurs_in k' s /\ table_lookup table k' = Some r /\
                  (String.length k <= String.length k')%nat) /\
    (* a key that occurs and is strictly longer than every other key that
       occurs is the one whose rates are returned *)
    (forall k, In k (map fst table) -> occurs_in k s ->
       (forall k', In k' (map fst table) -> occurs_in k' s -> k' <> k ->
                   (String.length k' < String.length k)%nat) ->
       table_lookup table k = Some r) /\
    (* and when no key occurs the rates are all zero *)
    ((forall k, In k (map fst table) -> ~ occurs_in k s) -> r = zero_rates).

(** The four token categories of a usage record. *)
Inductive category : Type := Input | Output | CacheRead | CacheWrite.

Definition categories : list category := [Input; Output; CacheRead; CacheWrite].

(** The key of a category in a usage dict. *)
Definition category_key (c : category) : string :=
  match c with
  | Input => "input_tokens"
  | Output => "output_tokens"
  | CacheRead => "cache_read_tokens"
  | CacheWrite => "cache_write_tokens"
  end.

(** Token count of a category: the entry of the usage dict under the key of
    the category, [0] when the dict has no such entry. *)
Definition tokens_of (usage : gmap string Z) (c : category) : Z :=
  match usage !! category_key c with
  | Some tokens => tokens
  | None => 0%Z
  end.

(** A usage dict with input tokens and nothing else. *)
Definition prompt_usage : gmap string Z := {["input_tokens"%string := 2000000%Z]}.

(** A usage dict with tokens in all four categories. *)
Definition priced_usage : gmap string Z :=
  <["cache_write_tokens"%string := 8000%Z]>
    (<["cache_read_tokens"%string := 50000%Z]>
       (<["output_tokens"%string := 350%Z]>
          {["input_tokens"%string := 1200%Z]})).

(** Rate of a category. *)
Definition rate_of (r : rates) (c : category) : spec_float :=
  match c with
  | Input => input r
  | Output => output r
  | CacheRead => cache_read r
  | CacheWrite => cache_write r
  end.

(** [tokens x rate / 1,000,000] in binary64: the count is converted, the
    product and the quotient are each rounded once. *)
Definition category_cost (tokens : Z) (rate : spec_float) : result spec_float :=
  let* t := float_of_int tokens in
  ret (F64.div (F64.mul t rate) (F64.of_Z 1000000)).

Fixpoint mapM {A B} (f : A -> result B) (l : list A) : result (list B) :=
  match l with
  | [] => ret []
  | a :: l' => let* b := f a in let* bs := mapM f l' in ret (b :: bs)
  end.

(** The binary64 sum of a list, from left to right. *)
Definition float_sum (l : list spec_float) : spec_float :=
  match l with
  | [] => F64.zero
  | x :: l' => fold_left F64.add l' x
  end.

(** The sum over the four categories of [tokens x rate / 1,000,000]. *)
Definition cost_formula (usage : gmap string Z) (r : rates) : result spec_float :=
  let* terms := mapM (fun c => category_cost (tokens_of usage c) (rate_of r c))
                     categories in
  ret (float_sum terms).

Definition finite_rates (r : rates) : bool :=
  F64.is_finite (input r) && F64.is_finite (output r) &&
  F64.is_finite (cache_read r) && F64.is_finite (cache_write r).

(** Finite and not negative: what a price is. *)
Definition is_price (f : spec_float) : bool :=
  match f with
  | S754_zero false | S754_finite false _ _ => true
  | _ => false
  end.

Definition price_rates (r : rates) : bool :=
  is_price (input r) && is_price (output r) &&
  is_price (cache_read r) && is_price (cache_write r).

(** A signed 64-bit integer: the range of an [INTEGER] column. *)
Definition int64 (z : Z) : Prop := (- 2 ^ 63 <= z < 2 ^ 63)%Z.

Definition int64_column (x : option Z) : Prop :=
  match x with Some z => int64 z | None => True end.

(** The [INTEGER] columns of a row hold 64-bit integers. *)
Definition int64_row (r : usage_row) : Prop :=
  int64_column (conversation_history_chars r) /\
  int64_column (cache_read_tokens r) /\
  int64_column (cache_write_tokens r).

(** [z] converts to a [float] without overflow. *)
Definition fits_float (z : Z) : Prop := (Z.abs z < F64.int_limit)%Z.

(** The reset test on two consecutive history sizes: the previous one exceeds
    1000 and the current one is less than half of it ([prev * 0.5] as Python
    computes it). *)
Definition halved (prev curr : Z) : bool :=
  (1000 <? prev)%Z &&
  py_lt (NInt curr) (NFloat (F64.mul (F64.of_Z prev) (F64.dec 5 1))).

(** The reset test in exact arithmetic: the previous size exceeds 1000 and
    the current one is less than half of it. *)
Definition less_than_half (prev curr : Z) : bool :=
  (1000 <? prev)%Z && (2 * curr <? prev)%Z.

(** [history > 2.5 * T] in exact arithmetic. *)
Definition exceeds_2_5 (history T : Z) : bool := (5 * T <? 2 * history)%Z.

(** The 53-bit mantissa of the double that holds the integer [p] of at most
    53 bits. *)
Definition normal_mantissa (p : positive) : positive :=
  Pos.shiftl p (Z.to_N (53 - Zpos (digits2_pos p))).

(** Rows [i - 1] and [i] are a session reset. *)
Definition reset_at (rows : list usage_row) (i : nat) : Prop :=
  exists j prev curr,
    i = S j /\ rows !! j = Some prev /\ rows !! i = Some curr /\
    halved (history_chars prev) (history_chars curr) = true.

(** [b] is the index of the last reset of [rows], or [0] when there is none. *)
Definition last_reset (rows : list usage_row) (b : nat) : Prop :=
  (b = 0%nat \/ reset_at rows b) /\
  forall i, (b < i)%nat -> ~ reset_at rows i.

(** The recommendation as a function of the current history size, the
    threshold, the cache-write ratio and the size of the rolling window. *)
Definition recommendation_for (history T : Z) (ratio : spec_float)
    (window : nat) : string :=
  if py_gt (NInt history) (NFloat (F64.mul (F64.of_Z T) (F64.dec 25 1)))
  then "reset_recommended"
  else if (2 * T <? history)%Z then "compact_soon"
  else if (T <? history)%Z then "monitor"
  else if F64.ltb (F64.dec 20 2) ratio && (3 <=? window)%nat then "cache_unstable"
  else "healthy".

(** A sum of costs is [0] (no row had a cost) or a [float]. *)
Definition cost_total (t : num) : Prop := t = NInt 0 \/ exists f, t = NFloat f.

(** What [query_session_status] returns on a window whose last reset is at
    [b], with the sum [total] of the session's costs, the average [avg] and
    the cache-write ratio [ratio] of the rolling window. *)
Definition status_of (agent : string) (rows : list usage_row) (T : Z)
    (b : nat) (last_row : usage_row) (total : num) (avg ratio : spec_float)
    : session_status :=
  let session := drop b rows in
  {| agent := agent;
     current_session_turns := Z.of_nat (length session);
     current_history_chars := history_chars last_row;
     last_turn_cost := py_round (cost_or_0 last_row) 6;
     avg_cost_last_5 := py_round (NFloat avg) 6;
     cache_write_pct_last_5 := py_round (NFloat ratio) 4;
     cost_since_last_reset := py_round total 6;
     turns_since_last_reset := Z.of_nat (length session);
     recommendation :=
       recommendation_for (history_chars last_row) T ratio
         (length (last_five session)) |}.

(** A row with the given history size and cost and no cache statistics. *)
Definition plain_row (history : Z) (cost : option spec_float) : usage_row :=
  {| conversation_history_chars := Some history;
     cache_read_tokens := None;
     cache_write_tokens := None;
     estimated_cost_usd := cost |}.

(** A row with the given history size and cache statistics and no cost. *)
Definition cache_row (history read write : Z) : usage_row :=
  {| conversation_history_chars := Some history;
     cache_read_tokens := Some read;
     cache_write_tokens := Some write;
     estimated_cost_usd := None |}.

(** The heading marker of a workspace file: one [#], a space, the file name. *)
Definition marker (filename : string) : string := "# " +:+ filename.

(** Where the characters of a block with text [text] go: to the metric
    [Some key] of the first file of [WORKSPACE_FILE_MAP] whose marker occurs
    in the text, or to the base prompt ([None]) when no marker occurs. *)
Definition destination (text : string) (dest : option string) : Prop :=
  match dest with
  | Some key =>
      exists before filename after,
        WORKSPACE_FILE_MAP = before ++ (filename, key) :: after /\
        occurs_in (marker filename) text /\
        Forall (fun entry => ~ occurs_in (marker (fst entry)) text) before
  | None =>
      Forall (fun entry => ~ occurs_in (marker (fst entry)) text) WORKSPACE_FILE_MAP
  end.

(** Length of the text of a block; a block that is not a dict has none. *)
Definition block_chars (py_str : pyval -> string) (block : pyval) : Z :=
  match block with
  | PDict d => Z.of_nat (String.length (block_text py_str d))
  | _ => 0%Z
  end.

(** The characters of the blocks whose text goes to [dest]. *)
Definition chars_to (py_str : pyval -> string) (dest : option string)
    (blocks : list pyval) : Z :=
  sum_Z (map (fun block =>
                match block with
                | PDict d =>
                    if decide (matched_workspace (block_text py_str d) = dest)
                    then block_chars py_str block else 0%Z
                | _ => 0%Z
                end) blocks).

(** The characters of all blocks. *)
Definition chars_of (py_str : pyval -> string) (blocks : list pyval) : Z :=
  sum_Z (map (block_chars py_str) blocks).

(** The system-prompt counts of an analysis result add up: the total is the
    base count plus the eight workspace counts, and no count is negative. *)
Definition partitioned (r : gmap string Z) : Prop :=
  exists total base ws,
    r !! "system_prompt_total_chars"%string = Some total /\
    r !! "base_prompt_chars"%string = Some base /\
    Forall2 (fun key w => r !! key = Some w) (map snd WORKSPACE_FILE_MAP) ws /\
    total = (base + sum_Z ws)%Z /\
    (0 <= total)%Z /\ (0 <= base)%Z /\ Forall (fun w => 0 <= w)%Z ws.

(** The lines of a text, split at line feeds. *)
Fixpoint lines (s : string) : list string :=
  match s with
  | EmptyString => [EmptyString]
  | String c s' =>
      if Ascii.eqb c "010"%char then EmptyString :: lines s'
      else
        match lines s' with
        | [] => [String c EmptyString]
        | l :: ls => String c l :: ls
        end
  end.

(** Some line of [text] begins with one or two [#] followed by [filename],
    directly or after one space. *)
Definition heading_line (text filename : string) : bool :=
  existsb (fun line =>
             startswith line ("#" +:+ filename) ||
             startswith line ("##" +:+ filename) ||
             startswith line ("# " +:+ filename) ||
             startswith line ("## " +:+ filename))
          (lines text).

(** The metric of the first file, in the order of [WORKSPACE_FILE_MAP], that
    has a heading line in [text]. *)
Definition heading_section (text : string) : option string :=
  snd <$> List.find (fun entry => heading_line text (fst entry)) WORKSPACE_FILE_MAP.

(** The characters of the blocks whose first heading line is that of [dest]. *)
Definition heading_chars_to (py_str : pyval -> string) (dest : option string)
    (blocks : list pyval) : Z :=
  sum_Z (map (fun block =>
                match block with
                | PDict d =>
                    if decide (heading_section (block_text py_str d) = dest)
                    then block_chars py_str block else 0%Z
                | _ => 0%Z
                end) blocks).

(** Attribution by heading lines: the analysis of a list of blocks counts for
    each workspace file the blocks whose first heading line names it, and for
    the base prompt the blocks without a heading line. *)
Definition heading_line_attribution : Prop :=
  forall (py_str : pyval -> string) (blocks : list pyval),
    let r := _analyze_system_prompt py_str (PList blocks) in
    r !! "base_prompt_chars"%string = Some (heading_chars_to py_str None blocks) /\
    Forall (fun key => r !! key = Some (heading_chars_to py_str (Some key) blocks))
           (map snd WORKSPACE_FILE_MAP).

(** A block that mentions a workspace file in the middle of a line. *)
Definition mention_block : pyval :=
  PDict [("type"%string, PStr "text"); ("text"%string, PStr "see # AGENTS.md")].

(** Every cached instance is an object that exists. *)
Definition cache_valid (s : registry) : Prop :=
  forall name obj, _instances s !! name = Some obj -> (obj < length (objects s))%nat.

(** [name] is registered with class [c]. *)
Definition registered (s : registry) (name : string) (c : provider_class) : Prop :=
  providers_get (_providers s) (lower name) = Some c.

(** With a config override, [get] returns an object that no name has in the
    cache. *)
Definition override_never_cached : Prop :=
  forall (s : registry) (name : string) (config : list (string * pyval))
         (obj : nat) (s' : registry),
    cache_valid s ->
    get name (Some config) s = (ret obj, s') ->
    forall cached, _instances s !! cached <> Some obj.

(** The registry of the repository after one [get("openai")]. *)
Definition registry_after_get : registry := snd (get "openai" None initial_registry).

(** [isinstance(v, dict)] *)
Definition is_dict (v : pyval) : bool :=
  match v with PDict _ => true | _ => false end.

(** A parser that knows the document [5]. *)
Definition loads_five (s : string) : result pyval :=
  if String.eqb s "5" then ret (PInt 5) else raise JSONDecodeError.

(** The window of the example: history sizes [50, 5000, 40000, 500, 8000]. *)
Definition example_window : list usage_row :=
  [ plain_row 50 (Some (F64.dec 1 2)); plain_row 5000 (Some (F64.dec 2 2));
    plain_row 40000 (Some (F64.dec 3 2)); plain_row 500 (Some (F64.dec 4 2));
    plain_row 8000 (Some (F64.dec 5 2)) ].

(** Three rows below the threshold with a cache-write ratio of [0.25]. *)
Definition unstable_window : list usage_row :=
  [ cache_row 1000 75 25; cache_row 2000 75 25; cache_row 3000 75 25 ].

(** A request body with a two-block system prompt and no messages. *)
Definition example_body : list (string * pyval) :=
  [ ("system"%string,
     PList [ PDict [("type"%string, PStr "text"); ("text"%string, PStr "## SOUL.md rules")];
             PDict [("type"%string, PStr "text"); ("text"%string, PStr "You are helpful.")] ]);
    ("messages"%string, PList []) ].

(** [json.dumps] on the empty list, the only value [example_body] passes. *)
Definition dumps_empty_list (v : pyval) : result string := ret "[]"%string.

(** The count under [key] in the dict an analysis returns. *)
Definition count_of (analysis : result (gmap string Z)) (key : string) : option Z :=
  match analysis with
  | inr r => r !! key
  | inl _ => None
  end.

(** ** Vocabulary of the further properties *)

(** The calls a client can make on the registry. *)
Inductive registry_call : Type :=
| CallRegister (name : string) (c : provider_class)
| CallGet (name : string) (config : option (list (string * pyval)))
| CallGetOrNone (name : string) (config : option (list (string * pyval)))
| CallClearCache
| CallUnregister (name : string).

(** The registry after a call. *)
Definition after_call (s : registry) (call : registry_call) : registry :=
  match call with
  | CallRegister name c => register name c s
  | CallGet name config => snd (get name config s)
  | CallGetOrNone name config => snd (get_or_none name config s)
  | CallClearCache => clear_cache s
  | CallUnregister name => snd (unregister name s)
  end.

(** The registry of the package after a sequence of calls. *)
Definition after_calls (calls : list registry_call) : registry :=
  foldl after_call initial_registry calls.

(** Every cached instance exists, was built with the default (empty) config,
    and is cached under a lower-case name that is registered. *)
Definition cache_sound (s : registry) : Prop :=
  forall name obj,
    _instances s !! name = Some obj ->
    lower name = name /\
    (exists c, providers_get (_providers s) name = Some c) /\
    exists inst, objects s !! obj = Some inst /\ instance_config inst = [].

(** The default instance of a class: no config. *)
Definition default_instance (c : provider_class) : provider_instance :=
  {| instance_class := c; instance_config := [] |}.

(** Neither a NaN nor negative: [+0.0], a positive double or [+inf]. *)
Definition nonneg_float (f : spec_float) : bool :=
  match f with
  | S754_zero false | S754_finite false _ _ | S754_infinity false => true
  | _ => false
  end.

(** A token count as the APIs report it: not negative, below [2^53]. *)
Definition token_count (z : Z) : Prop := (0 <= z < 2 ^ 53)%Z.

(** The markers [_detect_provider] looks for. *)
Definition provider_markers : list string :=
  ["claude"; "kimi"; "gpt"; "o1"; "gemini"; "qwen"]%string.

(** The request headers [AnthropicProvider.get_auth_headers] forwards. *)
Definition anthropic_forwarded : list string :=
  [ "x-api-key"; "anthropic-version"; "anthropic-beta";
    "anthropic-dangerous-direct-browser-access" ]%string.

(** A [message_start] frame carrying the usage dict [usage]. *)
Definition message_start_frame (usage : list (string * pyval)) : pyval :=
  PDict [("type"%string, PStr "message_start");
         ("message"%string, PDict [("usage"%string, PDict usage)])].

(** [usage.get(key, 0)] on the items of a usage dict. *)
Definition usage_field (usage : list (string * pyval)) (key : string) : pyval :=
  default (PInt 0) (dict_get usage key).

(** The usage dict of an Anthropic response with the usage items [usage] and
    the stop reason [stop]. *)
Definition anthropic_usage_dict (usage : list (string * pyval)) (stop : pyval)
    : gmap string pyval :=
  <["stop_reason"%string := stop]>
    (<["cache_write_tokens"%string := usage_field usage "cache_creation_input_tokens"]>
       (<["cache_read_tokens"%string := usage_field usage "cache_read_input_tokens"]>
          (<["output_tokens"%string := usage_field usage "output_tokens"]>
             {["input_tokens"%string := usage_field usage "input_tokens"]}))).

(** The five keys of a usage dict. *)
Definition usage_keys : gset string :=
  {[ "input_tokens"; "output_tokens"; "cache_read_tokens"; "cache_write_tokens";
     "stop_reason" ]}%string.

(** The counts of an analysis that does not break down the system prompt. *)
Definition request_keys : gset string :=
  {[ "system_prompt_total_chars"; "base_prompt_chars"; "message_count";
     "user_message_count"; "assistant_message_count";
     "conversation_history_chars"; "tool_count" ]}%string.

(** The message counters after [n] messages: none is negative, and the user
    and assistant messages are at most [n]. *)
Definition counted (acc : message_counts) (n : Z) : Prop :=
  (0 <= user_count acc)%Z /\ (0 <= assistant_count acc)%Z /\
  (0 <= system_chars acc)%Z /\ (user_count acc + assistant_count acc <= n)%Z.

(** [json.dumps] of the empty list. *)
Definition dumps_brackets (json_dumps : pyval -> result string) : Prop :=
  json_dumps (PList []) = ret "[]"%string.

(** The keys of an Anthropic request analysis. *)
Definition analysis_keys : gset string :=
  request_keys ∪ list_to_set (map snd WORKSPACE_FILE_MAP).

(** The parameter bound to [column] of the [INSERT]. *)
Definition bound_to (columns : list string) (params : list pyval)
    (column : string) (v : pyval) : Prop :=
  exists i, columns !! i = Some column /\ params !! i = Some v.

(** [msg] is a dict whose role is [role]. *)
Definition has_role (msg : pyval) (role : string) : bool :=
  match msg with
  | PDict d => is_str (default PNone (dict_get d "role")) role
  | _ => false
  end.

(** [msg'] is [msg], or [msg] with the role [developer] replaced by
    [system]. *)
Definition rewritten_message (msg msg' : pyval) : Prop :=
  msg' = msg \/
  (exists d, msg = PDict d /\ has_role msg "developer" = true /\
             msg' = PDict (dict_set d "role" (PStr "system"))).

(** A request body with a developer message between two others. *)
Definition developer_body : list (string * pyval) :=
  [ ("model"%string, PStr "kimi-k2");
    ("messages"%string,
     PList [ PDict [("role"%string, PStr "developer");
                    ("content"%string, PStr "Be brief.")];
             PDict [("role"%string, PStr "user"); ("content"%string, PStr "Hi")] ]) ].

(** A value on which [.get] may be called where [if v:] guards the call:
    falsy, or a dict. *)
Definition falsy_or_dict (v : pyval) : bool := negb (truthy v) || is_dict v.

(** [choices] as the OpenAI stream extraction can read it: falsy, or a list
    whose first item is a dict. *)
Definition readable_choices (choices : pyval) : bool :=
  negb (truthy choices) ||
  match choices with
  | PList (first :: _) => is_dict first
  | _ => false
  end.

(** The call returns instead of raising. *)
Definition returns {A} (m : result A) : Prop := exists a, m = ret a.

(** How urgent a recommendation is. *)
Definition severity (recommendation : string) : nat :=
  if String.eqb recommendation "reset_recommended" then 4
  else if String.eqb recommendation "compact_soon" then 3
  else if String.eqb recommendation "monitor" then 2
  else if String.eqb recommendation "cache_unstable" then 1
  else 0.

(** A usage dict with token counts in two categories. *)
Definition example_usage : gmap string Z :=
  <["output_tokens"%string := 500%Z]> {["input_tokens"%string := 1000%Z]}.

(** The last chunk of an OpenAI stream: usage and no choices. *)
Definition usage_chunk : pyval :=
  PDict [("usage"%string,
          PDict [("prompt_tokens"%string, PInt 10);
                 ("completion_tokens"%string, PInt 5)])].

(** * Properties *)

(** ** Strings *)

Lemma startswith_spec (s p : string) :
  startswith s p = true <-> exists t, s = p +:+ t.
Proof.
  revert s. induction p as [|c p IH]; intros s.
  - destruct s; simpl; (split; [intros _; eexists; reflexivity | reflexivity]).
  - destruct s as [|d s]; simpl.
    + split; [discriminate | intros [t Ht]; discriminate].
    + rewrite andb_true_iff, Ascii.eqb_eq, IH. split.
      * intros [-> [t ->]]. exists t. reflexivity.
      * intros [t Ht]. injection Ht as -> ->. split; [reflexivity | exists t; reflexivity].
Qed.

Lemma contains_spec (k s : string) : contains k s = true <-> occurs_in k s.
Proof.
  unfold occurs_in. induction s as [|c s IH]; cbn [contains].
  - rewrite orb_false_r, startswith_spec. split.
    + intros [t Ht]. exists EmptyString, t. exact Ht.
    + intros [pre [post H]]. destruct pre; [exists post; exact H | discriminate].
  - rewrite orb_true_iff, startswith_spec, IH. split.
    + intros [[t Ht] | [pre [post H]]].
      * exists EmptyString, t. exact Ht.
      * exists (String c pre), post. rewrite H. reflexivity.
    + intros [pre [post H]]. destruct pre as [|d pre]; simpl in H.
      * left. exists post. exact H.
      * right. exists pre, post. injection H as _ H. exact H.
Qed.

Lemma contains_false (k s : string) : contains k s = false <-> ~ occurs_in k s.
Proof.
  rewrite <- contains_spec. destruct (contains k s); split; congruence.
Qed.

(** ** The scanning order of the pricing lookup *)

Lemma insert_by_len_perm k l : Permutation (insert_by_len k l) (k :: l).
Proof.
  induction l as [|k' l IH]; simpl; [reflexivity|].
  destruct (String.length k <? String.length k')%nat; [|reflexivity].
  rewrite IH. apply perm_swap.
Qed.

Lemma sorted_by_len_desc_perm l : Permutation (sorted_by_len_desc l) l.
Proof.
  induction l as [|k l IH]; simpl; [reflexivity|].
  rewrite insert_by_len_perm. constructor. exact IH.
Qed.

Lemma insert_by_len_sorted k l :
  StronglySorted not_longer l -> StronglySorted not_longer (insert_by_len k l).
Proof.
  induction 1 as [|k' l Hs IH Hall]; simpl.
  - repeat constructor.
  - destruct (String.length k <? String.length k')%nat eqn:E.
    + constructor; [exact IH|].
      apply (Permutation_Forall (Permutation_sym (insert_by_len_perm k l))).
      constructor; [|exact Hall].
      apply Nat.ltb_lt in E. unfold not_longer. lia.
    + apply Nat.ltb_ge in E. constructor; [constructor; assumption|].
      constructor; [exact E|].
      eapply Forall_impl; [exact Hall|].
      unfold not_longer. intros; simpl in *; lia.
Qed.

Lemma sorted_by_len_desc_sorted l : StronglySorted not_longer (sorted_by_len_desc l).
Proof.
  induction l as [|k l IH]; simpl; [constructor|].
  apply insert_by_len_sorted, IH.
Qed.

(** Keys of equal length keep their relative order (the sort is stable). *)
Lemma insert_by_len_filter n k l :
  filter (fun x => String.length x = n) (insert_by_len k l)
  = filter (fun x => String.length x = n) (k :: l).
Proof.
  induction l as [|k' l IH]; simpl; [reflexivity|].
  destruct (String.length k <? String.length k')%nat eqn:E; [|reflexivity].
  apply Nat.ltb_lt in E.
  rewrite !filter_cons in *. rewrite IH.
  repeat case_decide; try reflexivity; lia.
Qed.

Lemma sorted_by_len_desc_stable n l :
  filter (fun x => String.length x = n) (sorted_by_len_desc l)
  = filter (fun x => String.length x = n) l.
Proof.
  induction l as [|k l IH]; simpl; [reflexivity|].
  rewrite insert_by_len_filter, !filter_cons, IH. reflexivity.
Qed.

(** ** The pricing lookup *)

Lemma find_first {A} (f : A -> bool) (l : list A) :
  match List.find f l with
  | Some x => exists pre post,
      l = pre ++ x :: post /\ f x = true /\ Forall (fun y => f y = false) pre
  | None => Forall (fun y => f y = false) l
  end.
Proof.
  induction l as [|a l IH]; simpl; [constructor|].
  destruct (f a) eqn:E.
  - exists [], l. repeat split; [exact E | constructor].
  - destruct (List.find f l) as [x|].
    + destruct IH as (pre & post & -> & Hx & Hpre).
      exists (a :: pre), post. repeat split; [exact Hx | constructor; assumption].
    + constructor; assumption.
Qed.

Lemma table_lookup_fst (table : list (string * rates)) (k : string) :
  In k (map fst table) -> exists r, table_lookup table k = Some r.
Proof.
  induction table as [|[k' r'] table IH]; simpl; [tauto|].
  intros [<-|Hin].
  - rewrite String.eqb_refl. eauto.
  - destruct (String.eqb k k'); eauto.
Qed.

Lemma table_lookup_in (table : list (string * rates)) (k : string) (r : rates) :
  table_lookup table k = Some r -> In k (map fst table).
Proof.
  induction table as [|[k' r'] table IH]; simpl; [discriminate|].
  destruct (String.eqb_spec k k') as [->|Hne]; [left; reflexivity | right; auto].
Qed.

Lemma lookup_pricing_first_match (table : list (string * rates)) (model : string) :
  first_match (sorted_by_len_desc (map fst table)) table (lower model)
    (lookup_pricing table model).
Proof.
  unfold lookup_pricing.
  pose proof (find_first (fun prefix => contains prefix (lower model))
                (sorted_by_len_desc (map fst table))) as Hf.
  destruct (List.find _ _) as [k|].
  - destruct Hf as (pre & post & Hkeys & Hk & Hpre). left.
    exists pre, k, post. split; [exact Hkeys|].
    split; [apply contains_spec, Hk|].
    split; [eapply Forall_impl; [exact Hpre|]; intros k'; apply contains_false|].
    destruct (table_lookup_fst table k) as [r ->]; [|reflexivity].
    apply (Permutation_in k (sorted_by_len_desc_perm (map fst table))).
    rewrite Hkeys. apply in_or_app. right. left. reflexivity.
  - right. split; [|reflexivity].
    eapply Forall_impl; [exact Hf|]. intros k'; apply contains_false.
Qed.

Lemma lookup_pricing_longest_match (table : list (string * rates)) :
  longest_match_lookup table (lookup_pricing table).
Proof.
  intros model keys s r.
  pose proof (sorted_by_len_desc_perm (map fst table)) as Hperm.
  pose proof (sorted_by_len_desc_sorted (map fst table)) as Hsorted.
  pose proof (lookup_pricing_first_match table model) as Hfirst.
  fold keys s r in Hperm, Hsorted, Hfirst.
  assert (Hmax : forall k, In k (map fst table) -> occurs_in k s ->
            exists k', occurs_in k' s /\ table_lookup table k' = Some r /\
                       (String.length k <= String.length k')%nat /\
                       (k' <> k -> (String.length k' < String.length k)%nat -> False)).
  { intros k Hin Hocc.
    destruct Hfirst as [(pre & k' & post & Hkeys & Hk' & Hpre & Hr) | [Hnone _]].
    - exists k'. split; [exact Hk'|]. split; [exact Hr|].
      apply (Permutation_in k (Permutation_sym Hperm)) in Hin.
      rewrite Hkeys in Hin, Hsorted.
      assert (Hle : (String.length k <= String.length k')%nat).
      { apply in_app_or in Hin. destruct Hin as [Hin | [<- | Hin]].
        - rewrite Forall_forall in Hpre. exfalso.
          apply (Hpre k); [apply list_elem_of_In, Hin | exact Hocc].
        - lia.
        - apply StronglySorted_app_1_r in Hsorted.
          apply StronglySorted_inv in Hsorted. destruct Hsorted as [_ Hall].
          rewrite Forall_forall in Hall. apply Hall, list_elem_of_In, Hin. }
      split; [exact Hle | lia].
    - exfalso. rewrite Forall_forall in Hnone.
      apply (Hnone k); [|exact Hocc].
      apply list_elem_of_In, (Permutation_in k (Permutation_sym Hperm)), Hin. }
  split; [exact Hperm|]. split; [exact Hsorted|]. split; [exact Hfirst|].
  split; [|split].
  - intros k Hin Hocc. destruct (Hmax k Hin Hocc) as (k' & ? & ? & ? & _). eauto.
  - intros k Hin Hocc Hlongest.
    destruct (Hmax k Hin Hocc) as (k' & Hk' & Hr & Hle & _).
    destruct (String.eqb_spec k' k) as [<-|Hne]; [exact Hr|].
    exfalso.
    assert (Hin' : In k' (map fst table)) by (eapply table_lookup_in, Hr).
    specialize (Hlongest k' Hin' Hk' Hne). lia.
  - intros Hnone.
    destruct Hfirst as [(pre & k' & post & Hkeys & Hk' & _ & _) | [_ Hr]]; [|exact Hr].
    exfalso. apply (Hnone k'); [|exact Hk'].
    apply (Permutation_in k' Hperm). fold keys. rewrite Hkeys.
    apply in_or_app. right. left. reflexivity.
Qed.

(** C2.  Pricing lookup of both providers: the keys of the pricing table are
    scanned longest first; the rates of the first key occurring anywhere in
    the lower-cased model name are returned; among the keys that occur the
    longest one wins; and when no key occurs the result is the all-zero
    quadruple.  So a dated [gpt-4o-mini] model gets the rates of
    [gpt-4o-mini] and not those of [gpt-4o] or [gpt-4], a key is found in
    the middle of an upper-case name, and an unknown model is free. *)
Theorem get_model_pricing_longest_match :
  longest_match_lookup AnthropicProvider.COST_TABLE
                       AnthropicProvider.get_model_pricing /\
  longest_match_lookup OpenAICompatibleProvider.COST_TABLE
                       OpenAICompatibleProvider.get_model_pricing /\
  OpenAICompatibleProvider.get_model_pricing "gpt-4o-mini-2024-07-18"
  = price (F64.dec 15 2) (F64.dec 60 2) (F64.dec 75 3) (F64.dec 0 1) /\
  OpenAICompatibleProvider.get_model_pricing "openrouter/GPT-4o:latest"
  = price (F64.dec 250 2) (F64.dec 100 1) (F64.dec 125 2) (F64.dec 0 1) /\
  AnthropicProvider.get_model_pricing "us.anthropic.claude-opus-4-1-20250805"
  = price (F64.dec 150 1) (F64.dec 750 1) (F64.dec 150 2) (F64.dec 1875 2) /\
  AnthropicProvider.get_model_pricing "gemini-pro" = zero_rates.
Proof.
  split; [apply lookup_pricing_longest_match|].
  split; [apply lookup_pricing_longest_match|].
  repeat split; vm_compute; reflexivity.
Qed.

(** ** Cost calculation *)

Lemma per_million_category_cost tokens rate :
  per_million tokens rate = category_cost tokens rate.
Proof.
  unfold per_million, category_cost, py_mul.
  destruct (float_of_int tokens) as [e|t]; [reflexivity|].
  cbn [bind ret py_truediv].
  change (float_of_int 1000000) with (ret (A:=spec_float) (F64.of_Z 1000000)).
  reflexivity.
Qed.

(** [usage.get(key, 0)] under the key of a category is the token count of
    the category. *)
Lemma usage_get_category usage c :
  usage_get usage (category_key c) = tokens_of usage c.
Proof.
  unfold usage_get, tokens_of. destruct (usage !! category_key c); reflexivity.
Qed.

Lemma calculate_cost_formula_eq cls usage model :
  calculate_cost cls usage model = cost_formula usage (get_model_pricing cls model).
Proof.
  unfold calculate_cost, cost_formula, categories.
  rewrite !per_million_category_cost. cbn [mapM rate_of].
  rewrite <- !usage_get_category. cbn [category_key].
  destruct (category_cost _ (input _)) as [e|a]; [reflexivity|].
  destruct (category_cost _ (output _)) as [e|b]; [reflexivity|].
  destruct (category_cost _ (cache_read _)) as [e|c]; [reflexivity|].
  destruct (category_cost _ (cache_write _)) as [e|d]; reflexivity.
Qed.

Lemma category_cost_zero_finite rate :
  F64.is_finite rate = true ->
  exists z, category_cost 0 rate = ret z /\ F64.is_zero z = true.
Proof.
  destruct rate as [s|s| |s m e]; try discriminate; intros _;
    eexists; (split; [reflexivity|]); destruct s; reflexivity.
Qed.

Lemma category_cost_zero_price rate :
  is_price rate = true -> category_cost 0 rate = ret F64.zero.
Proof.
  destruct rate as [[]|s| |[] m e]; try discriminate; intros _; reflexivity.
Qed.

Lemma add_zeros x y :
  F64.is_zero x = true -> F64.is_zero y = true -> F64.is_zero (F64.add x y) = true.
Proof.
  destruct x as [[]| | |]; try discriminate; destruct y as [[]| | |];
    try discriminate; reflexivity.
Qed.

Lemma cost_formula_zero_finite usage r :
  finite_rates r = true ->
  (forall c, tokens_of usage c = 0%Z) ->
  exists z, cost_formula usage r = ret z /\ F64.is_zero z = true.
Proof.
  unfold finite_rates. rewrite !andb_true_iff. intros [[[Hi Ho] Hr] Hw] Hz.
  unfold cost_formula, categories. cbn [mapM].
  rewrite !Hz. cbn [rate_of].
  destruct (category_cost_zero_finite _ Hi) as (a & -> & Ha).
  destruct (category_cost_zero_finite _ Ho) as (b & -> & Hb).
  destruct (category_cost_zero_finite _ Hr) as (c & -> & Hc).
  destruct (category_cost_zero_finite _ Hw) as (d & -> & Hd).
  eexists. split; [reflexivity|]. cbn [float_sum fold_left].
  auto using add_zeros.
Qed.

Lemma cost_formula_zero_price usage r :
  price_rates r = true ->
  (forall c, tokens_of usage c = 0%Z) ->
  cost_formula usage r = ret F64.zero.
Proof.
  unfold price_rates. rewrite !andb_true_iff. intros [[[Hi Ho] Hr] Hw] Hz.
  unfold cost_formula, categories. cbn [mapM].
  rewrite !Hz. cbn [rate_of].
  rewrite (category_cost_zero_price _ Hi), (category_cost_zero_price _ Ho),
    (category_cost_zero_price _ Hr), (category_cost_zero_price _ Hw).
  reflexivity.
Qed.

(** Every pricing lookup returns an entry of its table or the zero rates. *)
Lemma lookup_pricing_cases table model :
  lookup_pricing table model = zero_rates \/
  exists k, In (k, lookup_pricing table model) table.
Proof.
  destruct (lookup_pricing_first_match table model)
    as [(pre & k & post & _ & _ & _ & Hr) | [_ Hr]]; [right | left; exact Hr].
  exists k. revert Hr. generalize (lookup_pricing table model) as r. intros r.
  induction table as [|[k' r'] table IH]; simpl; [discriminate|].
  destruct (String.eqb_spec k k') as [->|Hne]; [intros [= ->]; left; reflexivity|].
  intros H. right. exact (IH H).
Qed.

Lemma lookup_pricing_price table model :
  forallb (fun kr => price_rates (snd kr)) table = true ->
  price_rates (lookup_pricing table model) = true.
Proof.
  intros Hall. destruct (lookup_pricing_cases table model) as [-> | [k Hin]];
    [reflexivity|].
  rewrite forallb_forall in Hall. exact (Hall _ Hin).
Qed.

Lemma get_model_pricing_price cls model :
  price_rates (get_model_pricing cls model) = true.
Proof.
  destruct cls; cbn [get_model_pricing]; try reflexivity;
    apply lookup_pricing_price; vm_compute; reflexivity.
Qed.

Lemma tokens_of_priced_usage c :
  tokens_of priced_usage c
  = match c with
    | Input => 1200 | Output => 350 | CacheRead => 50000 | CacheWrite => 8000
    end%Z.
Proof. destruct c; reflexivity. Qed.

Lemma tokens_of_prompt_usage c :
  tokens_of prompt_usage c = match c with Input => 2000000 | _ => 0 end%Z.
Proof. destruct c; reflexivity. Qed.

(** C1.  For every provider class, usage dict and model name,
    [calculate_cost] is the sum over the categories input, output, cache-read
    and cache-write of [tokens x rate / 1,000,000], where the tokens of a
    category are the entry of the usage dict under the key of the category
    ([0] without such an entry) and the rates are those of the pricing lookup
    for the model; when the four token counts are zero the cost is zero for
    any finite rates, and so for every model of every provider.  So 1200
    input, 350 output, 50000 cache-read and 8000 cache-write tokens of
    [claude-sonnet-4] cost [0x1.b923a29c779a6p-5], the binary64 number next
    below 0.05385, and two million input tokens of [gpt-4o], in a dict with
    no other entry, cost 5. *)
Theorem calculate_cost_sum_of_categories :
  (forall (cls : provider_class) (usage : gmap string Z) (model : string),
      calculate_cost cls usage model
        = cost_formula usage (get_model_pricing cls model) /\
      (forall r : rates,
          finite_rates r = true ->
          (forall c, tokens_of usage c = 0%Z) ->
          exists z, cost_formula usage r = ret z /\ F64.is_zero z = true) /\
      ((forall c, tokens_of usage c = 0%Z) ->
       calculate_cost cls usage model = ret F64.zero)) /\
  calculate_cost Anthropic priced_usage "claude-sonnet-4"
    = ret (S754_finite false 7760602877884838 (-57)) /\
  calculate_cost OpenAICompatible prompt_usage "gpt-4o" = ret (F64.of_Z 5).
Proof.
  split.
  - intros cls usage model.
    split; [apply calculate_cost_formula_eq|].
    split; [intros r; apply cost_formula_zero_finite|].
    intros Hz. rewrite calculate_cost_formula_eq.
    apply cost_formula_zero_price; [apply get_model_pricing_price | exact Hz].
  - split; rewrite calculate_cost_formula_eq; unfold cost_formula, categories;
      cbn [mapM]; rewrite ?tokens_of_priced_usage, ?tokens_of_prompt_usage;
      vm_compute; reflexivity.
Qed.

(** ** Session status *)

Lemma int_limit_large : (2 ^ 70 <= F64.int_limit)%Z.
Proof. vm_compute. discriminate. Qed.

Lemma float_of_int_fits z : fits_float z -> float_of_int z = ret (F64.of_Z z).
Proof.
  unfold fits_float, float_of_int. intros H.
  destruct (Z.ltb_spec (Z.abs z) F64.int_limit) as [_|Hge]; [reflexivity | lia].
Qed.

Lemma int64_fits z : int64 z -> fits_float z.
Proof.
  unfold int64, fits_float. pose proof int_limit_large as Hl.
  assert (2 ^ 63 < 2 ^ 70)%Z by (vm_compute; reflexivity). lia.
Qed.

Lemma int64_column_or_0 x : int64_column x -> int64 (int_or_0 x).
Proof.
  destruct x as [z|]; simpl; [tauto|]. intros _. unfold int64.
  split; [vm_compute; discriminate | vm_compute; reflexivity].
Qed.

Lemma is_reset_halved prev curr :
  fits_float prev -> is_reset prev curr = ret (halved prev curr).
Proof.
  intros Hfit. unfold is_reset, halved.
  destruct (1000 <? prev)%Z; [|reflexivity].
  cbn [py_mul]. rewrite (float_of_int_fits _ Hfit). reflexivity.
Qed.

(** *** The loop that finds the last reset *)

Lemma foldM_reset_step (rows : list usage_row) (k a acc : nat) :
  Forall int64_row rows ->
  (1 <= a)%nat -> (a + k = length rows)%nat ->
  (acc = 0%nat \/ reset_at rows acc) -> (acc < a)%nat ->
  (forall i, (acc < i < a)%nat -> ~ reset_at rows i) ->
  exists b, foldM (reset_step rows) (seq a k) acc = ret b /\
            (b = 0%nat \/ reset_at rows b) /\ (b < length rows)%nat /\
            forall i, (b < i < length rows)%nat -> ~ reset_at rows i.
Proof.
  intros Hrows. revert a acc. induction k as [|k IH]; intros a acc Ha Hlen Hacc Hlt Hnone.
  - exists acc. cbn. replace (length rows) with a by lia. auto.
  - cbn [seq foldM].
    destruct a as [|j]; [lia|].
    destruct (lookup_lt_is_Some_2 rows j) as [prev Hprev]; [lia|].
    destruct (lookup_lt_is_Some_2 rows (S j)) as [curr Hcurr]; [lia|].
    unfold reset_step at 1. replace (S j - 1)%nat with j by lia.
    rewrite Hprev, Hcurr.
    assert (Hfit : fits_float (history_chars prev)).
    { apply int64_fits, int64_column_or_0.
      rewrite Forall_forall in Hrows.
      apply (Hrows prev). eapply list_elem_of_lookup_2, Hprev. }
    rewrite (is_reset_halved _ _ Hfit). cbn [bind ret].
    destruct (halved (history_chars prev) (history_chars curr)) eqn:Hh.
    + apply IH; [lia | lia | | lia |].
      * right. exists j, prev, curr. auto.
      * intros i Hi. lia.
    + apply IH; [lia | lia | exact Hacc | lia |].
      intros i Hi. destruct (decide (i = S j)) as [->|Hne].
      * intros (j' & p' & c' & [= <-] & Hp' & Hc' & Hh').
        rewrite Hprev in Hp'. rewrite Hcurr in Hc'.
        injection Hp' as <-. injection Hc' as <-. congruence.
      * apply Hnone. lia.
Qed.

Lemma reset_at_in_range rows i : reset_at rows i -> (0 < i < length rows)%nat.
Proof.
  intros (j & prev & curr & -> & _ & Hc & _).
  apply lookup_lt_Some in Hc. lia.
Qed.

Lemma find_last_reset_spec (rows : list usage_row) :
  rows <> [] -> Forall int64_row rows ->
  exists b, find_last_reset rows = ret b /\ last_reset rows b /\
            (b < length rows)%nat.
Proof.
  intros Hne Hrows. unfold find_last_reset.
  assert (Hlen : (0 < length rows)%nat) by (destruct rows; [congruence | simpl; lia]).
  destruct (foldM_reset_step rows (length rows - 1) 1 0 Hrows)
    as (b & Hb & Hres & Hlt & Hnone);
    [lia | lia | left; reflexivity | lia | intros i Hi; lia |].
  exists b. split; [exact Hb|]. split; [|exact Hlt].
  split; [exact Hres|]. intros i Hi Hreset.
  apply (Hnone i); [|exact Hreset].
  apply reset_at_in_range in Hreset. lia.
Qed.

(** The last reset is unique. *)
Lemma last_reset_unique rows b b' :
  last_reset rows b -> last_reset rows b' -> b = b'.
Proof.
  intros [Hb Hnone] [Hb' Hnone'].
  destruct (Nat.lt_trichotomy b b') as [Hlt | [Heq | Hgt]]; [|exact Heq|].
  - destruct Hb' as [-> | Hr]; [lia | destruct (Hnone b' Hlt Hr)].
  - destruct Hb as [-> | Hr]; [lia | destruct (Hnone' b Hgt Hr)].
Qed.

(** *** Sums, averages and the cache-write ratio *)

Lemma py_add_cost acc (r : usage_row) :
  cost_total acc -> exists t, py_add acc (cost_or_0 r) = ret t /\ cost_total t.
Proof.
  unfold cost_or_0, float_or_0, cost_total.
  intros [-> | [f ->]]; destruct (estimated_cost_usd r) as [g|];
    try destruct (F64.is_zero g); cbn; eauto.
Qed.

Lemma foldM_py_add_costs (l : list usage_row) acc :
  cost_total acc ->
  exists t, foldM py_add (map cost_or_0 l) acc = ret t /\ cost_total t.
Proof.
  revert acc. induction l as [|r l IH]; intros acc Hacc; cbn [map foldM].
  - exists acc. split; [reflexivity | exact Hacc].
  - destruct (py_add_cost acc r Hacc) as (t & -> & Ht). cbn [bind]. apply IH, Ht.
Qed.

Lemma py_sum_costs (l : list usage_row) :
  exists t, py_sum (map cost_or_0 l) = ret t /\ cost_total t.
Proof. apply foldM_py_add_costs. left. reflexivity. Qed.

Lemma length_last_five {A} (l : list A) :
  length (last_five l) = Nat.min 5 (length l).
Proof. unfold last_five. rewrite length_drop. lia. Qed.

Lemma last_five_suffix {A} (l : list A) :
  take (length l - 5) l ++ last_five l = l.
Proof. apply take_drop. Qed.

Lemma average_cost_total t (n : Z) :
  cost_total t -> (1 <= n <= 5)%Z -> exists avg, py_truediv t (NInt n) = ret avg.
Proof.
  intros Ht Hn.
  assert (Hcases : n = 1%Z \/ n = 2%Z \/ n = 3%Z \/ n = 4%Z \/ n = 5%Z) by lia.
  destruct Ht as [-> | [f ->]];
    destruct Hcases as [-> | [-> | [-> | [-> | ->]]]]; cbn; eauto.
Qed.

Lemma sum_Z_fold (l : list Z) (acc : Z) :
  fold_left Z.add l acc = (acc + sum_Z l)%Z.
Proof.
  unfold sum_Z. revert acc. induction l as [|z l IH]; intros acc; cbn [fold_left].
  - lia.
  - rewrite IH, (IH (0 + z)%Z). lia.
Qed.

Lemma sum_Z_cons z l : sum_Z (z :: l) = (z + sum_Z l)%Z.
Proof. unfold sum_Z at 1. cbn [fold_left]. rewrite sum_Z_fold. lia. Qed.

Lemma sum_Z_bound (B : Z) (l : list Z) :
  Forall (fun z => Z.abs z <= B)%Z l ->
  (Z.abs (sum_Z l) <= Z.of_nat (length l) * B)%Z.
Proof.
  induction 1 as [|z l Hz _ IH].
  - cbn. lia.
  - rewrite sum_Z_cons. cbn [length]. lia.
Qed.

Lemma int64_abs z : int64 z -> (Z.abs z <= 2 ^ 63)%Z.
Proof. unfold int64. lia. Qed.

Lemma int_truediv_total (a b : Z) :
  (Z.abs a < 2 ^ 70)%Z -> (1 <= b)%Z ->
  int_truediv a b
  = ret (F64.quotient (a <? 0)%Z (Z.abs a) b).
Proof.
  intros Ha Hb. unfold int_truediv. pose proof int_limit_large as Hl.
  destruct (Z.eqb_spec b 0) as [->|_]; [lia|].
  destruct (Z.leb_spec (F64.int_limit * Z.abs b) (Z.abs a)) as [Hle|_]; [nia|].
  destruct (Z.ltb_spec b 0) as [?|_]; [lia|].
  rewrite xorb_false_r, (Z.abs_eq b) by lia. reflexivity.
Qed.

Lemma write_ratio_total (window : list usage_row) :
  Forall int64_row window -> (length window <= 5)%nat ->
  exists ratio,
    int_truediv (sum_Z (map write_tokens window))
                (Z.max (sum_Z (map cache_tokens window)) 1) = ret ratio.
Proof.
  intros Hrows Hlen. eexists. apply int_truediv_total; [|lia].
  assert (Hb : (Z.abs (sum_Z (map write_tokens window))
                <= Z.of_nat (length (map write_tokens window)) * 2 ^ 63)%Z).
  { apply sum_Z_bound, Forall_map. eapply Forall_impl; [exact Hrows|].
    intros r (_ & _ & Hw). apply int64_abs, int64_column_or_0, Hw. }
  rewrite length_map in Hb.
  assert (Z.of_nat (length window) * 2 ^ 63 <= 5 * 2 ^ 63)%Z by nia.
  assert (5 * 2 ^ 63 < 2 ^ 70)%Z by (vm_compute; reflexivity). lia.
Qed.

(** *** Exact binary64 arithmetic on small integers *)

Lemma digits2_pos_shift (p : positive) (k : positive) :
  digits2_pos (Pos.iter xO p k) = (digits2_pos p + k)%positive.
Proof.
  induction k as [|k IH] using Pos.peano_ind.
  - cbn. lia.
  - rewrite Pos.iter_succ. cbn [digits2_pos]. rewrite IH. lia.
Qed.

Lemma Zpos_shift (p k : positive) :
  Zpos (Pos.iter xO p k) = (Zpos p * 2 ^ Zpos k)%Z.
Proof.
  induction k as [|k IH] using Pos.peano_ind.
  - cbn. lia.
  - rewrite Pos.iter_succ, Pos2Z.inj_xO, IH, Pos2Z.inj_succ, Z.pow_succ_r by lia. lia.
Qed.

Lemma digits2_pos_bounds (p : positive) :
  (2 ^ (Zpos (digits2_pos p) - 1) <= Zpos p < 2 ^ Zpos (digits2_pos p))%Z.
Proof.
  induction p as [p IH|p IH|]; cbn [digits2_pos].
  - rewrite Pos2Z.inj_succ, (Pos2Z.inj_xI p).
    replace (Z.succ (Zpos (digits2_pos p)) - 1)%Z
      with (Z.succ (Zpos (digits2_pos p) - 1))%Z by lia.
    rewrite !Z.pow_succ_r by lia.
    revert IH. generalize (2 ^ (Zpos (digits2_pos p) - 1))%Z (2 ^ Zpos (digits2_pos p))%Z.
    intros a b IH. lia.
  - rewrite Pos2Z.inj_succ, (Pos2Z.inj_xO p).
    replace (Z.succ (Zpos (digits2_pos p)) - 1)%Z
      with (Z.succ (Zpos (digits2_pos p) - 1))%Z by lia.
    rewrite !Z.pow_succ_r by lia.
    revert IH. generalize (2 ^ (Zpos (digits2_pos p) - 1))%Z (2 ^ Zpos (digits2_pos p))%Z.
    intros a b IH. lia.
  - cbn. lia.
Qed.

(** A mantissa of 53 bits with an exponent in range is already rounded. *)
Lemma binary_round_aux_exact (s : bool) (m : positive) (e : Z) :
  Zpos (digits2_pos m) = 53%Z -> (-1074 <= e <= 971)%Z ->
  binary_round_aux F64.prec F64.emax s (Zpos m) e loc_Exact = S754_finite s m e.
Proof.
  intros Hd He. unfold binary_round_aux, shr_fexp.
  cbn [shr_record_of_loc Zdigits2]. rewrite Hd.
  assert (Hf : (fexp F64.prec F64.emax (53 + e) - e = 0)%Z).
  { unfold fexp, emin, F64.prec, F64.emax. lia. }
  rewrite Hf. cbn [shr shr_m loc_of_shr_record round_nearest_even Zdigits2].
  rewrite Hd, Hf. cbn [shr shr_m].
  destruct (Z.leb_spec e (F64.emax - F64.prec)) as [_|Hgt]; [reflexivity|].
  unfold F64.emax, F64.prec in Hgt. lia.
Qed.

Lemma iter_pos_iter {A} (f : A -> A) (n : positive) (x : A) :
  SpecFloat.iter_pos f n x = Pos.iter f x n.
Proof.
  revert x. induction n as [n IH|n IH|]; intros x; cbn [SpecFloat.iter_pos Pos.iter].
  - rewrite !IH, <- !Pos.iter_swap. reflexivity.
  - rewrite !IH. reflexivity.
  - reflexivity.
Qed.

(** Shifting out [k] zero bits is exact. *)
Lemma shr_zero_bits (m k : positive) :
  SpecFloat.iter_pos shr_1 k {| shr_m := Zpos (Pos.iter xO m k); shr_r := false; shr_s := false |}
  = {| shr_m := Zpos m; shr_r := false; shr_s := false |}.
Proof.
  rewrite iter_pos_iter. induction k as [|k IH] using Pos.peano_ind.
  - reflexivity.
  - rewrite (Pos.iter_succ k _ xO), (Pos.iter_succ k _ shr_1), <- Pos.iter_swap.
    cbn [shr_1 orb]. exact IH.
Qed.

(** A mantissa of 53 bits followed by [k] zero bits rounds to itself. *)
Lemma binary_round_aux_shift (s : bool) (m k : positive) (e : Z) :
  Zpos (digits2_pos m) = 53%Z -> (-1074 <= e <= 971)%Z ->
  binary_round_aux F64.prec F64.emax s (Zpos (Pos.iter xO m k)) (e - Zpos k) loc_Exact
  = S754_finite s m e.
Proof.
  intros Hd He. unfold binary_round_aux, shr_fexp.
  cbn [shr_record_of_loc Zdigits2]. rewrite digits2_pos_shift, Pos2Z.inj_add, Hd.
  assert (Hf : (fexp F64.prec F64.emax (53 + Zpos k + (e - Zpos k)) - (e - Zpos k)
                = Zpos k)%Z).
  { unfold fexp, emin, F64.prec, F64.emax. lia. }
  rewrite Hf. cbn [shr]. rewrite shr_zero_bits.
  cbn [shr_m loc_of_shr_record round_nearest_even Zdigits2].
  replace (e - Zpos k + Zpos k)%Z with e by lia. rewrite Hd.
  assert (Hf0 : (fexp F64.prec F64.emax (53 + e) - e = 0)%Z).
  { unfold fexp, emin, F64.prec, F64.emax. lia. }
  rewrite Hf0. cbn [shr shr_m].
  destruct (Z.leb_spec e (F64.emax - F64.prec)) as [_|Hgt]; [reflexivity|].
  unfold F64.emax, F64.prec in Hgt. lia.
Qed.

(** The mantissa of a positive integer of at most 53 bits, shifted to 53
    bits. *)
Lemma normal_mantissa_value (p : positive) :
  (Zpos (digits2_pos p) <= 53)%Z ->
  Zpos (normal_mantissa p) = (Zpos p * 2 ^ (53 - Zpos (digits2_pos p)))%Z.
Proof.
  intros Hd. unfold normal_mantissa.
  destruct (53 - Zpos (digits2_pos p))%Z as [|k|k] eqn:E; try lia.
  - unfold Z.to_N, Pos.shiftl. rewrite Z.pow_0_r. lia.
  - unfold Z.to_N, Pos.shiftl. apply Zpos_shift.
Qed.

Lemma normal_mantissa_digits (p : positive) :
  (Zpos (digits2_pos p) <= 53)%Z ->
  Zpos (digits2_pos (normal_mantissa p)) = 53%Z.
Proof.
  intros Hd. unfold normal_mantissa.
  destruct (53 - Zpos (digits2_pos p))%Z as [|k|k] eqn:E; try lia.
  - unfold Z.to_N, Pos.shiftl. lia.
  - unfold Z.to_N, Pos.shiftl. rewrite digits2_pos_shift, Pos2Z.inj_add. lia.
Qed.

(** The conversion of an integer of at most 53 bits is exact. *)
Lemma binary_round_small (s : bool) (p : positive) :
  (Zpos (digits2_pos p) <= 53)%Z ->
  binary_round F64.prec F64.emax s p 0
  = S754_finite s (normal_mantissa p) (Zpos (digits2_pos p) - 53).
Proof.
  intros Hd. unfold binary_round.
  assert (Hf : fexp F64.prec F64.emax (Zpos (digits2_pos p) + 0)
               = (Zpos (digits2_pos p) - 53)%Z).
  { unfold fexp, emin, F64.prec, F64.emax. lia. }
  rewrite Hf. unfold shl_align, normal_mantissa.
  destruct (53 - Zpos (digits2_pos p))%Z as [|k|k] eqn:E; try lia.
  - replace (Zpos (digits2_pos p) - 53 - 0)%Z with 0%Z by lia.
    replace (Zpos (digits2_pos p) - 53)%Z with 0%Z by lia.
    unfold Z.to_N, Pos.shiftl. apply binary_round_aux_exact; lia.
  - replace (Zpos (digits2_pos p) - 53 - 0)%Z with (Zneg k) by lia.
    unfold Z.to_N, Pos.shiftl. apply binary_round_aux_exact; [|lia].
    rewrite digits2_pos_shift, Pos2Z.inj_add. lia.
Qed.

Lemma binary_round_aux_value (s : bool) (M q : positive) (K e : Z) :
  (0 <= K)%Z -> Zpos M = (Zpos q * 2 ^ K)%Z ->
  Zpos (digits2_pos q) = 53%Z -> (-1074 <= e <= 971)%Z ->
  binary_round_aux F64.prec F64.emax s (Zpos M) (e - K) loc_Exact = S754_finite s q e.
Proof.
  intros HK HM Hd He. destruct K as [|k|k]; [| |lia].
  - rewrite Z.pow_0_r, Z.mul_1_r in HM. injection HM as ->.
    rewrite Z.sub_0_r. apply binary_round_aux_exact; assumption.
  - rewrite <- Zpos_shift in HM. injection HM as ->.
    apply binary_round_aux_shift; assumption.
Qed.

Lemma digits2_pos_le (p w : positive) :
  (Zpos p <= Zpos w)%Z -> (Zpos (digits2_pos p) <= Zpos (digits2_pos w))%Z.
Proof.
  intros Hle.
  pose proof (digits2_pos_bounds p) as [Hp _].
  pose proof (digits2_pos_bounds w) as [_ Hw].
  assert (Hlt : (2 ^ (Zpos (digits2_pos p) - 1) < 2 ^ Zpos (digits2_pos w))%Z) by lia.
  apply Z.pow_lt_mono_r_iff in Hlt; lia.
Qed.

Lemma digits2_pos_small (p : positive) (n : Z) :
  (0 <= n)%Z -> (Zpos p < 2 ^ n)%Z -> (Zpos (digits2_pos p) <= n)%Z.
Proof.
  intros Hn Hlt. pose proof (digits2_pos_bounds p) as [Hp _].
  assert (H : (2 ^ (Zpos (digits2_pos p) - 1) < 2 ^ n)%Z) by lia.
  apply Z.pow_lt_mono_r_iff in H; lia.
Qed.

(** The product of a small integer with the constant [c * 2^(ec + t)] is
    exact when [p * c] still has at most 53 bits. *)
Lemma mul_small_exact (s : bool) (p c mc : positive) (t ec : Z) :
  (0 <= t)%Z -> Zpos mc = (Zpos c * 2 ^ t)%Z ->
  (Zpos (digits2_pos (p * c)) <= 53)%Z ->
  (-1000 <= ec + t <= 900)%Z ->
  F64.mul (S754_finite s (normal_mantissa p) (Zpos (digits2_pos p) - 53))
          (S754_finite false mc ec)
  = S754_finite s (normal_mantissa (p * c))
      (Zpos (digits2_pos (p * c)) - 53 + ec + t).
Proof.
  intros Ht Hmc Hw He.
  assert (Hpw : (Zpos (digits2_pos p) <= Zpos (digits2_pos (p * c)))%Z).
  { apply digits2_pos_le. rewrite Pos2Z.inj_mul. nia. }
  assert (Hp : (Zpos (digits2_pos p) <= 53)%Z) by lia.
  pose proof (Pos2Z.is_pos (digits2_pos p)) as Hp0.
  unfold F64.mul. cbn [SFmul]. rewrite xorb_false_r.
  set (dp := Zpos (digits2_pos p)) in *. set (dw := Zpos (digits2_pos (p * c))) in *.
  replace (dp - 53 + ec)%Z with ((dw - 53 + ec + t) - (dw - dp + t))%Z by lia.
  apply binary_round_aux_value; [lia | | apply normal_mantissa_digits; exact Hw | lia].
  rewrite Pos2Z.inj_mul, Hmc, !normal_mantissa_value by assumption.
  fold dp dw. rewrite Pos2Z.inj_mul.
  replace (dw - dp + t)%Z with ((dw - dp) + t)%Z by lia.
  rewrite (Z.pow_add_r 2 (dw - dp) t) by lia.
  replace (53 - dp)%Z with ((53 - dw) + (dw - dp))%Z by lia.
  rewrite (Z.pow_add_r 2 (53 - dw) (dw - dp)) by lia.
  ring.
Qed.

(** Comparison with half of [w]. *)
Lemma Zcompare_half (h : Z) (s : bool) (w : positive) :
  (Zpos (digits2_pos w) <= 53)%Z ->
  F64.Zcompare h (S754_finite s (normal_mantissa w) (Zpos (digits2_pos w) - 54))
  = Some (2 * h ?= (if s then Zneg w else Zpos w))%Z.
Proof.
  intros Hw. unfold F64.Zcompare.
  pose proof (Pos2Z.is_pos (digits2_pos w)) as Hw0.
  destruct (Z.leb_spec 0 (Zpos (digits2_pos w) - 54)) as [?|_]; [lia|].
  f_equal.
  replace (- (Zpos (digits2_pos w) - 54))%Z
    with (1 + (53 - Zpos (digits2_pos w)))%Z by lia.
  rewrite Z.pow_add_r, Z.pow_1_r by lia.
  assert (Hpos : (0 < 2 ^ (53 - Zpos (digits2_pos w)))%Z)
    by (apply Z.pow_pos_nonneg; lia).
  replace (h * (2 * 2 ^ (53 - Zpos (digits2_pos w))))%Z
    with (2 * h * 2 ^ (53 - Zpos (digits2_pos w)))%Z by ring.
  destruct s.
  - change (Zneg (normal_mantissa w)) with (- Zpos (normal_mantissa w))%Z.
    rewrite normal_mantissa_value by exact Hw.
    rewrite <- Z.mul_opp_l. change (- Zpos w)%Z with (Zneg w).
    symmetry. apply Zmult_compare_compat_r. lia.
  - rewrite normal_mantissa_value by exact Hw.
    symmetry. apply Zmult_compare_compat_r. lia.
Qed.

Lemma py_lt_at_limit (curr : Z) :
  py_lt (NInt curr) (NFloat (F64.mul (F64.of_Z 9007199254740992) (F64.dec 5 1)))
  = (2 * curr <? 9007199254740992)%Z.
Proof.
  replace (F64.mul (F64.of_Z 9007199254740992) (F64.dec 5 1))
    with (S754_finite false 4503599627370496 0) by (vm_compute; reflexivity).
  cbn [py_lt]. unfold F64.Zcompare.
  change (0 <=? 0)%Z with true. cbv beta iota zeta.
  change (4503599627370496 * 2 ^ 0)%Z with 4503599627370496%Z.
  unfold Z.ltb.
  change 9007199254740992%Z with (2 * 4503599627370496)%Z.
  rewrite <- (Zmult_compare_compat_l curr 4503599627370496 2) by lia.
  destruct (curr ?= 4503599627370496)%Z; reflexivity.
Qed.

(** The reset test in integers: for a previous size of at most [2^53] the
    product [prev * 0.5] is exact. *)
Lemma halved_exact (prev curr : Z) :
  (prev <= 2 ^ 53)%Z ->
  halved prev curr = less_than_half prev curr.
Proof.
  intros Hle. unfold halved, less_than_half.
  destruct (Z.ltb_spec 1000 prev) as [Hgt|_]; [|reflexivity]. cbn [andb].
  destruct prev as [|p|p]; try lia.
  destruct (Z.eq_dec (Zpos p) (2 ^ 53)%Z) as [Heq|Hne].
  - replace p with 9007199254740992%positive by (symmetry; injection Heq; trivial).
    apply py_lt_at_limit.
  - assert (Hd : (Zpos (digits2_pos p) <= 53)%Z) by (apply digits2_pos_small; lia).
    unfold F64.of_Z, binary_normalize. rewrite binary_round_small by exact Hd.
    change (F64.dec 5 1) with (S754_finite false 4503599627370496 (-53)).
    rewrite (mul_small_exact false p 1 4503599627370496 52 (-53));
      [| lia | reflexivity | rewrite Pos.mul_1_r; exact Hd | lia].
    rewrite Pos.mul_1_r.
    replace (Zpos (digits2_pos p) - 53 + -53 + 52)%Z
      with (Zpos (digits2_pos p) - 54)%Z by lia.
    cbn [py_lt]. rewrite Zcompare_half by exact Hd.
    unfold Z.ltb. destruct (2 * curr ?= Zpos p)%Z; reflexivity.
Qed.

(** The bound is sharp: [2^53 + 1] is not a double, and the product rounds. *)
Example halved_rounds_above_2_53 :
  halved (2 ^ 53 + 1) (2 ^ 52) = false /\ less_than_half (2 ^ 53 + 1) (2 ^ 52) = true.
Proof. split; vm_compute; reflexivity. Qed.

(** The first test of the recommendation in integers: for a threshold below
    [2^50] in magnitude the product [T * 2.5] is exact. *)
Lemma limit_2_5_exact (T history : Z) :
  (Z.abs T < 2 ^ 50)%Z ->
  py_gt (NInt history) (NFloat (F64.mul (F64.of_Z T) (F64.dec 25 1)))
  = exceeds_2_5 history T.
Proof.
  intros HT. unfold py_gt, exceeds_2_5. cbn [py_lt].
  change (F64.dec 25 1) with (S754_finite false 5629499534213120 (-51)).
  assert (Hsmall : forall (s : bool) (p : positive),
             (Zpos p < 2 ^ 50)%Z ->
             F64.Zcompare history
               (F64.mul (binary_round F64.prec F64.emax s p 0)
                        (S754_finite false 5629499534213120 (-51)))
             = Some (2 * history ?= (if s then Zneg (p * 5) else Zpos (p * 5)))%Z).
  { intros s p Hp.
    assert (Hw : (Zpos (digits2_pos (p * 5)) <= 53)%Z).
    { apply digits2_pos_small; [lia|]. rewrite Pos2Z.inj_mul.
      assert ((2 ^ 53 = 8 * 2 ^ 50)%Z) by reflexivity. lia. }
    assert (Hd : (Zpos (digits2_pos p) <= 53)%Z).
    { apply digits2_pos_small; [lia|].
      assert ((2 ^ 50 < 2 ^ 53)%Z) by reflexivity. lia. }
    rewrite binary_round_small by exact Hd.
    rewrite (mul_small_exact s p 5 5629499534213120 50 (-51));
      [| lia | reflexivity | exact Hw | lia].
    replace (Zpos (digits2_pos (p * 5)) - 53 + -51 + 50)%Z
      with (Zpos (digits2_pos (p * 5)) - 54)%Z by lia.
    apply Zcompare_half. exact Hw. }
  destruct T as [|p|p]; unfold F64.of_Z, binary_normalize.
  - cbn [binary_round F64.mul SFmul xorb F64.Zcompare].
    change (5 * 0)%Z with (2 * 0)%Z. unfold Z.ltb.
    rewrite <- (Zmult_compare_compat_l 0 history 2) by lia.
    rewrite (Z.compare_antisym 0 history).
    destruct (0 ?= history)%Z; reflexivity.
  - rewrite Hsmall by exact HT. unfold Z.ltb.
    rewrite Pos2Z.inj_mul, (Z.mul_comm (Zpos p) 5).
    rewrite (Z.compare_antisym (5 * Zpos p) (2 * history)).
    destruct (5 * Zpos p ?= 2 * history)%Z; reflexivity.
  - rewrite Hsmall by exact HT. unfold Z.ltb.
    change (Zneg (p * 5)) with (- Zpos (p * 5))%Z.
    rewrite Pos2Z.inj_mul, (Z.mul_comm (Zpos p) 5), <- Z.mul_opp_r.
    change (- Zpos p)%Z with (Zneg p).
    rewrite (Z.compare_antisym (5 * Zneg p) (2 * history)).
    destruct (5 * Zneg p ?= 2 * history)%Z; reflexivity.
Qed.

(** *** The recommendation *)

Lemma recommend_total (history T : Z) (ratio : spec_float) (window : nat) :
  fits_float T ->
  recommend history T ratio window = ret (recommendation_for history T ratio window).
Proof.
  intros Hfit. unfold recommend, recommendation_for.
  cbn [py_mul]. rewrite (float_of_int_fits _ Hfit). cbn [bind ret].
  unfold py_gt at 2 3 4. cbn [py_lt]. rewrite (Z.mul_comm T 2).
  repeat match goal with |- context [if ?b then _ else _] => destruct b end;
    reflexivity.
Qed.

Lemma fits_float_200000 : fits_float 200000.
Proof. unfold fits_float. pose proof int_limit_large. cbn [Z.abs]. lia. Qed.


(** *** The whole computation *)

Lemma query_session_status_run (agent : string) (rows : list usage_row) (T : Z) :
  rows <> [] -> Forall int64_row rows -> fits_float T ->
  exists b last_row total sum_5 avg ratio,
    find_last_reset rows = ret b /\
    last_reset rows b /\ (b < length rows)%nat /\
    last (drop b rows) = Some last_row /\
    py_sum (map cost_or_0 (drop b rows)) = ret total /\
    py_sum (map cost_or_0 (last_five (drop b rows))) = ret sum_5 /\
    py_truediv sum_5
      (NInt (Z.max (Z.of_nat (length (last_five (drop b rows)))) 1)) = ret avg /\
    int_truediv (sum_Z (map write_tokens (last_five (drop b rows))))
      (Z.max (sum_Z (map cache_tokens (last_five (drop b rows)))) 1) = ret ratio /\
    query_session_status agent rows T
    = ret (status_of agent rows T b last_row total avg ratio).
Proof.
  intros Hne Hrows HT.
  destruct (find_last_reset_spec rows Hne Hrows) as (b & Hb & Hlast & Hlt).
  set (session := drop b rows).
  assert (Hlen : (0 < length session)%nat) by (unfold session; rewrite length_drop; lia).
  destruct (last session) as [last_row|] eqn:Hlr;
    [|apply last_None in Hlr; rewrite Hlr in Hlen; cbn in Hlen; lia].
  destruct (py_sum_costs session) as (total & Htotal & _).
  destruct (py_sum_costs (last_five session)) as (sum_5 & Hsum5 & Hct).
  pose proof (length_last_five session) as Hl5.
  destruct (average_cost_total sum_5
              (Z.max (Z.of_nat (length (last_five session))) 1) Hct) as [avg Havg];
    [lia|].
  destruct (write_ratio_total (last_five session)) as [ratio Hratio].
  { unfold last_five, session. apply Forall_drop, Forall_drop, Hrows. }
  { lia. }
  exists b, last_row, total, sum_5, avg, ratio.
  repeat (split; [assumption|]).
  unfold query_session_status. destruct rows as [|r0 rows']; [congruence|].
  rewrite Hb. cbn [bind ret]. fold session. rewrite Hlr. cbn [bind ret].
  rewrite Htotal. cbn [bind ret]. rewrite Hsum5. cbn [bind ret].
  rewrite Havg. cbn [bind ret]. cbn [py_truediv]. rewrite Hratio. cbn [bind ret].
  rewrite (recommend_total _ _ _ _ HT). reflexivity.
Qed.

Lemma no_cache_activity_sums (window : list usage_row) :
  Forall (fun r => int_or_0 (cache_read_tokens r) = 0%Z /\
                   int_or_0 (cache_write_tokens r) = 0%Z) window ->
  sum_Z (map write_tokens window) = 0%Z /\ sum_Z (map cache_tokens window) = 0%Z.
Proof.
  induction 1 as [|r l [Hr Hw] _ [IHw IHc]]; [split; reflexivity|].
  cbn [map]. rewrite !sum_Z_cons, IHw, IHc.
  unfold write_tokens, cache_tokens. rewrite Hr, Hw. split; reflexivity.
Qed.

(** C8.  On an empty window the status has all counters zero and the
    recommendation "no_data". *)
Theorem query_session_status_empty (agent : string) (char_limit : Z) :
  exists st,
    query_session_status agent [] char_limit = ret st /\
    current_session_turns st = 0%Z /\
    current_history_chars st = 0%Z /\
    last_turn_cost st = NInt 0 /\
    avg_cost_last_5 st = NInt 0 /\
    cache_write_pct_last_5 st = NInt 0 /\
    cost_since_last_reset st = NInt 0 /\
    turns_since_last_reset st = 0%Z /\
    recommendation st = "no_data".
Proof.
  eexists. split; [reflexivity|]. cbn. repeat split.
Qed.

(** C3.  On a non-empty window the boundary [b] is the index of the last
    adjacent pair whose previous history size exceeds 1000 and whose current
    one is less than half of the previous, and [0] when there is no such pair;
    the current session is the suffix of the window from [b], and the cost
    since the reset is the sum of the costs of that suffix (rounded to six
    places in the returned dict).  For the history sizes
    [50, 5000, 40000, 500, 8000] the session starts at the row of size 500 and
    the cost sums the last two rows only.  The test [curr < prev * 0.5] of the
    code is the exact one, [2 * curr < prev], for every previous size up to
    [2^53]. *)
Theorem session_boundary_and_cost_since_reset :
  (forall (agent : string) (rows : list usage_row) (char_limit : Z),
      rows <> [] -> Forall int64_row rows -> fits_float char_limit ->
      exists st b last_row total,
        query_session_status agent rows char_limit = ret st /\
        last_reset rows b /\ (b < length rows)%nat /\
        current_session_turns st = Z.of_nat (length (drop b rows)) /\
        turns_since_last_reset st = Z.of_nat (length (drop b rows)) /\
        last (drop b rows) = Some last_row /\
        current_history_chars st = history_chars last_row /\
        py_sum (map cost_or_0 (drop b rows)) = ret total /\
        cost_since_last_reset st = py_round total 6) /\
  (forall (agent : string) (char_limit : Z) (c1 c2 c3 c4 c5 : option spec_float),
      fits_float char_limit ->
      let rows := [plain_row 50 c1; plain_row 5000 c2; plain_row 40000 c3;
                   plain_row 500 c4; plain_row 8000 c5] in
      exists st total,
        query_session_status agent rows char_limit = ret st /\
        last_reset rows 3 /\
        turns_since_last_reset st = 2%Z /\
        current_history_chars st = 8000%Z /\
        py_sum [float_or_0 c4; float_or_0 c5] = ret total /\
        cost_since_last_reset st = py_round total 6) /\
  (forall prev curr : Z,
      (prev <= 2 ^ 53)%Z -> halved prev curr = less_than_half prev curr).
Proof.
  split; [|split; [|exact halved_exact]].
  - intros agent rows T Hne Hrows HT.
    destruct (query_session_status_run agent rows T Hne Hrows HT)
      as (b & last_row & total & sum_5 & avg & ratio &
          _ & Hlast & Hlt & Hrow & Htotal & _ & _ & _ & Hrun).
    exists (status_of agent rows T b last_row total avg ratio), b, last_row, total.
    cbn [status_of current_session_turns turns_since_last_reset
         current_history_chars cost_since_last_reset].
    repeat (split; [first [assumption | reflexivity]|]). reflexivity.
  - intros agent T c1 c2 c3 c4 c5 HT rows.
    assert (Hne : rows <> []) by discriminate.
    assert (Hrows : Forall int64_row rows).
    { repeat constructor; cbn; unfold int64; lia. }
    destruct (query_session_status_run agent rows T Hne Hrows HT)
      as (b & last_row & total & sum_5 & avg & ratio &
          Hb & Hlast & Hlt & Hrow & Htotal & _ & _ & _ & Hrun).
    assert (Hb3 : find_last_reset rows = ret 3%nat) by (vm_compute; reflexivity).
    rewrite Hb3 in Hb. injection Hb as <-.
    cbn in Hrow. injection Hrow as <-.
    exists (status_of agent rows T 3 (plain_row 8000 c5) total avg ratio), total.
    split; [exact Hrun|]. split; [exact Hlast|].
    cbn [status_of current_session_turns turns_since_last_reset
         current_history_chars cost_since_last_reset].
    repeat split. exact Htotal.
Qed.


(** C9.  On a non-empty window the rolling window is the last five rows of
    the current session, or all of them when there are fewer; the cache-write
    ratio is the sum of its cache-write tokens divided by the larger of 1 and
    the sum of its cache-read and cache-write tokens, a division that never
    fails; and the ratio is zero when no row of the rolling window has cache
    tokens. *)
Theorem cache_write_ratio_of_rolling_window
    (agent : string) (rows : list usage_row) (char_limit : Z) :
  rows <> [] -> Forall int64_row rows -> fits_float char_limit ->
  exists st b window ratio,
    query_session_status agent rows char_limit = ret st /\
    last_reset rows b /\
    (exists older, drop b rows = older ++ window) /\
    length window = Nat.min 5 (length (drop b rows)) /\
    (1 <= Z.max 1 (sum_Z (map cache_tokens window)))%Z /\
    int_truediv (sum_Z (map write_tokens window))
      (Z.max 1 (sum_Z (map cache_tokens window))) = ret ratio /\
    cache_write_pct_last_5 st = py_round (NFloat ratio) 4 /\
    (Forall (fun r => int_or_0 (cache_read_tokens r) = 0%Z /\
                      int_or_0 (cache_write_tokens r) = 0%Z) window ->
     ratio = F64.zero /\ cache_write_pct_last_5 st = NFloat F64.zero).
Proof.
  intros Hne Hrows HT.
  destruct (query_session_status_run agent rows char_limit Hne Hrows HT)
    as (b & last_row & total & sum_5 & avg & ratio &
        _ & Hlast & _ & _ & _ & _ & _ & Hratio & Hrun).
  exists (status_of agent rows char_limit b last_row total avg ratio), b,
    (last_five (drop b rows)), ratio.
  rewrite Z.max_comm in Hratio.
  split; [exact Hrun|]. split; [exact Hlast|].
  split; [eexists; symmetry; apply last_five_suffix|].
  split; [apply length_last_five|].
  split; [lia|]. split; [exact Hratio|]. split; [reflexivity|].
  intros Hnone.
  destruct (no_cache_activity_sums _ Hnone) as [Hw Hc]. rewrite Hw, Hc in Hratio.
  injection Hratio as <-. split; reflexivity.
Qed.

(** ** System-prompt analysis *)

Section Analysis.

Variable py_str : pyval -> string.
Variable json_dumps : pyval -> result string.

Lemma append_assoc (a b c : string) : (a +:+ b) +:+ c = a +:+ (b +:+ c).
Proof.
  induction a as [|x a IH]; [reflexivity|].
  change (String x ((a +:+ b) +:+ c) = String x (a +:+ (b +:+ c))).
  rewrite IH. reflexivity.
Qed.

Lemma has_marker_spec text filename :
  has_marker text filename = true <-> occurs_in (marker filename) text.
Proof.
  unfold has_marker, marker. rewrite orb_true_iff, !contains_spec. split.
  - intros [(pre & post & ->) | H]; [|exact H].
    exists (pre +:+ "#"), post. rewrite !append_assoc. reflexivity.
  - intros H. right. exact H.
Qed.

Lemma has_marker_false text filename :
  has_marker text filename = false <-> ~ occurs_in (marker filename) text.
Proof.
  rewrite <- has_marker_spec. destruct (has_marker text filename); split; congruence.
Qed.

Lemma find_app_first {A} (f : A -> bool) (pre post : list A) (x : A) :
  Forall (fun y => f y = false) pre -> f x = true ->
  List.find f (pre ++ x :: post) = Some x.
Proof.
  induction 1 as [|y pre Hy _ IH]; intros Hx; simpl.
  - rewrite Hx. reflexivity.
  - rewrite Hy. apply IH, Hx.
Qed.

(** The inner loop of the analysis sends a text to its destination. *)
Lemma matched_workspace_spec (text : string) (dest : option string) :
  matched_workspace text = dest <-> destination text dest.
Proof.
  unfold matched_workspace.
  pose proof (find_first (fun entry => has_marker text (fst entry))
                WORKSPACE_FILE_MAP) as Hf.
  split.
  - intros <-. destruct (List.find _ _) as [[filename key]|]; unfold destination;
      cbn [fmap option_fmap option_map snd].
    + destruct Hf as (pre & post & Hmap & Hx & Hpre).
      exists pre, filename, post. split; [exact Hmap|].
      split; [apply has_marker_spec, Hx|].
      eapply Forall_impl; [exact Hpre|]. intros e; apply has_marker_false.
    + eapply Forall_impl; [exact Hf|]. intros e; apply has_marker_false.
  - destruct dest as [key|]; unfold destination.
    + intros (before & filename & after & Hmap & Hocc & Hbefore).
      rewrite Hmap.
      rewrite (find_app_first _ before after (filename, key)); [reflexivity| |].
      * eapply Forall_impl; [exact Hbefore|]. intros e; apply has_marker_false.
      * apply has_marker_spec, Hocc.
    + intros Hnone. destruct (List.find _ _) as [[filename key]|]; [|reflexivity].
      destruct Hf as (pre & post & Hmap & Hx & _). exfalso.
      rewrite Forall_forall in Hnone.
      apply (Hnone (filename, key)); [|apply has_marker_spec, Hx].
      rewrite Hmap. apply list_elem_of_In, in_or_app. right. left. reflexivity.
Qed.

Lemma sum_Z_nonneg (l : list Z) : Forall (fun z => 0 <= z)%Z l -> (0 <= sum_Z l)%Z.
Proof.
  induction 1 as [|z l Hz _ IH]; [cbn; lia|]. rewrite sum_Z_cons. lia.
Qed.

Lemma block_chars_nonneg block : (0 <= block_chars py_str block)%Z.
Proof. destruct block; cbn; lia. Qed.

Lemma chars_to_nonneg dest blocks : (0 <= chars_to py_str dest blocks)%Z.
Proof.
  apply sum_Z_nonneg, Forall_map, Forall_forall. intros [] _; try lia.
  case_decide; [apply block_chars_nonneg | lia].
Qed.

Lemma chars_of_nonneg blocks : (0 <= chars_of py_str blocks)%Z.
Proof.
  apply sum_Z_nonneg, Forall_map, Forall_forall. intros b _. apply block_chars_nonneg.
Qed.

Lemma chars_to_cons dest block blocks :
  chars_to py_str dest (block :: blocks)
  = ((match block with
      | PDict d =>
          if decide (matched_workspace (block_text py_str d) = dest)
          then block_chars py_str block else 0
      | _ => 0
      end) + chars_to py_str dest blocks)%Z.
Proof. unfold chars_to. cbn [map]. apply sum_Z_cons. Qed.

Lemma chars_of_cons block blocks :
  chars_of py_str (block :: blocks) = (block_chars py_str block + chars_of py_str blocks)%Z.
Proof. unfold chars_of. cbn [map]. apply sum_Z_cons. Qed.

(** *** The loop over the blocks *)

Lemma foldl_analyze_block (blocks : list pyval) (acc : prompt_acc) :
  let acc' := foldl (analyze_block py_str) acc blocks in
  total_chars acc' = (total_chars acc + chars_of py_str blocks)%Z /\
  base_chars acc' = (base_chars acc + chars_to py_str None blocks)%Z /\
  forall key,
    default 0%Z (workspace_chars acc' !! key)
    = (default 0%Z (workspace_chars acc !! key) + chars_to py_str (Some key) blocks)%Z.
Proof.
  revert acc. induction blocks as [|block blocks IH]; intros acc; cbn [foldl].
  - cbn. repeat split; intros; lia.
  - destruct (IH (analyze_block py_str acc block)) as (Ht & Hb & Hw).
    cbn zeta. rewrite Ht, Hb, chars_of_cons, (chars_to_cons None).
    split; [|split].
    + destruct block as [| | | | | |d]; cbn [analyze_block block_chars]; try lia.
      destruct (matched_workspace _); cbn [total_chars]; lia.
    + destruct block as [| | | | | |d]; cbn [analyze_block block_chars]; try lia.
      destruct (matched_workspace _); cbn [base_chars];
        case_decide; try congruence; lia.
    + intros key. rewrite Hw, (chars_to_cons (Some key)).
      destruct block as [| | | | | |d]; cbn [analyze_block block_chars]; try lia.
      destruct (matched_workspace _) as [metric_key|] eqn:Hm; cbn [workspace_chars].
      * destruct (decide (metric_key = key)) as [->|Hne].
        -- rewrite lookup_insert_eq. cbn [from_option id].
           case_decide; [lia | congruence].
        -- rewrite lookup_insert_ne by exact Hne.
           case_decide; [congruence | lia].
      * case_decide; [congruence | lia].
Qed.

(** The dict the analysis returns for the final state of the loop. *)
Lemma analysis_result_lookup (total base : Z) (count : string -> Z) (zero : gmap string Z) :
  let r := foldl (fun res key => <[key := count key]> res)
             (<["base_prompt_chars"%string := base]>
                (<["system_prompt_total_chars"%string := total]> zero))
             (map snd WORKSPACE_FILE_MAP) in
  r !! "system_prompt_total_chars"%string = Some total /\
  r !! "base_prompt_chars"%string = Some base /\
  Forall (fun key => r !! key = Some (count key)) (map snd WORKSPACE_FILE_MAP).
Proof.
  cbn [foldl map snd WORKSPACE_FILE_MAP].
  split; [|split].
  - rewrite !lookup_insert_ne by discriminate. rewrite lookup_insert_eq. reflexivity.
  - rewrite !lookup_insert_ne by discriminate. rewrite lookup_insert_eq. reflexivity.
  - repeat constructor;
      repeat (first [ rewrite lookup_insert_eq; reflexivity
                    | rewrite lookup_insert_ne by discriminate ]).
Qed.

Lemma matched_workspace_key text key :
  matched_workspace text = Some key -> In key (map snd WORKSPACE_FILE_MAP).
Proof.
  unfold matched_workspace.
  pose proof (find_first (fun entry => has_marker text (fst entry))
                WORKSPACE_FILE_MAP) as Hf.
  destruct (List.find _ _) as [[filename key']|]; [|discriminate].
  intros [= <-]. destruct Hf as (pre & post & Hmap & _ & _).
  rewrite Hmap, map_app. apply in_or_app. right. left. reflexivity.
Qed.

(** Every character of a block is counted once: for the base prompt or for
    one workspace file. *)
Lemma chars_partition (blocks : list pyval) :
  chars_of py_str blocks
  = (chars_to py_str None blocks
     + sum_Z (map (fun key => chars_to py_str (Some key) blocks)
                  (map snd WORKSPACE_FILE_MAP)))%Z.
Proof.
  cbn [map snd WORKSPACE_FILE_MAP]. rewrite !sum_Z_cons. change (sum_Z []) with 0%Z.
  induction blocks as [|block blocks IH].
  - reflexivity.
  - rewrite chars_of_cons, !chars_to_cons, IH.
    destruct block as [| | | | | |d]; cbn [block_chars]; try lia.
    destruct (matched_workspace (block_text py_str d)) as [key|] eqn:Hm.
    + apply matched_workspace_key in Hm. cbn in Hm.
      destruct Hm as [<-|[<-|[<-|[<-|[<-|[<-|[<-|[<-|[]]]]]]]]];
        repeat (case_decide; [try discriminate|try congruence]); lia.
    + repeat (case_decide; [try discriminate|try congruence]); lia.
Qed.

Lemma zero_keys_lookup (keys : list string) (m : gmap string Z) :
  (forall k, default 0%Z (m !! k) = 0%Z) ->
  forall k, default 0%Z (zero_keys keys m !! k) = 0%Z.
Proof.
  unfold zero_keys. revert m. induction keys as [|key keys IH]; intros m Hm k.
  - apply Hm.
  - cbn [foldl]. apply IH. intros k'.
    destruct (decide (key = k')) as [->|Hne].
    + rewrite lookup_insert_eq. reflexivity.
    + rewrite lookup_insert_ne by exact Hne. apply Hm.
Qed.

(** The analysis of a list of blocks, count by count. *)
Lemma analyze_blocks_counts (blocks : list pyval) :
  let r := _analyze_system_prompt py_str (PList blocks) in
  r !! "system_prompt_total_chars"%string = Some (chars_of py_str blocks) /\
  r !! "base_prompt_chars"%string = Some (chars_to py_str None blocks) /\
  Forall (fun key => r !! key = Some (chars_to py_str (Some key) blocks))
         (map snd WORKSPACE_FILE_MAP).
Proof.
  cbn zeta. unfold _analyze_system_prompt.
  set (acc0 := {| total_chars := 0; base_chars := 0;
                  workspace_chars := zero_keys (map snd WORKSPACE_FILE_MAP) ∅ |}).
  destruct (foldl_analyze_block blocks acc0) as (Ht & Hb & Hw).
  set (acc := foldl (analyze_block py_str) acc0 blocks) in *.
  destruct (analysis_result_lookup (total_chars acc) (base_chars acc)
              (fun key => default 0%Z (workspace_chars acc !! key))
              (zero_keys (map snd WORKSPACE_FILE_MAP)
                 (<["base_prompt_chars"%string := 0%Z]>
                    {["system_prompt_total_chars"%string := 0%Z]})))
    as (Hrt & Hrb & Hrw).
  split; [rewrite Hrt, Ht; reflexivity|].
  split; [rewrite Hrb, Hb; reflexivity|].
  eapply Forall_impl; [exact Hrw|]. intros key ->. cbn beta. rewrite Hw.
  unfold acc0 at 1. cbn [workspace_chars].
  rewrite zero_keys_lookup; [reflexivity|]. intros k. rewrite lookup_empty. reflexivity.
Qed.

Lemma analyze_blocks_partitioned (blocks : list pyval) :
  partitioned (_analyze_system_prompt py_str (PList blocks)).
Proof.
  destruct (analyze_blocks_counts blocks) as (Ht & Hb & Hw).
  exists (chars_of py_str blocks), (chars_to py_str None blocks),
    (map (fun key => chars_to py_str (Some key) blocks) (map snd WORKSPACE_FILE_MAP)).
  split; [exact Ht|]. split; [exact Hb|].
  split; [apply Forall2_fmap_r, Forall_Forall2_diag, Hw|].
  split; [apply chars_partition|].
  split; [apply chars_of_nonneg|]. split; [apply chars_to_nonneg|].
  apply Forall_map, Forall_forall. intros key _. apply chars_to_nonneg.
Qed.

Lemma zeros_partitioned (r : gmap string Z) :
  r !! "system_prompt_total_chars"%string = Some 0%Z ->
  r !! "base_prompt_chars"%string = Some 0%Z ->
  Forall (fun key => r !! key = Some 0%Z) (map snd WORKSPACE_FILE_MAP) ->
  partitioned r.
Proof.
  intros Ht Hb Hw.
  exists 0%Z, 0%Z, (map (fun _ => 0%Z) (map snd WORKSPACE_FILE_MAP)).
  split; [exact Ht|]. split; [exact Hb|].
  split; [apply Forall2_fmap_r, Forall_Forall2_diag, Hw|].
  split; [reflexivity|]. split; [lia|]. split; [lia|].
  apply Forall_map, Forall_forall. intros; cbn; lia.
Qed.

Lemma analyze_system_prompt_partitioned (system : pyval) :
  partitioned (_analyze_system_prompt py_str system).
Proof.
  destruct system as [| | | |s|blocks|d];
    try (apply zeros_partitioned; [reflexivity | reflexivity |];
         repeat constructor).
  - change (_analyze_system_prompt py_str (PStr s))
      with (_analyze_system_prompt py_str
              (PList [PDict [("type"%string, PStr "text"); ("text"%string, PStr s)]])).
    apply analyze_blocks_partitioned.
  - apply analyze_blocks_partitioned.
Qed.

Lemma Forall2_lookup_same (keys : list string) (ws : list Z) (r r' : gmap string Z) :
  Forall2 (fun key w => r !! key = Some w) keys ws ->
  (forall key w, In key keys -> r !! key = Some w -> r' !! key = Some w) ->
  Forall2 (fun key w => r' !! key = Some w) keys ws.
Proof.
  induction 1 as [|key w keys ws Hkey _ IH]; intros Hsame; constructor.
  - apply Hsame; [left; reflexivity | exact Hkey].
  - apply IH. intros k v Hin. apply Hsame. right. exact Hin.
Qed.

(** [partitioned] only reads the ten system-prompt keys. *)
Lemma partitioned_same_counts (r r' : gmap string Z) :
  (forall key w, r !! key = Some w ->
     key = "system_prompt_total_chars"%string \/ key = "base_prompt_chars"%string \/
     In key (map snd WORKSPACE_FILE_MAP) -> r' !! key = Some w) ->
  partitioned r -> partitioned r'.
Proof.
  intros Hsame (total & base & ws & Ht & Hb & Hw & Hrest).
  exists total, base, ws.
  split; [apply Hsame; auto|]. split; [apply Hsame; auto|].
  split; [|exact Hrest].
  eapply Forall2_lookup_same; [exact Hw|].
  intros key w Hin Hkey. apply Hsame; auto.
Qed.

Lemma analyze_messages_keys (messages : pyval) (m : gmap string Z) (key : string) :
  _analyze_messages json_dumps messages = ret m ->
  key = "system_prompt_total_chars"%string \/ key = "base_prompt_chars"%string \/
  In key (map snd WORKSPACE_FILE_MAP) ->
  m !! key = None.
Proof.
  unfold _analyze_messages. intros Hm Hkey.
  destruct (py_iter messages) as [e|msgs]; [discriminate|]. cbn [bind] in Hm.
  destruct (count_roles msgs 0 0) as [e|counts]; [discriminate|]. cbn [bind] in Hm.
  destruct (match json_dumps messages with inl _ => _ | inr _ => _ end)
    as [e|history]; [discriminate|]. cbn [bind] in Hm.
  destruct (py_len messages) as [e|count]; [discriminate|]. cbn [bind ret] in Hm.
  injection Hm as <-. cbn in Hkey.
  destruct Hkey as [->|[->|[<-|[<-|[<-|[<-|[<-|[<-|[<-|[<-|[]]]]]]]]]]];
    rewrite !lookup_insert_ne by discriminate;
    apply lookup_singleton_ne; discriminate.
Qed.

Lemma analyze_request_partitioned (body : list (string * pyval)) (r : gmap string Z) :
  analyze_request py_str json_dumps body = ret r -> partitioned r.
Proof.
  unfold analyze_request.
  set (result0 := zero_keys _ ∅).
  set (system := default (PList []) (dict_get body "system")).
  set (result1 := if truthy system then _ else _).
  assert (H1 : partitioned result1).
  { unfold result1. destruct (truthy system).
    - eapply partitioned_same_counts; [|apply (analyze_system_prompt_partitioned system)].
      intros key w Hkey _. apply lookup_union_Some_l, Hkey.
    - apply zeros_partitioned; [reflexivity | reflexivity | repeat constructor]. }
  destruct (_analyze_messages json_dumps _) as [e|msg_analysis] eqn:Hmsg;
    [discriminate|]. cbn [bind].
  destruct (py_len _) as [e|tool_count]; [discriminate|]. cbn [bind ret].
  intros [= <-].
  eapply partitioned_same_counts; [|exact H1].
  intros key w Hkey Hin.
  rewrite lookup_insert_ne.
  - rewrite lookup_union_r; [exact Hkey|].
    eapply analyze_messages_keys; [exact Hmsg | exact Hin].
  - cbn in Hin.
    destruct Hin as [->|[->|[<-|[<-|[<-|[<-|[<-|[<-|[<-|[<-|[]]]]]]]]]]]; discriminate.
Qed.

(** Messages that are a list of dicts are counted without an error. *)
Lemma count_roles_dicts (msgs : list pyval) (u a : Z) :
  Forall (fun msg => exists d, msg = PDict d) msgs ->
  exists counts, count_roles msgs u a = ret counts.
Proof.
  intros Hall. revert u a. induction Hall as [|msg msgs [d ->] _ IH]; intros u a.
  - eexists. reflexivity.
  - cbn [count_roles py_get bind ret].
    destruct (is_str _ "user"); [apply IH|].
    destruct (is_str _ "assistant"); apply IH.
Qed.

End Analysis.

(** C10.  The Anthropic request analysis partitions the system prompt: in the
    dict it returns, [system_prompt_total_chars] is [base_prompt_chars] plus
    the sum of the eight [workspace_*_chars] counts, and none of the counts
    is negative.  This holds of every result of [analyze_request], of the
    system-prompt analysis on any value, and [analyze_request] does return
    when the messages are a list of dicts that serializes and the tools are a
    list. *)
Theorem analyze_request_partitions_system_prompt
    (py_str : pyval -> string) (json_dumps : pyval -> result string) :
  (forall system, partitioned (_analyze_system_prompt py_str system)) /\
  (forall body r,
      analyze_request py_str json_dumps body = ret r -> partitioned r) /\
  (forall body msgs tools history,
      default (PList []) (dict_get body "messages") = PList msgs ->
      Forall (fun msg => exists d, msg = PDict d) msgs ->
      json_dumps (PList msgs) = ret history ->
      default (PList []) (dict_get body "tools") = PList tools ->
      exists r, analyze_request py_str json_dumps body = ret r /\ partitioned r).
Proof.
  split; [apply analyze_system_prompt_partitioned|].
  split; [apply analyze_request_partitioned|].
  intros body msgs tools history Hmsgs Hdicts Hdumps Htools.
  assert (Hret : exists r, analyze_request py_str json_dumps body = ret r).
  { unfold analyze_request, _analyze_messages. rewrite Hmsgs, Htools.
    cbn [py_iter bind ret].
    destruct (count_roles_dicts msgs 0 0 Hdicts) as [counts ->].
    cbn [bind]. rewrite Hdumps. cbn [bind ret py_len]. eexists. reflexivity. }
  destruct Hret as [r Hr]. exists r. split; [exact Hr|].
  eapply analyze_request_partitioned, Hr.
Qed.

(** *** Headings at the start of a line *)

(** The block [mention_block] has no heading line, yet its 15 characters are
    counted for [AGENTS.md] and not for the base prompt. *)
Lemma heading_line_attribution_fails : ~ heading_line_attribution.
Proof.
  intros H. destruct (H (fun _ => EmptyString) [mention_block]) as [Hbase _].
  vm_compute in Hbase. discriminate Hbase.
Qed.

(** C5 (amended).  In the analysis of a system prompt given as a list of
    blocks, the text length of each block that is a dict is counted once: for
    the first file of [WORKSPACE_FILE_MAP] whose marker, one [#], a space and
    the file name, occurs anywhere in the text, or for the base prompt when
    no marker occurs. *)
Theorem system_prompt_attribution
    (py_str : pyval -> string) (blocks : list pyval) :
  let r := _analyze_system_prompt py_str (PList blocks) in
  (forall text dest, matched_workspace text = dest <-> destination text dest) /\
  (forall text, exists dest,
      destination text dest /\
      forall dest', destination text dest' -> dest' = dest) /\
  r !! "system_prompt_total_chars"%string = Some (chars_of py_str blocks) /\
  r !! "base_prompt_chars"%string = Some (chars_to py_str None blocks) /\
  Forall (fun key => r !! key = Some (chars_to py_str (Some key) blocks))
         (map snd WORKSPACE_FILE_MAP) /\
  chars_of py_str blocks
  = (chars_to py_str None blocks
     + sum_Z (map (fun key => chars_to py_str (Some key) blocks)
                  (map snd WORKSPACE_FILE_MAP)))%Z.
Proof.
  cbn zeta. split; [apply matched_workspace_spec|].
  split.
  { intros text. exists (matched_workspace text).
    split; [apply matched_workspace_spec; reflexivity|].
    intros dest' Hd. symmetry. apply matched_workspace_spec, Hd. }
  destruct (analyze_blocks_counts py_str blocks) as (Ht & Hb & Hw).
  split; [exact Ht|]. split; [exact Hb|]. split; [exact Hw|].
  apply chars_partition.
Qed.

Example mention_block_counted_for_agents :
  _analyze_system_prompt (fun _ => EmptyString) (PList [mention_block])
    !! "workspace_agents_chars"%string = Some 15%Z /\
  heading_section "see # AGENTS.md" = None.
Proof. split; vm_compute; reflexivity. Qed.

(** ** Provider registry *)

Lemma cache_valid_empty : cache_valid empty_registry.
Proof. intros name obj H. cbn in H. rewrite lookup_empty in H. discriminate. Qed.

Lemma cache_valid_register name c s : cache_valid s -> cache_valid (register name c s).
Proof. intros H n obj. cbn. apply H. Qed.

Lemma cache_valid_clear_cache s : cache_valid (clear_cache s).
Proof. intros n obj H. cbn in H. rewrite lookup_empty in H. discriminate. Qed.

Lemma cache_valid_unregister name s :
  cache_valid s -> cache_valid (snd (unregister name s)).
Proof.
  intros H. unfold unregister. destruct (providers_get _ _); [|exact H].
  intros n obj. cbn. intros Hn. apply lookup_delete_Some in Hn. apply (H n), Hn.
Qed.

Lemma cache_valid_get name config s :
  cache_valid s -> cache_valid (snd (get name config s)).
Proof.
  intros H. unfold get. destruct (providers_get _ _) as [c|]; [|exact H].
  destruct (config_given config).
  - intros n obj. cbn. rewrite length_app. cbn. intros Hn. apply H in Hn. lia.
  - destruct (_instances s !! lower name) as [obj0|] eqn:Hc; [exact H|].
    intros n obj. cbn. rewrite length_app. cbn.
    destruct (decide (lower name = n)) as [<-|Hne].
    + rewrite lookup_insert_eq. intros [= <-]. lia.
    + rewrite lookup_insert_ne by exact Hne. intros Hn. apply H in Hn. lia.
Qed.

Lemma cache_valid_initial : cache_valid initial_registry.
Proof. unfold initial_registry. repeat apply cache_valid_register. apply cache_valid_empty. Qed.

(** *** The message for an unknown name *)

Lemma append_empty_r (k : string) : k +:+ EmptyString = k.
Proof.
  induction k as [|c k IH]; [reflexivity|].
  change (String c (k +:+ EmptyString) = String c k). rewrite IH. reflexivity.
Qed.

Lemma occurs_in_refl (k : string) : occurs_in k k.
Proof.
  exists EmptyString, EmptyString. rewrite append_empty_r. reflexivity.
Qed.

Lemma occurs_in_append_r (k a b : string) : occurs_in k b -> occurs_in k (a +:+ b).
Proof.
  intros (pre & post & ->). exists (a +:+ pre), post. rewrite append_assoc. reflexivity.
Qed.

Lemma occurs_in_append_l (k a b : string) : occurs_in k a -> occurs_in k (a +:+ b).
Proof.
  intros (pre & post & ->). exists pre, (post +:+ b). rewrite !append_assoc. reflexivity.
Qed.

Lemma occurs_in_join (sep k : string) (l : list string) :
  In k l -> occurs_in k (str_join sep l).
Proof.
  induction l as [|x l IH]; [intros []|].
  intros [<-|Hin].
  - destruct l; [apply occurs_in_refl|]. cbn [str_join].
    apply occurs_in_append_l, occurs_in_refl.
  - destruct l as [|y l]; [destruct Hin|]. cbn [str_join].
    apply occurs_in_append_r, occurs_in_append_r, IH, Hin.
Qed.

Lemma occurs_in_empty (k : string) : occurs_in k EmptyString -> k = EmptyString.
Proof.
  intros (pre & post & H). destruct pre; [|discriminate].
  destruct k; [reflexivity | discriminate].
Qed.

Lemma unknown_provider_lists (name : string) (s : registry) (n : string) :
  In n (list_providers s) -> occurs_in n (unknown_provider name s).
Proof.
  intros Hin. unfold unknown_provider.
  apply (occurs_in_join ", ") in Hin. fold (list_providers s).
  do 3 apply occurs_in_append_r.
  destruct (String.eqb_spec (str_join ", " (list_providers s)) EmptyString) as [He|_];
    [|exact Hin].
  rewrite He in Hin. apply occurs_in_empty in Hin. subst n.
  exists EmptyString, "none"%string. reflexivity.
Qed.

(** C6 (amended).  [ProviderRegistry.get]: an unregistered name fails with a
    [ValueError] whose message lists the registered names; a registered name
    requested twice without a config override gives the same cached object
    both times; and a registered name requested with a non-empty config
    override gives a new object, which is not in the cache and leaves the
    cache as it was. *)
Theorem registry_get_contract :
  (forall name config s,
      providers_get (_providers s) (lower name) = None ->
      get name config s = (raise (ValueError (unknown_provider name s)), s) /\
      forall n, In n (list_providers s) -> occurs_in n (unknown_provider name s)) /\
  (forall name c s,
      registered s name c ->
      exists obj s1,
        get name None s = (ret obj, s1) /\
        get name None s1 = (ret obj, s1) /\
        _instances s1 !! lower name = Some obj) /\
  (forall name c config s,
      registered s name c -> config_given config = true -> cache_valid s ->
      exists s',
        get name config s = (ret (length (objects s)), s') /\
        objects s' = objects s ++ [ {| instance_class := c;
                                       instance_config := default [] config |} ] /\
        _instances s' = _instances s /\
        forall cached, _instances s !! cached <> Some (length (objects s))).
Proof.
  split; [|split].
  - intros name config s Hnone. split; [|apply unknown_provider_lists].
    unfold get. rewrite Hnone. reflexivity.
  - intros name c s Hreg. unfold registered in Hreg. unfold get at 1. rewrite Hreg.
    cbn [config_given].
    destruct (_instances s !! lower name) as [obj|] eqn:Hc.
    + exists obj, s. split; [reflexivity|]. split; [|exact Hc].
      unfold get. rewrite Hreg. cbn [config_given]. rewrite Hc. reflexivity.
    + eexists _, _. split; [reflexivity|].
      unfold get. cbn [_providers _instances construct]. rewrite Hreg.
      cbn [config_given]. rewrite lookup_insert_eq. split; reflexivity.
  - intros name c config s Hreg Hcfg Hvalid. unfold registered in Hreg.
    unfold get. rewrite Hreg, Hcfg. eexists. split; [reflexivity|].
    split; [reflexivity|]. split; [reflexivity|].
    intros cached Hc. apply Hvalid in Hc. lia.
Qed.

(** With the empty dict as override, [get] returns the cached object. *)
Lemma empty_override_returns_cached : ~ override_never_cached.
Proof.
  intros H.
  apply (H registry_after_get "openai"%string [] 0%nat registry_after_get
           (cache_valid_get _ _ _ cache_valid_initial) eq_refl "openai"%string).
  reflexivity.
Qed.

(** ** Stream parsing *)

Section Stream.

Variable json_loads : string -> result pyval.

(** Lines that are skipped: no [data:] prefix, the sentinel, or a payload
    that is not JSON. *)
Lemma stream_payload_not_data (line : string) :
  startswith (strip line) "data:" = false ->
  stream_payload json_loads line = ret None.
Proof. unfold stream_payload. intros ->. reflexivity. Qed.

Lemma stream_payload_done (line : string) :
  strip (drop_chars 5 (strip line)) = "[DONE]"%string ->
  stream_payload json_loads line = ret None.
Proof.
  unfold stream_payload. intros ->.
  destruct (startswith (strip line) "data:"); reflexivity.
Qed.

Lemma stream_payload_unparsable (line : string) :
  json_loads (strip (drop_chars 5 (strip line))) = raise JSONDecodeError ->
  stream_payload json_loads line = ret None.
Proof.
  unfold stream_payload. intros ->.
  destruct (startswith (strip line) "data:"); [|reflexivity].
  destruct (String.eqb _ _); reflexivity.
Qed.

Lemma extract_skips (line : string) (event_type : option string) :
  stream_payload json_loads line = ret None ->
  anthropic_extract_usage_from_stream json_loads line event_type = ret None /\
  openai_extract_usage_from_stream json_loads line event_type = ret None.
Proof.
  unfold anthropic_extract_usage_from_stream, openai_extract_usage_from_stream.
  intros ->. split; reflexivity.
Qed.

Lemma stream_payload_parsed (line : string) (data : pyval) :
  startswith (strip line) "data:" = true ->
  strip (drop_chars 5 (strip line)) <> "[DONE]"%string ->
  json_loads (strip (drop_chars 5 (strip line))) = ret data ->
  stream_payload json_loads line = ret (Some data).
Proof.
  unfold stream_payload. intros -> Hdone ->. cbn [negb].
  destruct (String.eqb_spec (strip (drop_chars 5 (strip line))) "[DONE]");
    [contradiction|reflexivity].
Qed.

End Stream.

(** C7 (the code fails here).  Lines without the [data:] prefix, the
    [[DONE]] sentinel and payloads that [json.loads] rejects are skipped with
    [None].  But a [data:] line whose payload is a JSON document other than an
    object makes [extract_usage_from_stream] raise [AttributeError]: for the
    OpenAI-compatible provider whatever the event kind, for the Anthropic
    provider on a [message_start] or [message_delta] event. *)
Theorem extract_usage_from_stream_raises (json_loads : string -> result pyval) :
  (forall (line : string) (event_type : option string),
      startswith (strip line) "data:" = false \/
      strip (drop_chars 5 (strip line)) = "[DONE]"%string \/
      json_loads (strip (drop_chars 5 (strip line))) = raise JSONDecodeError ->
      openai_extract_usage_from_stream json_loads line event_type = ret None /\
      anthropic_extract_usage_from_stream json_loads line event_type = ret None) /\
  (forall (line : string) (data : pyval) (event_type : option string),
      startswith (strip line) "data:" = true ->
      strip (drop_chars 5 (strip line)) <> "[DONE]"%string ->
      json_loads (strip (drop_chars 5 (strip line))) = ret data ->
      is_dict data = false ->
      openai_extract_usage_from_stream json_loads line event_type
        = raise AttributeError /\
      anthropic_extract_usage_from_stream json_loads line (Some "message_start"%string)
        = raise AttributeError /\
      anthropic_extract_usage_from_stream json_loads line (Some "message_delta"%string)
        = raise AttributeError).
Proof.
  split.
  - intros line event_type H.
    assert (Hp : stream_payload json_loads line = ret None).
    { destruct H as [H | [H | H]].
      - apply stream_payload_not_data, H.
      - apply stream_payload_done, H.
      - apply stream_payload_unparsable, H. }
    destruct (extract_skips json_loads line event_type Hp) as [Ha Ho].
    split; assumption.
  - intros line data event_type Hstart Hdone Hloads Hdict.
    pose proof (stream_payload_parsed json_loads line data Hstart Hdone Hloads) as Hp.
    unfold openai_extract_usage_from_stream, anthropic_extract_usage_from_stream.
    rewrite Hp. destruct data; try discriminate Hdict; repeat split.
Qed.

Lemma extract_usage_from_stream_raises_witness :
  openai_extract_usage_from_stream loads_five "data: 5" None = raise AttributeError /\
  anthropic_extract_usage_from_stream loads_five "data: 5" (Some "message_start"%string)
    = raise AttributeError /\
  anthropic_extract_usage_from_stream loads_five "data: 5" (Some "message_delta"%string)
    = raise AttributeError.
Proof.
  apply (proj2 (extract_usage_from_stream_raises loads_five) "data: 5"%string (PInt 5) None).
  - reflexivity.
  - discriminate.
  - reflexivity.
  - reflexivity.
Defined.

(** ** Instances of the theorems at concrete inputs *)

Lemma calculate_cost_sum_of_categories_witness :
  (forall c, tokens_of ∅ c = 0%Z) /\
  calculate_cost Anthropic ∅ "claude-opus-4-6" = ret F64.zero /\
  calculate_cost Anthropic priced_usage "claude-sonnet-4"
    = ret (S754_finite false 7760602877884838 (-57)).
Proof.
  assert (Hz : forall c, tokens_of ∅ c = 0%Z) by (intros []; reflexivity).
  split; [exact Hz|]. split.
  - exact (proj2 (proj2 (proj1 calculate_cost_sum_of_categories
                           Anthropic ∅ "claude-opus-4-6")) Hz).
  - exact (proj1 (proj2 calculate_cost_sum_of_categories)).
Defined.

Lemma int64_example_window : Forall int64_row example_window.
Proof. repeat constructor; cbn; unfold int64; lia. Qed.

Lemma int64_unstable_window : Forall int64_row unstable_window.
Proof. repeat constructor; cbn; unfold int64; lia. Qed.

Lemma session_boundary_and_cost_since_reset_witness :
  example_window <> [] /\ Forall int64_row example_window /\ fits_float 200000 /\
  exists st,
    query_session_status "agent" example_window 200000 = ret st /\
    turns_since_last_reset st = 2%Z /\
    cost_since_last_reset st = NFloat (F64.dec 9 2).
Proof.
  split; [discriminate|]. split; [exact int64_example_window|].
  split; [exact fits_float_200000|].
  destruct (proj1 (proj2 session_boundary_and_cost_since_reset) "agent"%string 200000%Z
              (Some (F64.dec 1 2)) (Some (F64.dec 2 2)) (Some (F64.dec 3 2))
              (Some (F64.dec 4 2)) (Some (F64.dec 5 2)) fits_float_200000)
    as (st & total & Hst & _ & Hturns & _ & Htotal & Hcost).
  exists st. split; [exact Hst|]. split; [exact Hturns|].
  rewrite Hcost. vm_compute in Htotal. injection Htotal as <-.
  vm_compute. reflexivity.
Defined.


Lemma cache_write_ratio_of_rolling_window_witness :
  unstable_window <> [] /\ Forall int64_row unstable_window /\ fits_float 200000 /\
  exists st,
    query_session_status "agent" unstable_window 200000 = ret st /\
    cache_write_pct_last_5 st = NFloat (F64.dec 25 2).
Proof.
  split; [discriminate|]. split; [exact int64_unstable_window|].
  split; [exact fits_float_200000|].
  destruct (cache_write_ratio_of_rolling_window "agent" unstable_window 200000)
    as (st & b & window & ratio & Hst & _);
    [discriminate | exact int64_unstable_window | exact fits_float_200000 |].
  exists st. split; [exact Hst|].
  vm_compute in Hst. injection Hst as <-. vm_compute. reflexivity.
Defined.

Lemma registry_get_contract_witness :
  registered initial_registry "Anthropic" Anthropic /\
  cache_valid initial_registry /\
  (exists obj s1,
      get "Anthropic" None initial_registry = (ret obj, s1) /\
      get "Anthropic" None s1 = (ret obj, s1)) /\
  (exists s',
      get "Anthropic" (Some [("base_url"%string, PStr "http://localhost")])
        initial_registry = (ret 0%nat, s')).
Proof.
  assert (Hreg : registered initial_registry "Anthropic" Anthropic) by reflexivity.
  split; [exact Hreg|]. split; [exact cache_valid_initial|]. split.
  - destruct (proj1 (proj2 registry_get_contract) _ _ _ Hreg)
      as (obj & s1 & H1 & H2 & _).
    exists obj, s1. split; assumption.
  - destruct (proj2 (proj2 registry_get_contract) "Anthropic"%string Anthropic
                (Some [("base_url"%string, PStr "http://localhost")])
                initial_registry Hreg eq_refl cache_valid_initial)
      as (s' & Hget & _).
    exists s'. exact Hget.
Defined.

Lemma analyze_request_partitions_system_prompt_witness :
  exists r,
    analyze_request (fun _ => EmptyString) dumps_empty_list example_body = ret r /\
    partitioned r /\
    r !! "system_prompt_total_chars"%string = Some 32%Z /\
    r !! "workspace_soul_chars"%string = Some 16%Z /\
    r !! "base_prompt_chars"%string = Some 16%Z.
Proof.
  destruct (proj2 (proj2 (analyze_request_partitions_system_prompt
                            (fun _ => EmptyString) dumps_empty_list))
              example_body [] [] "[]"%string eq_refl (Forall_nil_2 _) eq_refl eq_refl)
    as (r & Hr & Hpart).
  exists r. split; [exact Hr|]. split; [exact Hpart|].
  assert (Hcount : forall key n,
             count_of (analyze_request (fun _ => EmptyString) dumps_empty_list
                         example_body) key = Some n ->
             r !! key = Some n).
  { intros key n. rewrite Hr. intros H. exact H. }
  repeat split; apply Hcount; vm_compute; reflexivity.
Defined.


(** * Further properties of the code *)

(** ** Provider registry: registration, cache and removal *)

Lemma lower_ascii_idempotent (c : ascii) : lower_ascii (lower_ascii c) = lower_ascii c.
Proof.
  destruct c as [[] [] [] [] [] [] [] []]; vm_compute; reflexivity.
Qed.

Lemma lower_idempotent (s : string) : lower (lower s) = lower s.
Proof.
  induction s as [|c s IH]; [reflexivity|].
  cbn [lower]. rewrite lower_ascii_idempotent, IH. reflexivity.
Qed.

Lemma providers_get_set_eq providers name c :
  providers_get (providers_set providers name c) name = Some c.
Proof.
  induction providers as [|[n c'] providers IH]; cbn.
  - rewrite String.eqb_refl. reflexivity.
  - destruct (String.eqb_spec name n) as [->|Hne]; cbn.
    + rewrite String.eqb_refl. reflexivity.
    + destruct (String.eqb_spec name n); [contradiction|exact IH].
Qed.

Lemma providers_get_set_ne providers name c other :
  other <> name ->
  providers_get (providers_set providers name c) other = providers_get providers other.
Proof.
  intros Hne. induction providers as [|[n c'] providers IH]; cbn.
  - destruct (String.eqb_spec other name); [contradiction|reflexivity].
  - destruct (String.eqb_spec name n) as [->|Hn]; cbn.
    + destruct (String.eqb_spec other n); [contradiction|reflexivity].
    + destruct (String.eqb_spec other n); [reflexivity|exact IH].
Qed.

Lemma providers_get_set_some providers name c other :
  (exists c0, providers_get providers other = Some c0) ->
  exists c1, providers_get (providers_set providers name c) other = Some c1.
Proof.
  intros H. destruct (String.eqb_spec other name) as [->|Hne].
  - exists c. apply providers_get_set_eq.
  - rewrite providers_get_set_ne by exact Hne. exact H.
Qed.

Lemma providers_get_In providers name :
  (exists c, providers_get providers name = Some c) <-> In name (map fst providers).
Proof.
  induction providers as [|[n c'] providers IH]; cbn.
  - split; [intros [c H]; discriminate|contradiction].
  - destruct (String.eqb_spec name n) as [->|Hne].
    + split; [intros _; left; reflexivity|intros _; eexists; reflexivity].
    + rewrite IH. split; [intros H; right; exact H|intros [H|H]; [congruence|exact H]].
Qed.

Lemma providers_get_remove_eq providers name :
  providers_get
    (List.filter (fun entry => negb (String.eqb name (fst entry))) providers) name
  = None.
Proof.
  induction providers as [|[n c'] providers IH]; cbn; [reflexivity|].
  destruct (String.eqb_spec name n) as [->|Hne]; cbn; [exact IH|].
  destruct (String.eqb_spec name n); [contradiction|exact IH].
Qed.

Lemma providers_get_remove_ne providers name other :
  other <> name ->
  providers_get
    (List.filter (fun entry => negb (String.eqb name (fst entry))) providers) other
  = providers_get providers other.
Proof.
  intros Hne. induction providers as [|[n c'] providers IH]; cbn; [reflexivity|].
  destruct (String.eqb_spec name n) as [->|Hn]; cbn.
  - destruct (String.eqb_spec other n); [contradiction|exact IH].
  - destruct (String.eqb_spec other n); [reflexivity|exact IH].
Qed.

(** *** The invariant of the cache *)

Lemma cache_sound_empty : cache_sound empty_registry.
Proof. intros name obj H. cbn in H. rewrite lookup_empty in H. discriminate. Qed.

Lemma cache_sound_register name c s : cache_sound s -> cache_sound (register name c s).
Proof.
  intros H n obj Hn. cbn in Hn. destruct (H n obj Hn) as (Hl & Hreg & Hobj).
  split; [exact Hl|]. split; [|exact Hobj].
  cbn. apply providers_get_set_some, Hreg.
Qed.

Lemma cache_sound_clear_cache s : cache_sound (clear_cache s).
Proof. intros n obj H. cbn in H. rewrite lookup_empty in H. discriminate. Qed.

Lemma cache_sound_unregister name s :
  cache_sound s -> cache_sound (snd (unregister name s)).
Proof.
  intros H. unfold unregister. destruct (providers_get _ _); [|exact H].
  intros n obj. cbn. intros Hn. apply lookup_delete_Some in Hn. destruct Hn as [Hne Hn].
  destruct (H n obj Hn) as (Hl & Hreg & Hobj).
  split; [exact Hl|]. split; [|exact Hobj].
  rewrite providers_get_remove_ne by congruence. exact Hreg.
Qed.

Lemma cache_sound_get name config s :
  cache_sound s -> cache_sound (snd (get name config s)).
Proof.
  intros H. unfold get. destruct (providers_get _ _) as [c|] eqn:Hc; [|exact H].
  destruct (config_given config).
  - intros n obj. cbn. intros Hn. destruct (H n obj Hn) as (Hl & Hreg & inst & Hi & Hcfg).
    split; [exact Hl|]. split; [exact Hreg|].
    exists inst. split; [|exact Hcfg]. apply lookup_app_l_Some, Hi.
  - destruct (_instances s !! lower name) as [obj0|] eqn:Hc0; [exact H|].
    intros n obj. cbn.
    destruct (decide (lower name = n)) as [<-|Hne].
    + rewrite lookup_insert_eq. intros [= <-].
      split; [apply lower_idempotent|]. split; [eexists; exact Hc|].
      exists (default_instance c). split; [|reflexivity].
      rewrite lookup_app_r by lia. rewrite Nat.sub_diag. reflexivity.
    + rewrite lookup_insert_ne by exact Hne. intros Hn.
      destruct (H n obj Hn) as (Hl & Hreg & inst & Hi & Hcfg).
      split; [exact Hl|]. split; [exact Hreg|].
      exists inst. split; [|exact Hcfg]. apply lookup_app_l_Some, Hi.
Qed.

Lemma get_or_none_state name config s :
  snd (get_or_none name config s) = snd (get name config s).
Proof.
  unfold get_or_none. destruct (get name config s) as [[[]|obj] s']; reflexivity.
Qed.

Lemma cache_sound_after_call s call : cache_sound s -> cache_sound (after_call s call).
Proof.
  intros H. destruct call as [name c|name config|name config| |name]; cbn [after_call].
  - apply cache_sound_register, H.
  - apply cache_sound_get, H.
  - rewrite get_or_none_state. apply cache_sound_get, H.
  - apply cache_sound_clear_cache.
  - apply cache_sound_unregister, H.
Qed.

Lemma cache_sound_initial : cache_sound initial_registry.
Proof.
  unfold initial_registry. repeat apply cache_sound_register. apply cache_sound_empty.
Qed.

Lemma cache_sound_valid s : cache_sound s -> cache_valid s.
Proof.
  intros H n obj Hn. destruct (H n obj Hn) as (_ & _ & inst & Hi & _).
  apply lookup_lt_Some in Hi. exact Hi.
Qed.

Lemma objects_after_call s call :
  exists new, objects (after_call s call) = objects s ++ new.
Proof.
  destruct call as [name c|name config|name config| |name]; cbn [after_call];
    try rewrite get_or_none_state.
  - exists []. rewrite app_nil_r. reflexivity.
  - unfold get. destruct (providers_get _ _) as [c|]; [|exists []; rewrite app_nil_r; reflexivity].
    destruct (config_given config); [eexists; reflexivity|].
    destruct (_instances s !! lower name); [exists []; rewrite app_nil_r; reflexivity|].
    eexists; reflexivity.
  - unfold get. destruct (providers_get _ _) as [c|]; [|exists []; rewrite app_nil_r; reflexivity].
    destruct (config_given config); [eexists; reflexivity|].
    destruct (_instances s !! lower name); [exists []; rewrite app_nil_r; reflexivity|].
    eexists; reflexivity.
  - exists []. rewrite app_nil_r. reflexivity.
  - unfold unregister. destruct (providers_get _ _); exists []; rewrite app_nil_r; reflexivity.
Qed.

(** In every state the registry of the package reaches through calls of
    [register], [get], [get_or_none], [clear_cache] and [unregister], each
    cached instance exists, carries the default (empty) config and sits under
    a lower-case name that is registered; and no call removes or changes a
    provider object that exists. *)
Theorem registry_cache_invariant (calls : list registry_call) :
  cache_sound (after_calls calls) /\
  forall (call : registry_call) (obj : nat) (inst : provider_instance),
    objects (after_calls calls) !! obj = Some inst ->
    objects (after_call (after_calls calls) call) !! obj = Some inst.
Proof.
  split.
  - unfold after_calls.
    assert (H : forall s, cache_sound s -> cache_sound (foldl after_call s calls)).
    { induction calls as [|call calls IH]; intros s Hs; [exact Hs|].
      cbn [foldl]. apply IH, cache_sound_after_call, Hs. }
    apply H, cache_sound_initial.
  - intros call obj inst Hobj.
    destruct (objects_after_call (after_calls calls) call) as [new ->].
    apply lookup_app_l_Some, Hobj.
Qed.

(** *** Registration and lookup *)

Lemma get_first_use name c s :
  providers_get (_providers s) (lower name) = Some c ->
  _instances s !! lower name = None ->
  get name None s
  = (ret (length (objects s)),
     {| _providers := _providers s;
        _instances := <[lower name := length (objects s)]> (_instances s);
        objects := objects s ++ [default_instance c] |}).
Proof.
  intros Hreg Hc. unfold get. rewrite Hreg. cbn [config_given]. rewrite Hc. reflexivity.
Qed.

Lemma get_cached name c s obj :
  providers_get (_providers s) (lower name) = Some c ->
  _instances s !! lower name = Some obj ->
  get name None s = (ret obj, s).
Proof.
  intros Hreg Hc. unfold get. rewrite Hreg. cbn [config_given]. rewrite Hc. reflexivity.
Qed.

Lemma lookup_app_new {A} (l : list A) (x : A) : (l ++ [x]) !! length l = Some x.
Proof. rewrite lookup_app_r by lia. rewrite Nat.sub_diag. reflexivity. Qed.

(** A class registered under a name is found under that name in any letter
    case, the name is listed, other names are not affected, and the first
    [get] builds a default instance of the class and caches it. *)
Theorem register_then_get (name name' : string) (c : provider_class) (s : registry) :
  lower name' = lower name ->
  is_registered name' (register name c s) = true /\
  In (lower name) (list_providers (register name c s)) /\
  (forall other, lower other <> lower name ->
     is_registered other (register name c s) = is_registered other s) /\
  (_instances s !! lower name = None ->
   exists s',
     get name' None (register name c s) = (ret (length (objects s)), s') /\
     objects s' !! length (objects s) = Some (default_instance c) /\
     _instances s' !! lower name = Some (length (objects s))).
Proof.
  intros Hl.
  assert (Hreg : providers_get (_providers (register name c s)) (lower name') = Some c).
  { rewrite Hl. apply providers_get_set_eq. }
  split; [unfold is_registered; rewrite Hreg; reflexivity|].
  split.
  { unfold list_providers. apply providers_get_In. exists c.
    apply providers_get_set_eq. }
  split.
  { intros other Hne. unfold is_registered. cbn [register _providers].
    rewrite providers_get_set_ne by exact Hne. reflexivity. }
  intros Hc.
  assert (Hc' : _instances (register name c s) !! lower name' = None)
    by (rewrite Hl; exact Hc).
  pose proof (get_first_use name' c (register name c s) Hreg Hc') as Hg.
  cbn [register objects _instances] in Hg.
  eexists. split; [exact Hg|].
  cbn [objects _instances]. split; [apply lookup_app_new|].
  rewrite Hl. apply lookup_insert_eq.
Qed.

(** [register] does not touch the cache: once a name has a cached instance,
    registering another class under the name leaves [get] returning the old
    instance, of the old class, until [clear_cache] is called; the next [get]
    then builds an instance of the new class. *)
Theorem reregister_keeps_cached_instance
    (name : string) (c c' : provider_class) (s : registry) :
  registered s name c -> _instances s !! lower name = None ->
  exists obj s1,
    get name None s = (ret obj, s1) /\
    objects s1 !! obj = Some (default_instance c) /\
    let s2 := register name c' s1 in
    registered s2 name c' /\
    get name None s2 = (ret obj, s2) /\
    objects s2 !! obj = Some (default_instance c) /\
    exists obj' s3,
      get name None (clear_cache s2) = (ret obj', s3) /\
      obj' <> obj /\
      objects s3 !! obj' = Some (default_instance c') /\
      objects s3 !! obj = Some (default_instance c).
Proof.
  intros Hreg Hc. unfold registered in Hreg.
  eexists _, _. split; [apply (get_first_use name c s Hreg Hc)|].
  cbn [objects]. split; [apply lookup_app_new|].
  cbn zeta.
  assert (Hreg' : providers_get
                    (_providers
                       (register name c'
                          {| _providers := _providers s;
                             _instances := <[lower name := length (objects s)]> (_instances s);
                             objects := objects s ++ [default_instance c] |}))
                    (lower name) = Some c').
  { apply providers_get_set_eq. }
  split; [exact Hreg'|]. split.
  { apply (get_cached name c' _ _ Hreg'). cbn [register _instances].
    apply lookup_insert_eq. }
  split; [cbn [register objects]; apply lookup_app_new|].
  eexists _, _. split.
  { apply (get_first_use name c'); [exact Hreg'|]. cbn. apply lookup_empty. }
  cbn [clear_cache register objects]. rewrite length_app. cbn [length].
  split; [lia|]. split.
  - replace (length (objects s) + 1)%nat
      with (length (objects s ++ [default_instance c])) by (rewrite length_app; cbn; lia).
    apply lookup_app_new.
  - apply lookup_app_l_Some, lookup_app_new.
Qed.

(** [unregister] of a name that is not registered changes nothing and answers
    [False].  For a registered name it answers [True]; afterwards the name is
    unknown to [is_registered], [get] and [get_or_none], its cached instance
    is dropped, and every other name keeps its class and its cached
    instance. *)
Theorem unregister_contract (name : string) (s : registry) :
  (is_registered name s = false -> unregister name s = (false, s)) /\
  (is_registered name s = true ->
   exists s',
     unregister name s = (true, s') /\
     is_registered name s' = false /\
     _instances s' !! lower name = None /\
     objects s' = objects s /\
     (forall config,
        get name config s' = (raise (ValueError (unknown_provider name s')), s') /\
        get_or_none name config s' = (ret None, s')) /\
     (forall other, lower other <> lower name ->
        providers_get (_providers s') (lower other)
        = providers_get (_providers s) (lower other) /\
        _instances s' !! lower other = _instances s !! lower other)).
Proof.
  unfold is_registered, unregister.
  destruct (providers_get (_providers s) (lower name)) as [c|] eqn:Hreg.
  - split; [discriminate|]. intros _. eexists. split; [reflexivity|].
    cbn [_providers _instances objects].
    assert (Hgone : providers_get
                      (List.filter (fun entry => negb (String.eqb (lower name) (fst entry)))
                                   (_providers s)) (lower name) = None)
      by apply providers_get_remove_eq.
    rewrite Hgone. split; [reflexivity|]. split; [apply lookup_delete_eq|].
    split; [reflexivity|]. split.
    + intros config. unfold get_or_none, get. cbn [_providers]. rewrite Hgone.
      split; reflexivity.
    + intros other Hne. split; [apply providers_get_remove_ne, Hne|].
      apply lookup_delete_ne. congruence.
  - split; [reflexivity|discriminate].
Qed.

(** [get_or_none] never raises: it answers [None], leaving the registry as it
    is, exactly for the names that are not registered, and otherwise the
    object and the registry that [get] gives. *)
Theorem get_or_none_contract
    (name : string) (config : option (list (string * pyval))) (s : registry) :
  (is_registered name s = false /\ get_or_none name config s = (ret None, s)) \/
  (is_registered name s = true /\
   exists obj s',
     get name config s = (ret obj, s') /\
     get_or_none name config s = (ret (Some obj), s')).
Proof.
  unfold is_registered, get_or_none, get.
  destruct (providers_get (_providers s) (lower name)) as [c|].
  - right. split; [reflexivity|].
    destruct (config_given config); [eexists _, _; split; reflexivity|].
    destruct (_instances s !! lower name); eexists _, _; split; reflexivity.
  - left. split; reflexivity.
Qed.

(** An instance built for a config override reads its base URL from the
    override, and the override does not reach the shared instance: in a
    registry whose cache is sound, a later [get] without a config returns an
    instance with the default config, whose base URL is the default one of
    its class. *)
Theorem config_override_does_not_leak
    (name : string) (c : provider_class) (config : list (string * pyval))
    (url : pyval) (s : registry) :
  registered s name c -> cache_sound s ->
  dict_get config "base_url" = Some url ->
  exists obj s1 inst,
    get name (Some config) s = (ret obj, s1) /\
    objects s1 !! obj = Some inst /\
    instance_class inst = c /\
    LLMProvider.base_url inst = url /\
    exists obj2 s2 inst2,
      get name None s1 = (ret obj2, s2) /\
      obj2 <> obj /\
      objects s2 !! obj2 = Some inst2 /\
      instance_config inst2 = [] /\
      LLMProvider.base_url inst2
      = LLMProvider.default_base_url (default_instance (instance_class inst2)).
Proof.
  intros Hreg Hsound Hurl. unfold registered in Hreg.
  assert (Hgiven : config_given (Some config) = true).
  { destruct config; [discriminate Hurl|reflexivity]. }
  exists (length (objects s)),
    {| _providers := _providers s; _instances := _instances s;
       objects := objects s ++ [ {| instance_class := c; instance_config := config |} ] |},
    {| instance_class := c; instance_config := config |}.
  split; [unfold get; rewrite Hreg, Hgiven; reflexivity|].
  split; [apply lookup_app_new|]. split; [reflexivity|].
  split; [unfold LLMProvider.base_url; cbn [instance_config]; rewrite Hurl; reflexivity|].
  assert (Hdefault : forall inst2 : provider_instance,
             instance_config inst2 = [] ->
             LLMProvider.base_url inst2
             = LLMProvider.default_base_url (default_instance (instance_class inst2))).
  { intros [c2 cfg2] Hcfg. cbn in Hcfg. subst cfg2. reflexivity. }
  destruct (_instances s !! lower name) as [cached|] eqn:Hc.
  - destruct (Hsound _ _ Hc) as (_ & _ & inst2 & Hi & Hcfg).
    exists cached, {| _providers := _providers s; _instances := _instances s;
       objects := objects s ++ [ {| instance_class := c; instance_config := config |} ] |},
      inst2.
    split; [apply (get_cached name c); [exact Hreg|exact Hc]|].
    split; [apply lookup_lt_Some in Hi; lia|].
    split; [apply lookup_app_l_Some, Hi|]. split; [exact Hcfg|].
    apply Hdefault, Hcfg.
  - eexists _, _, (default_instance c).
    split; [apply (get_first_use name c); [exact Hreg|exact Hc]|].
    cbn [objects]. rewrite length_app. cbn [length].
    split; [lia|]. split.
    + replace (length (objects s) + 1)%nat
        with (length (objects s ++ [ {| instance_class := c; instance_config := config |} ]))
        by (rewrite length_app; cbn; lia).
      apply lookup_app_new.
    + split; [reflexivity|]. apply Hdefault. reflexivity.
Qed.

(** ** Cost calculation: sign and zero *)

Lemma shr_1_nonneg (mrs : shr_record) : (0 <= shr_m mrs)%Z -> (0 <= shr_m (shr_1 mrs))%Z.
Proof.
  destruct mrs as [[|[p|p|]|p] r s]; cbn; lia.
Qed.

Lemma iter_shr_1_nonneg (n : positive) (mrs : shr_record) :
  (0 <= shr_m mrs)%Z -> (0 <= shr_m (SpecFloat.iter_pos shr_1 n mrs))%Z.
Proof.
  rewrite iter_pos_iter. revert mrs.
  apply (Pos.iter_invariant n _ shr_1 (fun mrs => (0 <= shr_m mrs)%Z)).
  intros mrs. apply shr_1_nonneg.
Qed.

Lemma shr_fexp_nonneg (m e : Z) (l : location) :
  (0 <= m)%Z -> (0 <= shr_m (fst (shr_fexp F64.prec F64.emax m e l)))%Z.
Proof.
  intros Hm. unfold shr_fexp, shr.
  assert (H0 : (0 <= shr_m (shr_record_of_loc m l))%Z)
    by (destruct l as [|[]]; exact Hm).
  destruct (fexp F64.prec F64.emax (Zdigits2 m + e) - e)%Z; cbn [fst];
    [exact H0 | apply iter_shr_1_nonneg, H0 | exact H0].
Qed.

Lemma round_nearest_even_nonneg (m : Z) (l : location) :
  (0 <= m)%Z -> (0 <= round_nearest_even m l)%Z.
Proof.
  intros Hm. destruct l as [|[]]; cbn; [lia| |lia|lia].
  destruct (Z.even m); lia.
Qed.

Lemma binary_round_aux_nonneg (m e : Z) (l : location) :
  (0 <= m)%Z ->
  nonneg_float (binary_round_aux F64.prec F64.emax false m e l) = true.
Proof.
  intros Hm. unfold binary_round_aux.
  pose proof (shr_fexp_nonneg m e l Hm) as H1.
  destruct (shr_fexp F64.prec F64.emax m e l) as [mrs' e'] eqn:E1. cbn [fst] in H1.
  pose proof (shr_fexp_nonneg
                (round_nearest_even (shr_m mrs') (loc_of_shr_record mrs')) e' loc_Exact
                (round_nearest_even_nonneg _ _ H1)) as H2.
  destruct (shr_fexp F64.prec F64.emax
              (round_nearest_even (shr_m mrs') (loc_of_shr_record mrs')) e' loc_Exact)
    as [mrs'' e''] eqn:E2. cbn [fst] in H2.
  destruct (shr_m mrs'') as [|p|p]; [reflexivity| |lia].
  destruct (e'' <=? F64.emax - F64.prec)%Z; reflexivity.
Qed.

Lemma mul_nonneg (x y : spec_float) :
  is_price x = true -> is_price y = true -> is_price (F64.mul x y) = true \/
  F64.mul x y = S754_infinity false.
Proof.
  destruct x as [[]|sx| |[] mx ex]; try discriminate;
    destruct y as [[]|sy| |[] my ey]; try discriminate; intros _ _;
    try (left; reflexivity).
  unfold F64.mul. cbn [SFmul xorb].
  pose proof (binary_round_aux_nonneg (Zpos (mx * my)) (ex + ey) loc_Exact) as H.
  destruct (binary_round_aux F64.prec F64.emax false (Zpos (mx * my)) (ex + ey) loc_Exact)
    as [[]|[]| |[] m e]; try (specialize (H ltac:(lia)); discriminate H);
    first [left; reflexivity | right; reflexivity].
Qed.

Lemma div_core_nonneg (mx my : positive) (ex ey : Z) :
  (0 <= fst (fst (SFdiv_core_binary F64.prec F64.emax (Zpos mx) ex (Zpos my) ey)))%Z.
Proof.
  unfold SFdiv_core_binary.
  set (s := (ex - ey - _)%Z).
  set (m' := match s with Zpos _ => Z.shiftl (Zpos mx) s | Z0 => Zpos mx | Zneg _ => 0%Z end).
  assert (Hm' : (0 <= m')%Z).
  { unfold m'. destruct s; [lia| |lia]. apply Z.shiftl_nonneg. lia. }
  pose proof (Z.div_pos m' (Zpos my) Hm' ltac:(lia)) as Hq.
  unfold Z.div in Hq. destruct (Z.div_eucl m' (Zpos my)) as [q r]. exact Hq.
Qed.

Lemma div_nonneg (x : spec_float) (my : positive) (ey : Z) :
  nonneg_float x = true ->
  nonneg_float (F64.div x (S754_finite false my ey)) = true.
Proof.
  destruct x as [[]|[]| |[] mx ex]; try discriminate; intros _; try reflexivity.
  unfold F64.div. cbn [SFdiv xorb].
  pose proof (div_core_nonneg mx my ex ey) as H.
  destruct (SFdiv_core_binary F64.prec F64.emax (Zpos mx) ex (Zpos my) ey) as [[mz ez] lz].
  cbn [fst] in H. apply binary_round_aux_nonneg, H.
Qed.

Lemma add_nonneg (x y : spec_float) :
  nonneg_float x = true -> nonneg_float y = true -> nonneg_float (F64.add x y) = true.
Proof.
  destruct x as [[]|[]| |[] mx ex]; try discriminate;
    destruct y as [[]|[]| |[] my ey]; try discriminate; intros _ _; try reflexivity.
  unfold F64.add. cbn [SFadd cond_Zopp].
  set (a := fst (shl_align mx ex (Z.min ex ey))).
  set (b := fst (shl_align my ey (Z.min ex ey))).
  change (Zpos a + Zpos b)%Z with (Zpos (a + b)).
  cbn [binary_normalize]. unfold binary_round.
  destruct (shl_align (a + b) (Z.min ex ey) _) as [mz ez].
  apply binary_round_aux_nonneg. lia.
Qed.

Lemma of_Z_token_count (t : Z) :
  token_count t -> float_of_int t = ret (F64.of_Z t) /\ is_price (F64.of_Z t) = true.
Proof.
  intros [H0 H53]. split.
  - apply float_of_int_fits. unfold fits_float.
    pose proof int_limit_large as Hl.
    assert ((2 ^ 53 < 2 ^ 70)%Z) by reflexivity. lia.
  - destruct t as [|p|p]; [reflexivity| |lia].
    unfold F64.of_Z. cbn [binary_normalize].
    rewrite binary_round_small by (apply digits2_pos_small; lia). reflexivity.
Qed.

Lemma is_price_nonneg (x : spec_float) : is_price x = true -> nonneg_float x = true.
Proof. destruct x as [[]|[]| |[] m e]; try discriminate; reflexivity. Qed.

Lemma category_cost_nonneg (t : Z) (rate : spec_float) :
  token_count t -> is_price rate = true ->
  exists z, category_cost t rate = ret z /\ nonneg_float z = true.
Proof.
  intros Ht Hr. destruct (of_Z_token_count t Ht) as [Hf Hp].
  unfold category_cost. rewrite Hf. cbn [bind ret]. eexists. split; [reflexivity|].
  assert (Hm : exists m e, F64.of_Z 1000000 = S754_finite false m e)
    by (eexists _, _; vm_compute; reflexivity).
  destruct Hm as (m & e & ->). apply div_nonneg.
  destruct (mul_nonneg _ _ Hp Hr) as [H | ->]; [apply is_price_nonneg, H|reflexivity].
Qed.

Lemma category_cost_free (t : Z) :
  token_count t -> category_cost t F64.zero = ret F64.zero.
Proof.
  intros Ht. destruct (of_Z_token_count t Ht) as [Hf Hp].
  unfold category_cost. rewrite Hf. cbn [bind ret].
  destruct (F64.of_Z t) as [[]|[]| |[] m e]; try discriminate Hp; reflexivity.
Qed.

(** For token counts that are not negative (and below [2^53]) the cost that
    [calculate_cost] returns is never a NaN and never negative, for every
    provider class and model; and it is exactly zero when the model has no
    price: every model of [LocalProvider], and any model whose name holds no
    key of the pricing table. *)
Theorem calculate_cost_nonnegative
    (cls : provider_class) (usage : gmap string Z) (model : string) :
  (forall c, token_count (tokens_of usage c)) ->
  (exists cost,
      calculate_cost cls usage model = ret cost /\ nonneg_float cost = true) /\
  (get_model_pricing cls model = zero_rates ->
   calculate_cost cls usage model = ret F64.zero) /\
  calculate_cost Local usage model = ret F64.zero.
Proof.
  intros Ht.
  assert (Hfree : forall cls', get_model_pricing cls' model = zero_rates ->
                    calculate_cost cls' usage model = ret F64.zero).
  { intros cls' Hz. rewrite calculate_cost_formula_eq, Hz.
    unfold cost_formula, categories. cbn [mapM rate_of zero_rates input output
                                           cache_read cache_write].
    rewrite !category_cost_free by apply Ht. reflexivity. }
  split; [|split; [apply Hfree|apply Hfree; reflexivity]].
  rewrite calculate_cost_formula_eq.
  pose proof (get_model_pricing_price cls model) as Hp.
  unfold price_rates in Hp. rewrite !andb_true_iff in Hp.
  destruct Hp as [[[Hi Ho] Hr] Hw].
  unfold cost_formula, categories. cbn [mapM rate_of].
  destruct (category_cost_nonneg _ _ (Ht Input) Hi) as (a & -> & Ha).
  destruct (category_cost_nonneg _ _ (Ht Output) Ho) as (b & -> & Hb).
  destruct (category_cost_nonneg _ _ (Ht CacheRead) Hr) as (c & -> & Hc).
  destruct (category_cost_nonneg _ _ (Ht CacheWrite) Hw) as (d & -> & Hd).
  eexists. split; [reflexivity|]. cbn [float_sum fold_left].
  auto using add_nonneg.
Qed.

(** ** Pricing across the provider classes *)

Lemma lookup_pricing_lower (table : list (string * rates)) (model model' : string) :
  lower model = lower model' -> lookup_pricing table model = lookup_pricing table model'.
Proof. unfold lookup_pricing. intros ->. reflexivity. Qed.

Lemma In_table_cases (table : list (string * rates)) (P : string -> rates -> Prop) :
  Forall (fun kr => P (fst kr) (snd kr)) table ->
  forall k r, In (k, r) table -> P k r.
Proof.
  intros H k r Hin. rewrite Forall_forall in H.
  apply (H (k, r)). apply list_elem_of_In, Hin.
Qed.

(** Every rate that a pricing lookup returns, for any provider class and
    model name, is a finite number that is not negative; the lookup does not
    depend on the letter case of the model name; a model named exactly like a
    key of the table gets the rates of that key, so no entry is hidden by
    another; [MoonshotProvider] prices like [OpenAICompatibleProvider]. *)
Theorem pricing_by_class (cls : provider_class) (model : string) :
  price_rates (get_model_pricing cls model) = true /\
  (forall model', lower model' = lower model ->
     get_model_pricing cls model' = get_model_pricing cls model) /\
  (forall k r, In (k, r) AnthropicProvider.COST_TABLE -> lower model = k ->
     get_model_pricing Anthropic model = r) /\
  (forall k r, In (k, r) OpenAICompatibleProvider.COST_TABLE -> lower model = k ->
     get_model_pricing OpenAICompatible model = r) /\
  get_model_pricing Moonshot model = get_model_pricing OpenAICompatible model.
Proof.
  split; [apply get_model_pricing_price|]. split.
  { intros model' Hl. destruct cls; cbn [get_model_pricing]; try reflexivity;
      apply lookup_pricing_lower, Hl. }
  split; [|split; [|reflexivity]].
  - intros k r Hin Hl. cbn [get_model_pricing].
    unfold AnthropicProvider.get_model_pricing, lookup_pricing. rewrite Hl.
    clear Hl. revert k r Hin. apply In_table_cases.
    repeat constructor; vm_compute; reflexivity.
  - intros k r Hin Hl. cbn [get_model_pricing].
    unfold OpenAICompatibleProvider.get_model_pricing, lookup_pricing. rewrite Hl.
    clear Hl. revert k r Hin. apply In_table_cases.
    repeat constructor; vm_compute; reflexivity.
Qed.

(** ** Provider detection *)

Lemma occurs_in_trans (a b c : string) : occurs_in a b -> occurs_in b c -> occurs_in a c.
Proof.
  intros (p1 & q1 & ->) (p2 & q2 & ->).
  exists (p2 +:+ p1), (q1 +:+ q2). rewrite !append_assoc. reflexivity.
Qed.

Lemma detect_provider_claude (model : string) :
  occurs_in "claude" (lower model) -> _detect_provider model = "anthropic"%string.
Proof.
  intros H. apply contains_spec in H. unfold _detect_provider. rewrite H. reflexivity.
Qed.

Lemma anthropic_keys_hold_claude (k : string) :
  In k (map fst AnthropicProvider.COST_TABLE) -> occurs_in "claude" k.
Proof.
  intros Hin. apply contains_spec.
  assert (H : Forall (fun k => contains "claude" k = true)
                     (map fst AnthropicProvider.COST_TABLE))
    by (repeat constructor).
  rewrite Forall_forall in H. apply H, list_elem_of_In, Hin.
Qed.

(** [_detect_provider] does not depend on the letter case of the model name;
    it answers "unknown" exactly when none of its six markers occurs in the
    lower-cased name; and it agrees with the Anthropic pricing table: every
    model name that holds a key of that table, and so every model with an
    Anthropic price other than zero, is detected as "anthropic". *)
Theorem detect_provider_agrees_with_pricing (model : string) :
  _detect_provider (lower model) = _detect_provider model /\
  (_detect_provider model = "unknown"%string <->
   Forall (fun marker => ~ occurs_in marker (lower model)) provider_markers) /\
  (forall k, In k (map fst AnthropicProvider.COST_TABLE) ->
     occurs_in k (lower model) -> _detect_provider model = "anthropic"%string) /\
  (get_model_pricing Anthropic model <> zero_rates ->
   _detect_provider model = "anthropic"%string).
Proof.
  split; [unfold _detect_provider; rewrite lower_idempotent; reflexivity|].
  split.
  { unfold _detect_provider, provider_markers.
    rewrite !Forall_cons, Forall_nil, <- !contains_false.
    destruct (contains "claude" (lower model)); [split; [discriminate|intros [? _]; discriminate]|].
    destruct (contains "kimi" (lower model)); [split; [discriminate|intros (_ & ? & _); discriminate]|].
    destruct (contains "gpt" (lower model)); [split; [discriminate|intros (_ & _ & ? & _); discriminate]|].
    destruct (contains "o1" (lower model)); [split; [discriminate|intros (_ & _ & _ & ? & _); discriminate]|].
    destruct (contains "gemini" (lower model)); [split; [discriminate|intros (_ & _ & _ & _ & ? & _); discriminate]|].
    destruct (contains "qwen" (lower model)); [split; [discriminate|intros (_ & _ & _ & _ & _ & ? & _); discriminate]|].
    cbn [orb]. split; [intros _; repeat split|reflexivity]. }
  assert (Hkey : forall k, In k (map fst AnthropicProvider.COST_TABLE) ->
                   occurs_in k (lower model) ->
                   _detect_provider model = "anthropic"%string).
  { intros k Hin Hocc. apply detect_provider_claude.
    apply (occurs_in_trans _ k); [apply anthropic_keys_hold_claude, Hin|exact Hocc]. }
  split; [exact Hkey|].
  intros Hprice. cbn [get_model_pricing] in Hprice.
  destruct (lookup_pricing_first_match AnthropicProvider.COST_TABLE model)
    as [(pre & k & post & Hkeys & Hocc & _ & Hr) | [_ Hz]]; [|contradiction].
  apply (Hkey k); [|exact Hocc]. apply table_lookup_in in Hr. exact Hr.
Qed.

(** ** Authentication headers *)

Lemma forward_headers_lookup (keys : list string)
    (request_headers headers : gmap string string) (k v : string) :
  forward_headers keys request_headers headers !! k = Some v <->
  (In k keys /\ request_headers !! lower k = Some v /\ v <> EmptyString) \/
  (~ (In k keys /\ exists v', request_headers !! lower k = Some v' /\ v' <> EmptyString) /\
   headers !! k = Some v).
Proof.
  unfold forward_headers. revert headers.
  induction keys as [|key keys IH]; intros headers; cbn [foldl].
  - split; [intros H; right; split; [intros [[] _]|exact H]|].
    intros [[[] _]|[_ H]]. exact H.
  - rewrite IH. clear IH. cbn [In].
    destruct (request_headers !! lower key) as [val|] eqn:Hval.
    + destruct (String.eqb_spec val EmptyString) as [->|Hne].
      * split.
        -- intros [(Hin & Hk & Hv)|(Hno & Hh)]; [left; tauto|].
           right. split; [|exact Hh]. intros [[<-|Hin] (v' & Hv' & Hne')].
           ++ rewrite Hval in Hv'. congruence.
           ++ apply Hno. eauto.
        -- intros [([<-|Hin] & Hk & Hv)|(Hno & Hh)].
           ++ rewrite Hval in Hk. congruence.
           ++ left. tauto.
           ++ right. split; [|exact Hh]. intros [Hin Hex]. apply Hno. tauto.
      * destruct (decide (key = k)) as [->|Hkk].
        -- rewrite lookup_insert_eq. split.
           ++ intros [(Hin & Hk & Hv)|(Hno & [= <-])]; left; tauto.
           ++ intros [(_ & Hk & Hv)|(Hno & Hh)].
              ** destruct (In_dec String.string_dec k keys) as [Hin|Hnin]; [left; tauto|].
                 right. split; [tauto|]. congruence.
              ** exfalso. apply Hno. split; [left; reflexivity|eauto].
        -- rewrite lookup_insert_ne by exact Hkk. split.
           ++ intros [(Hin & Hk & Hv)|(Hno & Hh)]; [left; tauto|].
              right. split; [|exact Hh]. intros [[?|Hin] Hex]; [contradiction|].
              apply Hno. tauto.
           ++ intros [([?|Hin] & Hk & Hv)|(Hno & Hh)]; [contradiction|left; tauto|].
              right. split; [|exact Hh]. intros [Hin Hex]. apply Hno. tauto.
    + split.
      * intros [(Hin & Hk & Hv)|(Hno & Hh)]; [left; tauto|].
        right. split; [|exact Hh]. intros [[<-|Hin] (v' & Hv' & Hne')].
        -- rewrite Hval in Hv'. discriminate.
        -- apply Hno. eauto.
      * intros [([<-|Hin] & Hk & Hv)|(Hno & Hh)].
        -- rewrite Hval in Hk. discriminate.
        -- left. tauto.
        -- right. split; [|exact Hh]. intros [Hin Hex]. apply Hno. tauto.
Qed.

(** What is forwarded upstream: the Anthropic provider passes on exactly the
    non-empty request headers among [x-api-key], [anthropic-version],
    [anthropic-beta] and [anthropic-dangerous-direct-browser-access], each
    with its value unchanged, and no other header (not [authorization], not a
    cookie); the OpenAI-compatible provider passes on a non-empty
    [authorization] header as [Authorization] and a non-empty [x-api-key],
    and nothing else; the base class passes on nothing. *)
Theorem auth_headers_forwarded (request_headers : gmap string string) :
  (forall k v,
      anthropic_get_auth_headers request_headers !! k = Some v <->
      In k anthropic_forwarded /\ request_headers !! k = Some v /\ v <> EmptyString) /\
  (forall k v,
      openai_get_auth_headers request_headers !! k = Some v <->
      (k = "Authorization"%string /\
       request_headers !! "authorization"%string = Some v /\ v <> EmptyString) \/
      (k = "x-api-key"%string /\
       request_headers !! "x-api-key"%string = Some v /\ v <> EmptyString)) /\
  base_get_auth_headers request_headers = ∅.
Proof.
  split; [|split; [|reflexivity]].
  - intros k v. unfold anthropic_get_auth_headers.
    rewrite forward_headers_lookup, forward_headers_lookup, lookup_empty.
    unfold anthropic_forwarded. cbn [In]. split.
    + intros [(Hin & Hk & Hv)|(_ & [(Hin & Hk & Hv)|(_ & H)])]; [| |discriminate].
      * assert (Hl : lower k = k) by (destruct Hin as [<-|[<-|[<-|[]]]]; reflexivity).
        rewrite Hl in Hk. tauto.
      * assert (Hl : lower k = k) by (destruct Hin as [<-|[]]; reflexivity).
        rewrite Hl in Hk. tauto.
    + intros (Hin & Hk & Hv).
      assert (Hl : lower k = k) by (destruct Hin as [<-|[<-|[<-|[<-|[]]]]]; reflexivity).
      destruct Hin as [<-|Hin].
      * right. split.
        -- intros [[H|[H|[H|[]]]] _]; discriminate H.
        -- left. rewrite Hl. tauto.
      * left. rewrite Hl. tauto.
  - intros k v. unfold openai_get_auth_headers.
    destruct (request_headers !! "authorization"%string) as [auth|];
      destruct (request_headers !! "x-api-key"%string) as [api_key|];
      repeat match goal with
             | |- context [String.eqb ?a EmptyString] =>
                 destruct (String.eqb_spec a EmptyString) as [->|?]
             end;
      repeat match goal with
             | |- context [(<[?k' := _]> _) !! k] =>
                 destruct (decide (k' = k)) as [<-|?];
                 [rewrite lookup_insert_eq|rewrite lookup_insert_ne by assumption]
             end;
      try rewrite lookup_empty;
      (split; [intros H; try discriminate H; try (injection H as <-); tauto
              |intros [(? & H & ?)|(? & H & ?)]; try discriminate H;
               try (injection H as <-); subst; try congruence; try discriminate]).
Qed.

(** ** Usage extraction: responses and stream frames *)

Lemma ret_inj {A} (a b : A) : ret a = ret b -> a = b.
Proof. intros H. injection H as H. exact H. Qed.

Lemma nonempty_or_none_Some (r r' : gmap string pyval) :
  nonempty_or_none r = Some r' -> r' = r /\ r <> ∅.
Proof.
  unfold nonempty_or_none. destruct (decide (r = ∅)); [discriminate|].
  intros [= <-]. split; [reflexivity|assumption].
Qed.

Lemma nonempty_or_none_insert (k : string) (v : pyval) (r : gmap string pyval) :
  nonempty_or_none (<[k := v]> r) = Some (<[k := v]> r).
Proof.
  unfold nonempty_or_none. destruct (decide (<[k := v]> r = ∅)) as [H|_]; [|reflexivity].
  exfalso. exact (insert_non_empty r k v H).
Qed.

Lemma dom_delta_update (o stop : option pyval) (a b : string) :
  dom (match stop with
       | Some v => <[b := v]>
       | None => id
       end (match o with
            | Some v => <[a := v]> (∅ : gmap string pyval)
            | None => ∅
            end)) ⊆ ({[ a; b ]} : gset string).
Proof.
  destruct stop, o; cbn [id]; repeat rewrite dom_insert_L; rewrite ?dom_empty_L;
    intros x; rewrite ?elem_of_union, ?elem_of_singleton, ?elem_of_empty; tauto.
Qed.

Lemma message_start_frame_update (usage : list (string * pyval)) :
  usage <> [] ->
  anthropic_usage_of (message_start_frame usage) (Some "message_start"%string)
  = ret (Some (<["cache_write_tokens"%string :=
                   usage_field usage "cache_creation_input_tokens"]>
                 (<["cache_read_tokens"%string :=
                      usage_field usage "cache_read_input_tokens"]>
                    {["input_tokens"%string := usage_field usage "input_tokens"]}))).
Proof.
  intros Hne. unfold anthropic_usage_of, message_start_frame.
  destruct (decide (Some "message_start"%string = Some "message_start"%string))
    as [_|]; [|contradiction].
  cbn [py_get dict_get String.eqb Ascii.eqb Bool.eqb default from_option id bind ret].
  destruct usage as [|kv usage]; [contradiction|].
  cbn [truthy bind ret]. rewrite nonempty_or_none_insert. reflexivity.
Qed.

(** The partial updates of the Anthropic stream by event kind.  An event other
    than [message_start] and [message_delta] gives [None] whatever the
    payload; a [message_start] update has exactly the keys [input_tokens],
    [cache_read_tokens] and [cache_write_tokens]; a [message_delta] update is
    not empty and has no key besides [output_tokens] and [stop_reason].  So
    the updates of the two events never write the same key.  A
    [message_start] frame with a non-empty usage dict gives the three counts
    of that dict, [0] for a count it lacks. *)
Theorem anthropic_stream_updates (data : pyval) :
  (forall event_type,
      event_type <> Some "message_start"%string ->
      event_type <> Some "message_delta"%string ->
      anthropic_usage_of data event_type = ret None) /\
  (forall r,
      anthropic_usage_of data (Some "message_start"%string) = ret (Some r) ->
      dom r = {[ "input_tokens"; "cache_read_tokens"; "cache_write_tokens" ]}%string) /\
  (forall r,
      anthropic_usage_of data (Some "message_delta"%string) = ret (Some r) ->
      r <> ∅ /\ dom r ⊆ {[ "output_tokens"; "stop_reason" ]}%string) /\
  (forall usage,
      usage <> [] ->
      anthropic_usage_of (message_start_frame usage) (Some "message_start"%string)
      = ret (Some (<["cache_write_tokens"%string :=
                       usage_field usage "cache_creation_input_tokens"]>
                     (<["cache_read_tokens"%string :=
                          usage_field usage "cache_read_input_tokens"]>
                        {["input_tokens"%string := usage_field usage "input_tokens"]})))).
Proof.
  split; [|split; [|split]].
  - intros event_type Hs Hd. unfold anthropic_usage_of.
    destruct (decide (event_type = Some "message_start"%string)); [contradiction|].
    destruct (decide (event_type = Some "message_delta"%string)); [contradiction|].
    reflexivity.
  - intros r. unfold anthropic_usage_of.
    destruct (decide (Some "message_start"%string = Some "message_start"%string))
      as [_|]; [|contradiction].
    destruct (py_get data "message" (PDict [])) as [e|message]; [discriminate|].
    cbn [bind]. destruct (py_get message "usage" (PDict [])) as [e|msg_usage];
      [discriminate|].
    cbn [bind]. destruct (truthy msg_usage).
    + destruct (py_get msg_usage "input_tokens" (PInt 0)) as [e|i]; [discriminate|].
      cbn [bind].
      destruct (py_get msg_usage "cache_read_input_tokens" (PInt 0)) as [e|rd];
        [discriminate|].
      cbn [bind].
      destruct (py_get msg_usage "cache_creation_input_tokens" (PInt 0)) as [e|w];
        [discriminate|].
      cbn [bind]. intros H. apply ret_inj, nonempty_or_none_Some in H.
      destruct H as [-> _]. rewrite !dom_insert_L, dom_empty_L. set_solver.
    + cbn [bind]. intros H. apply ret_inj, nonempty_or_none_Some in H.
      destruct H as [_ H]. contradiction.
  - intros r. unfold anthropic_usage_of.
    destruct (decide (Some "message_delta"%string = Some "message_start"%string))
      as [H|_]; [discriminate H|].
    destruct (decide (Some "message_delta"%string = Some "message_delta"%string))
      as [_|]; [|contradiction].
    destruct (py_get data "usage" (PDict [])) as [e|delta_usage]; [discriminate|].
    cbn [bind]. destruct (py_get data "delta" (PDict [])) as [e|delta]; [discriminate|].
    cbn [bind]. destruct (py_get delta_usage "output_tokens" PNone) as [e|o];
      [discriminate|].
    cbn [bind]. destruct (py_get delta "stop_reason" PNone) as [e|stop]; [discriminate|].
    cbn [bind]. intros H. apply ret_inj, nonempty_or_none_Some in H.
    destruct H as [-> Hne]. split; [exact Hne|].
    pose proof (dom_delta_update
                  (match o with PNone => None | _ => Some o end)
                  (if truthy stop then Some stop else None)
                  "output_tokens" "stop_reason") as Hdom.
    destruct (truthy stop), o; exact Hdom.
  - apply message_start_frame_update.
Qed.

(** *** Non-streaming responses *)

Lemma py_get_dict (d : list (string * pyval)) (k : string) (dflt : pyval) :
  py_get (PDict d) k dflt = ret (default dflt (dict_get d k)).
Proof. reflexivity. Qed.

Lemma py_get_not_dict (v : pyval) (k : string) (dflt : pyval) :
  is_dict v = false -> py_get v k dflt = raise AttributeError.
Proof. destruct v; try discriminate; reflexivity. Qed.

(** The usage of an Anthropic response.  With a usage dict the five keys get
    the counts of the dict, [0] for a count it lacks, and the stop reason of
    the response, [None] if it has none; without a [usage] key all counts are
    [0]; a [usage] that is not a dict, [null] included, raises
    [AttributeError].  The three counts of a [message_start] frame with the
    same non-empty usage dict are those of the response. *)
Theorem anthropic_response_usage (response : list (string * pyval)) :
  let stop := default PNone (dict_get response "stop_reason") in
  (forall usage,
      dict_get response "usage" = Some (PDict usage) ->
      anthropic_extract_usage_from_response (PDict response)
      = ret (anthropic_usage_dict usage stop)) /\
  (dict_get response "usage" = None ->
   anthropic_extract_usage_from_response (PDict response)
   = ret (anthropic_usage_dict [] stop)) /\
  (forall v,
      dict_get response "usage" = Some v -> is_dict v = false ->
      anthropic_extract_usage_from_response (PDict response) = raise AttributeError) /\
  (forall usage,
      dict_get response "usage" = Some (PDict usage) -> usage <> [] ->
      exists r r1,
        anthropic_extract_usage_from_response (PDict response) = ret r /\
        anthropic_usage_of (message_start_frame usage) (Some "message_start"%string)
        = ret (Some r1) /\
        r1 !! "input_tokens"%string = r !! "input_tokens"%string /\
        r1 !! "cache_read_tokens"%string = r !! "cache_read_tokens"%string /\
        r1 !! "cache_write_tokens"%string = r !! "cache_write_tokens"%string).
Proof.
  intros stop.
  assert (Hdict : forall usage,
             dict_get response "usage" = Some (PDict usage) ->
             anthropic_extract_usage_from_response (PDict response)
             = ret (anthropic_usage_dict usage stop)).
  { intros usage Hu. unfold anthropic_extract_usage_from_response.
    rewrite py_get_dict, Hu. cbn [default from_option id bind ret].
    rewrite !py_get_dict. reflexivity. }
  split; [exact Hdict|]. split; [|split].
  - intros Hu. unfold anthropic_extract_usage_from_response.
    rewrite py_get_dict, Hu. reflexivity.
  - intros v Hu Hv. unfold anthropic_extract_usage_from_response.
    rewrite py_get_dict, Hu. cbn [default from_option id bind ret].
    rewrite (py_get_not_dict v) by exact Hv. reflexivity.
  - intros usage Hu Hne. eexists _, _. split; [apply Hdict, Hu|].
    split; [apply message_start_frame_update, Hne|].
    unfold anthropic_usage_dict.
    repeat split;
      repeat first [ rewrite lookup_insert_eq
                   | rewrite lookup_singleton_eq
                   | rewrite lookup_insert_ne by discriminate ];
      reflexivity.
Qed.

Lemma partial_update_within (ki ko kr kw ks : string) (p c cached stop : pyval)
    (has_usage has_details has_stop : bool) :
  NoDup [ki; ko; kr; kw; ks] ->
  (let result : gmap string pyval :=
     if has_usage
     then if has_details
          then <[kr := cached]> (<[ko := c]> (<[ki := p]> ∅))
          else <[ko := c]> (<[ki := p]> ∅)
     else ∅ in
   if has_stop then <[ks := stop]> result else result)
  ⊆ <[ks := stop]> (<[kw := PInt 0]> (<[kr := cached]> (<[ko := c]> {[ki := p]}))).
Proof.
  intros Hnd. apply NoDup_cons in Hnd. destruct Hnd as [Hi Hnd].
  apply NoDup_cons in Hnd. destruct Hnd as [Ho Hnd].
  apply NoDup_cons in Hnd. destruct Hnd as [Hr Hnd].
  apply NoDup_cons in Hnd. destruct Hnd as [Hw _].
  repeat match goal with
         | H : _ ∉ _ :: _ |- _ => apply not_elem_of_cons in H; destruct H
         end.
  cbn zeta. rewrite <- insert_empty.
  destruct has_usage, has_details, has_stop;
    repeat first
      [ apply map_empty_subseteq
      | apply insert_mono
      | apply insert_subseteq_r;
        [repeat (rewrite lookup_insert_ne by congruence); apply lookup_empty|] ].
Qed.

Lemma usage_keys_dom (i o r w s : pyval) :
  dom (<["stop_reason"%string := s]>
         (<["cache_write_tokens"%string := w]>
            (<["cache_read_tokens"%string := r]>
               (<["output_tokens"%string := o]>
                  ({["input_tokens"%string := i]} : gmap string pyval)))))
  = usage_keys.
Proof.
  rewrite !dom_insert_L, dom_singleton_L. unfold usage_keys.
  apply set_eq. intros x. rewrite !elem_of_union, !elem_of_singleton. tauto.
Qed.

(** The usage of an OpenAI-format response and of a stream chunk.  Whenever
    the response extraction returns, its dict has exactly the five usage keys
    and [cache_write_tokens] is [0].  Every entry of the partial update that
    the stream extraction makes of a payload is an entry of the response
    extraction of the same payload.  The two differ on [null]: a payload
    whose [usage] is [null] is skipped by the stream extraction and makes the
    response extraction raise [AttributeError], and so does a usage whose
    [prompt_tokens_details] is [null]. *)
Theorem openai_stream_within_response (data : pyval) :
  (forall r,
      openai_extract_usage_from_response data = ret r ->
      dom r = usage_keys /\ r !! "cache_write_tokens"%string = Some (PInt 0)) /\
  (forall r r',
      openai_extract_usage_from_response data = ret r ->
      openai_usage_of data = ret (Some r') ->
      r' ⊆ r) /\
  (forall d,
      data = PDict d ->
      dict_get d "usage" = Some PNone -> dict_get d "choices" = None ->
      openai_usage_of data = ret None /\
      openai_extract_usage_from_response data = raise AttributeError) /\
  (forall d usage,
      data = PDict d ->
      dict_get d "usage" = Some (PDict usage) -> usage <> [] ->
      dict_get usage "prompt_tokens_details" = Some PNone ->
      dict_get d "choices" = None ->
      openai_usage_of data
      = ret (Some (<["output_tokens"%string := usage_field usage "completion_tokens"]>
                     {["input_tokens"%string := usage_field usage "prompt_tokens"]})) /\
      openai_extract_usage_from_response data = raise AttributeError).
Proof.
  split; [|split; [|split]].
  - intros r. unfold openai_extract_usage_from_response.
    destruct (py_get data "usage" (PDict [])) as [e|usage]; [discriminate|].
    cbn [bind]. destruct (py_get data "choices" (PList [])) as [e|choices];
      [discriminate|].
    cbn [bind].
    destruct (if truthy choices
              then let* choice := py_first choices in py_get choice "finish_reason" PNone
              else ret PNone) as [e|stop]; [discriminate|].
    cbn [bind]. destruct (py_get usage "prompt_tokens" (PInt 0)) as [e|p]; [discriminate|].
    cbn [bind]. destruct (py_get usage "completion_tokens" (PInt 0)) as [e|c];
      [discriminate|].
    cbn [bind]. destruct (py_get usage "prompt_tokens_details" (PDict [])) as [e|details];
      [discriminate|].
    cbn [bind]. destruct (py_get details "cached_tokens" (PInt 0)) as [e|cached];
      [discriminate|].
    cbn [bind]. intros H. apply ret_inj in H. subst r.
    split; [apply usage_keys_dom|].
    rewrite lookup_insert_ne by discriminate. apply lookup_insert_eq.
  - intros r r'. unfold openai_extract_usage_from_response, openai_usage_of.
    assert (Hnd : NoDup ["input_tokens"; "output_tokens"; "cache_read_tokens";
                         "cache_write_tokens"; "stop_reason"]%string).
    { repeat (apply NoDup_cons; split;
                [rewrite ?elem_of_cons, elem_of_nil; intuition discriminate|]).
      apply NoDup_nil_2. }
    repeat (cbn [bind ret];
            match goal with
            | |- context [bind (py_get ?a ?b ?c) _] =>
                destruct (py_get a b c) as [?|?]
            | |- context [bind (py_first ?a) _] => destruct (py_first a) as [?|?]
            | |- context [if truthy ?a then _ else _] => destruct (truthy a)
            end;
            cbn [bind ret];
            try match goal with
                | |- inl _ = _ -> _ => intros H1; discriminate H1
                | |- _ -> inl _ = _ -> _ => intros _ H2; discriminate H2
                end).
    all: cbn [bind ret].
    all: try match goal with
             | |- inl _ = _ -> _ => intros H1; discriminate H1
             | |- _ -> inl _ = _ -> _ => intros _ H2; discriminate H2
             end.
    all: intros H1 H2; apply ret_inj in H1; subst r;
      apply ret_inj, nonempty_or_none_Some in H2; destruct H2 as [-> _].
    all: lazymatch goal with
         | |- ?L ⊆ <[?ks := ?stop]>
                     (<[?kw := _]> (<[?kr := ?cached]> (<[?ko := ?c]> {[?ki := ?p]}))) =>
             lazymatch L with
             | <[ks := _]> (<[kr := _]> _) =>
                 exact (partial_update_within ki ko kr kw ks p c cached stop
                          true true true Hnd)
             | <[ks := _]> (<[ko := _]> _) =>
                 exact (partial_update_within ki ko kr kw ks p c cached stop
                          true false true Hnd)
             | <[ks := _]> ∅ =>
                 exact (partial_update_within ki ko kr kw ks p c cached stop
                          false false true Hnd)
             | <[kr := _]> _ =>
                 exact (partial_update_within ki ko kr kw ks p c cached stop
                          true true false Hnd)
             | <[ko := _]> _ =>
                 exact (partial_update_within ki ko kr kw ks p c cached stop
                          true false false Hnd)
             | ∅ => apply map_empty_subseteq
             end
         end.
  - intros d -> Hu Hc. unfold openai_usage_of, openai_extract_usage_from_response.
    rewrite !py_get_dict, Hu, Hc. split; reflexivity.
  - intros d usage -> Hu Hne Hd Hc.
    unfold openai_usage_of, openai_extract_usage_from_response.
    rewrite !py_get_dict, Hu, Hc. cbn [default from_option id bind ret truthy].
    rewrite !py_get_dict, Hd. cbn [default from_option id bind ret truthy py_get].
    destruct usage as [|kv usage]; [contradiction|].
    cbn [bind ret]. rewrite nonempty_or_none_insert. split; reflexivity.
Qed.

(** ** Request analysis of the OpenAI-compatible provider *)

Section OpenAIAnalysis.

Variable json_dumps : pyval -> result string.

Lemma add_block_chars_le (x : Z) (block : pyval) : (x <= add_block_chars x block)%Z.
Proof.
  destruct block as [| | | |s|l|d]; cbn; try lia.
  destruct (default (PStr EmptyString) (dict_get d "text")); lia.
Qed.

Lemma foldl_add_block_chars_le (blocks : list pyval) (x : Z) :
  (x <= foldl add_block_chars x blocks)%Z.
Proof.
  revert x. induction blocks as [|block blocks IH]; intros x; cbn [foldl]; [lia|].
  pose proof (add_block_chars_le x block). pose proof (IH (add_block_chars x block)). lia.
Qed.

Lemma openai_analyze_message_counted acc msg acc' n :
  openai_analyze_message json_dumps acc msg = ret acc' ->
  counted acc n -> counted acc' (n + 1).
Proof.
  unfold openai_analyze_message, counted. intros H (Hu & Ha & Hs & Hn).
  destruct (py_get msg "role" (PStr EmptyString)) as [e|role]; [discriminate|].
  cbn [bind] in H.
  destruct (py_get msg "content" (PStr EmptyString)) as [e|content]; [discriminate|].
  cbn [bind] in H.
  destruct (is_str role "user"); [injection H as <-; cbn; lia|].
  destruct (is_str role "assistant"); [injection H as <-; cbn; lia|].
  destruct (is_str role "system" || is_str role "developer");
    [|injection H as <-; lia].
  destruct content as [| | | |s|blocks|d]; cbn [bind ret] in H;
    try (destruct (json_dumps _) as [e|dumped]; [discriminate|]; cbn [bind ret] in H);
    injection H as <-; cbn;
    try (pose proof (foldl_add_block_chars_le blocks (system_chars acc))); lia.
Qed.

Lemma foldM_openai_analyze_message_counted msgs acc acc' n :
  foldM (openai_analyze_message json_dumps) msgs acc = ret acc' ->
  counted acc n -> counted acc' (n + Z.of_nat (length msgs)).
Proof.
  revert acc n. induction msgs as [|msg msgs IH]; intros acc n; cbn [foldM length].
  - intros [= <-] H. rewrite Z.add_0_r. exact H.
  - destruct (openai_analyze_message json_dumps acc msg) as [e|acc1] eqn:H1;
      [discriminate|].
    cbn [bind]. intros H Hc.
    apply (openai_analyze_message_counted _ _ _ _ H1) in Hc.
    apply (IH _ _ H) in Hc.
    replace (n + Z.of_nat (S (length msgs)))%Z
      with (n + 1 + Z.of_nat (length msgs))%Z by lia.
    exact Hc.
Qed.

Lemma length_chars (s : string) : length (chars s) = String.length s.
Proof. induction s as [|c s IH]; cbn; [reflexivity|]. rewrite IH. reflexivity. Qed.

Lemma py_iter_len (v : pyval) (items : list pyval) (n : Z) :
  py_iter v = ret items -> py_len v = ret n -> n = Z.of_nat (length items).
Proof.
  destruct v; try discriminate; cbn; intros [= <-] [= <-];
    rewrite ?length_chars, ?length_map; reflexivity.
Qed.

Lemma foldM_openai_analyze_message_dicts msgs acc :
  (forall v, exists s, json_dumps v = ret s) ->
  Forall (fun msg => is_dict msg = true) msgs ->
  exists acc', foldM (openai_analyze_message json_dumps) msgs acc = ret acc'.
Proof.
  intros Hdumps Hall. revert acc.
  induction Hall as [|msg msgs Hd _ IH]; intros acc; [eexists; reflexivity|].
  cbn [foldM]. destruct msg; try discriminate Hd.
  unfold openai_analyze_message. rewrite !py_get_dict. cbn [bind ret].
  destruct (is_str _ "user"); [cbn [bind]; apply IH|].
  destruct (is_str _ "assistant"); [cbn [bind]; apply IH|].
  destruct (is_str _ "system" || is_str _ "developer"); [|cbn [bind]; apply IH].
  destruct (default (PStr EmptyString) (dict_get d "content")) as [| |z|f|s|l|d'] eqn:Hc;
    cbn [bind ret]; try apply IH.
  - destruct (Hdumps PNone) as [s ->]. cbn [bind ret]. apply IH.
  - destruct (Hdumps (PBool b)) as [s ->]. cbn [bind ret]. apply IH.
  - destruct (Hdumps (PInt z)) as [s ->]. cbn [bind ret]. apply IH.
  - destruct (Hdumps (PFloat f)) as [s ->]. cbn [bind ret]. apply IH.
  - destruct (Hdumps (PDict d')) as [s ->]. cbn [bind ret]. apply IH.
Qed.

Lemma request_keys_dom (a b c d e f g : Z) :
  dom (<["tool_count"%string := a]>
         (<["conversation_history_chars"%string := b]>
            (<["assistant_message_count"%string := c]>
               (<["user_message_count"%string := d]>
                  (<["message_count"%string := e]>
                     (<["base_prompt_chars"%string := f]>
                        ({["system_prompt_total_chars"%string := g]} : gmap string Z)))))))
  = request_keys.
Proof.
  rewrite !dom_insert_L, dom_singleton_L. unfold request_keys.
  apply set_eq. intros x. rewrite !elem_of_union, !elem_of_singleton. tauto.
Qed.

Lemma openai_analyze_request_counts (body : list (string * pyval)) (r : gmap string Z) :
  openai_analyze_request json_dumps body = ret r ->
  dom r = request_keys /\
  exists total user assistant count,
    r !! "system_prompt_total_chars"%string = Some total /\
    r !! "base_prompt_chars"%string = Some total /\
    r !! "user_message_count"%string = Some user /\
    r !! "assistant_message_count"%string = Some assistant /\
    r !! "message_count"%string = Some count /\
    (0 <= total)%Z /\ (0 <= user)%Z /\ (0 <= assistant)%Z /\
    (user + assistant <= count)%Z.
Proof.
  unfold openai_analyze_request.
  set (messages := default (PList []) (dict_get body "messages")).
  destruct (py_iter messages) as [e|msgs] eqn:Hiter; [discriminate|]. cbn [bind].
  destruct (foldM _ msgs _) as [e|acc] eqn:Hfold; [discriminate|]. cbn [bind].
  destruct (match json_dumps messages with inl _ => _ | inr _ => _ end)
    as [e|history]; [discriminate|]. cbn [bind].
  destruct (py_len messages) as [e|count] eqn:Hlen; [discriminate|]. cbn [bind].
  destruct (py_len (default _ (dict_get body "tools"))) as [e|tool_count];
    [discriminate|].
  cbn [bind]. intros H. apply ret_inj in H. subst r.
  split; [apply request_keys_dom|].
  assert (H0 : counted {| user_count := 0; assistant_count := 0; system_chars := 0 |} 0)
    by (unfold counted; cbn; lia).
  destruct (foldM_openai_analyze_message_counted msgs _ acc 0 Hfold H0)
    as (Hu & Ha & Hs & Hn).
  rewrite <- (py_iter_len _ _ _ Hiter Hlen) in Hn.
  exists (system_chars acc), (user_count acc), (assistant_count acc), count.
  repeat split; try assumption; try lia;
    repeat first [ rewrite lookup_insert_eq
                 | rewrite lookup_singleton_eq
                 | rewrite lookup_insert_ne by discriminate ];
    reflexivity.
Qed.

End OpenAIAnalysis.

(** The analysis of an OpenAI-format request.  Every dict it returns has
    exactly the seven request counts; the base-prompt count equals the
    system-prompt total (there is no workspace breakdown); no count of
    messages or characters is negative; and the user and assistant messages
    together are at most the message count.  It returns whenever the messages
    are a list of dicts, the tools a list, and [json.dumps] accepts every
    value; a first message that is not a dict raises [AttributeError].  Of a
    body without messages all counts are [0] except the history size, which
    is the two characters of the serialized empty list. *)
Theorem openai_analysis_counts
    (json_dumps : pyval -> result string) (body : list (string * pyval)) :
  (forall r,
      openai_analyze_request json_dumps body = ret r ->
      dom r = request_keys /\
      exists total user assistant count,
        r !! "system_prompt_total_chars"%string = Some total /\
        r !! "base_prompt_chars"%string = Some total /\
        r !! "user_message_count"%string = Some user /\
        r !! "assistant_message_count"%string = Some assistant /\
        r !! "message_count"%string = Some count /\
        (0 <= total)%Z /\ (0 <= user)%Z /\ (0 <= assistant)%Z /\
        (user + assistant <= count)%Z) /\
  (forall msgs tools,
      (forall v, exists s, json_dumps v = ret s) ->
      default (PList []) (dict_get body "messages") = PList msgs ->
      Forall (fun msg => is_dict msg = true) msgs ->
      default (default (PList []) (dict_get body "functions")) (dict_get body "tools")
      = PList tools ->
      exists r,
        openai_analyze_request json_dumps body = ret r /\
        r !! "message_count"%string = Some (Z.of_nat (length msgs)) /\
        r !! "tool_count"%string = Some (Z.of_nat (length tools))) /\
  (forall msg msgs,
      dict_get body "messages" = Some (PList (msg :: msgs)) -> is_dict msg = false ->
      openai_analyze_request json_dumps body = raise AttributeError) /\
  (dumps_brackets json_dumps ->
   dict_get body "messages" = None -> dict_get body "tools" = None ->
   dict_get body "functions" = None ->
   exists r,
     openai_analyze_request json_dumps body = ret r /\
     r !! "conversation_history_chars"%string = Some 2%Z /\
     forall key, key ∈ request_keys -> key <> "conversation_history_chars"%string ->
                 r !! key = Some 0%Z).
Proof.
  split; [intros r; apply openai_analyze_request_counts|]. split; [|split].
  - intros msgs tools Hdumps Hm Hall Ht. unfold openai_analyze_request.
    rewrite Hm, Ht. cbn [py_iter bind ret].
    destruct (foldM_openai_analyze_message_dicts json_dumps msgs
                {| user_count := 0; assistant_count := 0; system_chars := 0 |}
                Hdumps Hall) as [acc ->].
    destruct (Hdumps (PList msgs)) as [s ->]. cbn [bind ret py_len].
    eexists. split; [reflexivity|]. split.
    + rewrite !lookup_insert_ne by discriminate. apply lookup_insert_eq.
    + apply lookup_insert_eq.
  - intros msg msgs Hm Hd. unfold openai_analyze_request. rewrite Hm.
    cbn [default from_option id py_iter bind ret foldM].
    unfold openai_analyze_message. rewrite (py_get_not_dict msg) by exact Hd.
    reflexivity.
  - intros Hdumps Hm Ht Hf. unfold openai_analyze_request. rewrite Hm, Ht, Hf.
    cbn [default from_option id py_iter bind ret foldM]. rewrite Hdumps.
    cbn [bind ret py_len length user_count assistant_count system_chars String.length
         Z.of_nat].
    eexists. split; [reflexivity|]. split.
    + rewrite lookup_insert_ne by discriminate. apply lookup_insert_eq.
    + intros key Hin Hne. unfold request_keys in Hin.
      rewrite !elem_of_union, !elem_of_singleton in Hin.
      destruct Hin as [[[[[[->| ->]| ->]| ->]| ->]| ->]| ->]; try contradiction;
        repeat first [ rewrite lookup_insert_eq
                     | rewrite lookup_singleton_eq
                     | rewrite lookup_insert_ne by discriminate ];
        reflexivity.
Qed.

(** ** Request analysis of the Anthropic provider: keys and counts *)

Lemma dom_foldl_insert (f : string -> Z) (keys : list string) (m : gmap string Z) :
  dom (foldl (fun res key => <[key := f key]> res) m keys)
  = list_to_set keys ∪ dom m.
Proof.
  revert m. induction keys as [|key keys IH]; intros m; cbn [foldl list_to_set].
  - apply set_eq. intros x. rewrite elem_of_union, elem_of_empty. tauto.
  - rewrite IH, dom_insert_L. apply set_eq. intros x.
    rewrite !elem_of_union. tauto.
Qed.

Lemma dom_zero_keys (keys : list string) (m : gmap string Z) :
  dom (zero_keys keys m) = list_to_set keys ∪ dom m.
Proof. apply (dom_foldl_insert (fun _ => 0%Z)). Qed.

Lemma count_roles_counted (msgs : list pyval) (u a u' a' : Z) :
  count_roles msgs u a = ret (u', a') ->
  (u <= u')%Z /\ (a <= a')%Z /\ (u' + a' <= u + a + Z.of_nat (length msgs))%Z.
Proof.
  revert u a. induction msgs as [|msg msgs IH]; intros u a; cbn [count_roles length].
  - intros [= <- <-]. lia.
  - destruct (py_get msg "role" (PStr EmptyString)) as [e|role]; [discriminate|].
    cbn [bind].
    destruct (is_str role "user"); [intros H; apply IH in H; lia|].
    destruct (is_str role "assistant"); intros H; apply IH in H; lia.
Qed.

Lemma dom_analyze_system_prompt (py_str : pyval -> string) (system : pyval) :
  dom (_analyze_system_prompt py_str system)
  = {[ "system_prompt_total_chars"; "base_prompt_chars" ]}%string
    ∪ list_to_set (map snd WORKSPACE_FILE_MAP).
Proof.
  assert (Hzero : dom (zero_keys (map snd WORKSPACE_FILE_MAP)
                         (<["base_prompt_chars"%string := 0%Z]>
                            ({["system_prompt_total_chars"%string := 0%Z]}
                             : gmap string Z)))
                  = {[ "system_prompt_total_chars"; "base_prompt_chars" ]}%string
                    ∪ list_to_set (map snd WORKSPACE_FILE_MAP)).
  { rewrite dom_zero_keys, dom_insert_L, dom_singleton_L.
    apply set_eq. intros x. rewrite !elem_of_union. tauto. }
  assert (Hblocks : forall blocks,
             dom (_analyze_system_prompt py_str (PList blocks))
             = {[ "system_prompt_total_chars"; "base_prompt_chars" ]}%string
               ∪ list_to_set (map snd WORKSPACE_FILE_MAP)).
  { intros blocks. unfold _analyze_system_prompt.
    rewrite (dom_foldl_insert
               (fun key => default 0%Z
                  (workspace_chars
                     (foldl (analyze_block py_str)
                        {| total_chars := 0; base_chars := 0;
                           workspace_chars := zero_keys (map snd WORKSPACE_FILE_MAP) ∅ |}
                        blocks) !! key))).
    rewrite !dom_insert_L, Hzero.
    apply set_eq. intros x. rewrite !elem_of_union, !elem_of_singleton. tauto. }
  destruct system; try exact Hzero; apply Hblocks.
Qed.

Lemma analyze_messages_result (json_dumps : pyval -> result string)
    (messages : pyval) (m : gmap string Z) :
  _analyze_messages json_dumps messages = ret m ->
  dom m = {[ "message_count"; "user_message_count"; "assistant_message_count";
             "conversation_history_chars" ]}%string /\
  exists user assistant count,
    m !! "user_message_count"%string = Some user /\
    m !! "assistant_message_count"%string = Some assistant /\
    m !! "message_count"%string = Some count /\
    (0 <= user)%Z /\ (0 <= assistant)%Z /\ (user + assistant <= count)%Z.
Proof.
  unfold _analyze_messages.
  destruct (py_iter messages) as [e|msgs] eqn:Hiter; [discriminate|]. cbn [bind].
  destruct (count_roles msgs 0 0) as [e|[u a]] eqn:Hcount; [discriminate|]. cbn [bind].
  destruct (match json_dumps messages with inl _ => _ | inr _ => _ end)
    as [e|history]; [discriminate|]. cbn [bind].
  destruct (py_len messages) as [e|count] eqn:Hlen; [discriminate|]. cbn [bind fst snd].
  intros H. apply ret_inj in H. subst m. split.
  - rewrite !dom_insert_L, dom_singleton_L.
    apply set_eq. intros x. rewrite !elem_of_union, !elem_of_singleton. tauto.
  - apply count_roles_counted in Hcount.
    rewrite <- (py_iter_len _ _ _ Hiter Hlen) in Hcount.
    exists u, a, count.
    repeat split; try lia;
      repeat first [ rewrite lookup_insert_eq
                   | rewrite lookup_singleton_eq
                   | rewrite lookup_insert_ne by discriminate ];
      reflexivity.
Qed.

Lemma analyze_request_result (py_str : pyval -> string)
    (json_dumps : pyval -> result string)
    (body : list (string * pyval)) (r : gmap string Z) :
  analyze_request py_str json_dumps body = ret r ->
  dom r = analysis_keys /\
  exists user assistant count tools,
    r !! "user_message_count"%string = Some user /\
    r !! "assistant_message_count"%string = Some assistant /\
    r !! "message_count"%string = Some count /\
    r !! "tool_count"%string = Some tools /\
    (0 <= user)%Z /\ (0 <= assistant)%Z /\ (user + assistant <= count)%Z /\
    (0 <= tools)%Z.
Proof.
  unfold analyze_request.
  set (result0 := zero_keys _ ∅).
  set (system := default (PList []) (dict_get body "system")).
  set (result1 := if truthy system then _ else _).
  assert (H0 : dom result0 = analysis_keys).
  { unfold result0. rewrite dom_zero_keys, dom_empty_L, list_to_set_app_L.
    unfold analysis_keys, request_keys. cbn [list_to_set].
    apply set_eq. intros x.
    rewrite !elem_of_union, !elem_of_singleton, !elem_of_empty. tauto. }
  assert (H1 : dom result1 = analysis_keys).
  { unfold result1. destruct (truthy system); [|exact H0].
    rewrite dom_union_L, dom_analyze_system_prompt, H0.
    unfold analysis_keys, request_keys.
    apply set_eq. intros x. rewrite !elem_of_union, !elem_of_singleton. tauto. }
  destruct (_analyze_messages json_dumps _) as [e|msg_analysis] eqn:Hmsg;
    [discriminate|].
  cbn [bind].
  destruct (py_len _) as [e|tool_count] eqn:Htools; [discriminate|]. cbn [bind].
  intros H. apply ret_inj in H. subst r.
  destruct (analyze_messages_result _ _ _ Hmsg)
    as (Hdom & user & assistant & count & Hu & Ha & Hc & H0u & H0a & Hle).
  split.
  - rewrite dom_insert_L, dom_union_L, Hdom, H1.
    unfold analysis_keys, request_keys.
    apply set_eq. intros x. rewrite !elem_of_union, !elem_of_singleton. tauto.
  - exists user, assistant, count, tool_count.
    split; [rewrite lookup_insert_ne by discriminate; apply lookup_union_Some_l, Hu|].
    split; [rewrite lookup_insert_ne by discriminate; apply lookup_union_Some_l, Ha|].
    split; [rewrite lookup_insert_ne by discriminate; apply lookup_union_Some_l, Hc|].
    split; [apply lookup_insert_eq|].
    repeat split; try assumption.
    destruct (default (PList []) (dict_get body "tools")); try discriminate Htools;
      cbn in Htools; injection Htools as <-; lia.
Qed.

(** The analysis of an Anthropic request.  Every dict it returns has exactly
    the seven request counts and the eight workspace counts; the user and
    assistant messages are not negative and together at most the message
    count; the tool count is not negative.  A first message that is not a
    dict raises [AttributeError], and messages that are [null] raise
    [TypeError].  Of the empty body all counts are [0] except the history
    size, which is the two characters of the serialized empty list. *)
Theorem anthropic_analysis_keys_and_counts
    (py_str : pyval -> string) (json_dumps : pyval -> result string)
    (body : list (string * pyval)) :
  (forall r,
      analyze_request py_str json_dumps body = ret r ->
      dom r = analysis_keys /\
      exists user assistant count tools,
        r !! "user_message_count"%string = Some user /\
        r !! "assistant_message_count"%string = Some assistant /\
        r !! "message_count"%string = Some count /\
        r !! "tool_count"%string = Some tools /\
        (0 <= user)%Z /\ (0 <= assistant)%Z /\ (user + assistant <= count)%Z /\
        (0 <= tools)%Z) /\
  (forall msg msgs,
      dict_get body "messages" = Some (PList (msg :: msgs)) -> is_dict msg = false ->
      analyze_request py_str json_dumps body = raise AttributeError) /\
  (dict_get body "messages" = Some PNone ->
   analyze_request py_str json_dumps body = raise TypeError) /\
  (dumps_brackets json_dumps -> body = [] ->
   exists r,
     analyze_request py_str json_dumps body = ret r /\
     r !! "conversation_history_chars"%string = Some 2%Z /\
     forall key, key ∈ analysis_keys -> key <> "conversation_history_chars"%string ->
                 r !! key = Some 0%Z).
Proof.
  split; [intros r; apply analyze_request_result|]. split; [|split].
  - intros msg msgs Hm Hd. unfold analyze_request. rewrite Hm.
    cbn [default from_option id]. unfold _analyze_messages.
    cbn [py_iter bind ret count_roles]. rewrite (py_get_not_dict msg) by exact Hd.
    reflexivity.
  - intros Hm. unfold analyze_request. rewrite Hm. reflexivity.
  - intros Hdumps ->. unfold analyze_request.
    cbn [dict_get default from_option id truthy]. unfold _analyze_messages.
    cbn [py_iter bind ret count_roles]. rewrite Hdumps.
    cbn [bind ret py_len length String.length Z.of_nat fst snd].
    eexists. split; [reflexivity|]. split.
    + rewrite lookup_insert_ne by discriminate.
      apply lookup_union_Some_l.
      rewrite !lookup_insert_ne by discriminate. apply lookup_singleton_eq.
    + intros key Hin Hne. unfold analysis_keys, request_keys in Hin.
      cbn [map snd WORKSPACE_FILE_MAP list_to_set] in Hin.
      rewrite !elem_of_union, !elem_of_singleton, elem_of_empty in Hin.
      unfold zero_keys. cbn [map snd WORKSPACE_FILE_MAP app foldl].
      repeat match type of Hin with
             | _ \/ _ => destruct Hin as [Hin|Hin]
             end;
        try contradiction; subst key;
        first
          [ apply lookup_insert_eq
          | rewrite lookup_insert_ne by discriminate;
            first
              [ apply lookup_union_Some_l;
                repeat first [ rewrite lookup_insert_eq
                             | rewrite lookup_insert_ne by discriminate ];
                reflexivity
              | rewrite lookup_union_r;
                [ repeat first [ rewrite lookup_insert_eq
                               | rewrite lookup_insert_ne by discriminate ];
                  reflexivity
                | repeat (rewrite lookup_insert_ne by discriminate);
                  apply lookup_singleton_ne; discriminate ] ] ].
Qed.

(** ** The usage log and the keys of an analysis *)

Ltac find_column n fuel :=
  lazymatch fuel with
  | O => fail "no such column"
  | S ?fuel' => first [ exists n; split; reflexivity | find_column (S n) fuel' ]
  end.

(** What the two [log_usage] functions do with the counts of a request
    analysis.  The SQLite one lists every key of an Anthropic analysis among
    its columns except [workspace_memory_chars], which is therefore not
    written (a key the entry lacks is bound to [None]).  The PostgreSQL one
    passes as many parameters as its [INSERT] names columns and binds every
    key of the analysis, [workspace_memory_chars] included, to the value of
    the entry under that key, [0] if the entry lacks it. *)
Theorem usage_log_columns (entry : gmap string pyval) :
  (forall key, key ∈ analysis_keys ->
     (In key db.cols <-> key <> "workspace_memory_chars"%string)) /\
  (forall i column,
      db.cols !! i = Some column ->
      snd (db.log_usage entry) !! i = Some (default PNone (entry !! column))) /\
  (forall row_id tenant_id agent_id params,
      db_postgres.log_usage_params row_id tenant_id agent_id entry = ret params ->
      length params = length db_postgres.columns /\
      forall key, key ∈ analysis_keys ->
        bound_to db_postgres.columns params key (db_postgres.get_0 entry key)).
Proof.
  split; [|split].
  - intros key Hin. unfold analysis_keys, request_keys in Hin.
    cbn [map snd WORKSPACE_FILE_MAP list_to_set] in Hin.
    rewrite !elem_of_union, !elem_of_singleton, elem_of_empty in Hin.
    repeat match type of Hin with
           | _ \/ _ => destruct Hin as [Hin|Hin]
           end;
      try contradiction; subst key;
      (split; [intros H; try discriminate;
               cbn in H; repeat (destruct H as [H|H]; [discriminate H|]); destruct H
              |intros H; first [ exfalso; apply H; reflexivity
                               | cbn; repeat first [left; reflexivity | right] ]]).
  - intros i column Hc. unfold db.log_usage. cbn [snd].
    rewrite list_lookup_fmap, Hc. reflexivity.
  - intros row_id tenant_id agent_id params. unfold db_postgres.log_usage_params.
    destruct (db_postgres.provider_of entry) as [e|provider]; [discriminate|].
    cbn [bind]. intros H. apply ret_inj in H. subst params.
    split; [reflexivity|].
    intros key Hin. unfold analysis_keys, request_keys in Hin.
    cbn [map snd WORKSPACE_FILE_MAP list_to_set] in Hin.
    rewrite !elem_of_union, !elem_of_singleton, elem_of_empty in Hin.
    unfold bound_to.
    repeat match type of Hin with
           | _ \/ _ => destruct Hin as [Hin|Hin]
           end;
      try contradiction; subst key; find_column 0%nat 30%nat.
Qed.

(** ** Rewriting of OpenAI-format requests *)

Lemma dict_get_set_eq (d : list (string * pyval)) (k : string) (v : pyval) :
  dict_get (dict_set d k v) k = Some v.
Proof.
  induction d as [|[k' v'] d IH]; cbn.
  - rewrite String.eqb_refl. reflexivity.
  - destruct (String.eqb_spec k k') as [->|Hne]; cbn.
    + rewrite String.eqb_refl. reflexivity.
    + destruct (String.eqb_spec k k'); [contradiction|exact IH].
Qed.

Lemma dict_get_set_ne (d : list (string * pyval)) (k k' : string) (v : pyval) :
  k' <> k -> dict_get (dict_set d k v) k' = dict_get d k'.
Proof.
  intros Hne. induction d as [|[k0 v0] d IH]; cbn.
  - destruct (String.eqb_spec k' k); [contradiction|reflexivity].
  - destruct (String.eqb_spec k k0) as [->|Hk]; cbn.
    + destruct (String.eqb_spec k' k0); [contradiction|reflexivity].
    + destruct (String.eqb_spec k' k0); [reflexivity|exact IH].
Qed.



Lemma rewrite_messages_cons (msg : pyval) (msgs : list pyval) :
  rewrite_messages (msg :: msgs)
  = match msg with
    | PDict d =>
        ((if has_role msg "developer"
          then PDict (dict_set d "role" (PStr "system")) else msg)
         :: fst (rewrite_messages msgs),
         snd (rewrite_messages msgs))
    | _ => (msg :: msgs, Some AttributeError)
    end.
Proof.
  cbn [rewrite_messages]. destruct msg; try reflexivity.
  cbn [py_get has_role bind ret]. destruct (rewrite_messages msgs) as [rest raised].
  reflexivity.
Qed.

Lemma rewritten_message_refl (l : list pyval) : Forall2 rewritten_message l l.
Proof. induction l; constructor; [left; reflexivity|assumption]. Qed.

Lemma rewrite_messages_rewritten (msgs : list pyval) :
  Forall2 rewritten_message msgs (fst (rewrite_messages msgs)).
Proof.
  induction msgs as [|msg msgs IH]; [constructor|].
  rewrite rewrite_messages_cons.
  destruct msg; try apply rewritten_message_refl.
  cbn [fst]. constructor; [|exact IH].
  destruct (has_role (PDict d) "developer") eqn:Hr; [|left; reflexivity].
  right. exists d. repeat split. exact Hr.
Qed.


(** After a loop that ends without an exception every message is a dict and
    none has the role [developer]. *)
Lemma rewrite_messages_done (msgs : list pyval) :
  snd (rewrite_messages msgs) = None <-> Forall (fun msg => is_dict msg = true) msgs.
Proof.
  induction msgs as [|msg msgs IH]; [split; [constructor|reflexivity]|].
  rewrite rewrite_messages_cons. destruct msg; cbn [snd];
    try (split; [discriminate|intros H; inversion H; discriminate]).
  rewrite IH. split; [intros H; constructor; [reflexivity|exact H]|].
  intros H. inversion H. assumption.
Qed.



Lemma openai_rewrite_request_messages (body : list (string * pyval)) (msgs : list pyval) :
  dict_get body "messages" = Some (PList msgs) ->
  openai_rewrite_request body
  = (dict_set body "messages" (PList (fst (rewrite_messages msgs))),
     snd (rewrite_messages msgs)).
Proof.
  intros Hm. unfold openai_rewrite_request. rewrite Hm.
  destruct (rewrite_messages msgs). reflexivity.
Qed.

Lemma openai_rewrite_request_other (body : list (string * pyval)) :
  (forall msgs, dict_get body "messages" <> Some (PList msgs)) ->
  fst (openai_rewrite_request body) = body.
Proof.
  intros Hm. unfold openai_rewrite_request.
  destruct (dict_get body "messages") as [messages|]; [|reflexivity].
  destruct messages; try reflexivity.
  - cbn. destruct (chars s); reflexivity.
  - exfalso. apply (Hm l). reflexivity.
  - cbn. destruct (map _ d); reflexivity.
Qed.

Lemma classic_list (v : pyval) : (exists l, v = PList l) \/ ~ (exists l, v = PList l).
Proof.
  destruct v; first [left; eexists; reflexivity | right; intros [l0 H]; discriminate].
Qed.


(** *** Analysis after rewriting *)

Lemma openai_analyze_message_rewritten (json_dumps : pyval -> result string)
    (acc : message_counts) (msg msg' : pyval) :
  rewritten_message msg msg' ->
  openai_analyze_message json_dumps acc msg' = openai_analyze_message json_dumps acc msg.
Proof.
  intros [->|(d & -> & Hr & ->)]; [reflexivity|].
  unfold openai_analyze_message. rewrite !py_get_dict.
  rewrite dict_get_set_eq, (dict_get_set_ne d "role" "content") by discriminate.
  cbn [has_role] in Hr. destruct (default PNone (dict_get d "role")) eqn:Hrole;
    try discriminate Hr.
  cbn [is_str] in Hr. apply String.eqb_eq in Hr. subst s.
  destruct (dict_get d "role") as [role|]; [|discriminate Hrole].
  cbn [default from_option id] in Hrole. subst role. reflexivity.
Qed.

Lemma foldM_openai_analyze_message_rewritten (json_dumps : pyval -> result string)
    (msgs msgs' : list pyval) (acc : message_counts) :
  Forall2 rewritten_message msgs msgs' ->
  foldM (openai_analyze_message json_dumps) msgs' acc
  = foldM (openai_analyze_message json_dumps) msgs acc.
Proof.
  intros H. revert acc. induction H as [|msg msg' msgs msgs' Hm _ IH]; intros acc;
    [reflexivity|].
  cbn [foldM]. rewrite (openai_analyze_message_rewritten _ _ _ _ Hm).
  destruct (openai_analyze_message json_dumps acc msg); [reflexivity|apply IH].
Qed.

Lemma foldM_openai_analyze_message_dicts_only (json_dumps : pyval -> result string)
    (msgs : list pyval) (acc acc' : message_counts) :
  foldM (openai_analyze_message json_dumps) msgs acc = ret acc' ->
  Forall (fun msg => is_dict msg = true) msgs.
Proof.
  revert acc. induction msgs as [|msg msgs IH]; intros acc; [constructor|].
  cbn [foldM].
  destruct (openai_analyze_message json_dumps acc msg) as [e|acc1] eqn:H1;
    [discriminate|].
  cbn [bind]. intros H. constructor; [|apply (IH _ H)].
  destruct msg; try discriminate H1. reflexivity.
Qed.

(** Rewriting does not change what the analysis counts.  Whenever the
    analysis of an OpenAI-format body returns, [rewrite_request] returns too;
    the analysis of the rewritten body, when it returns, gives the same value
    under every key except the serialized history size; and it does return
    if [json.dumps] accepts every value. *)
Theorem analysis_unchanged_by_rewrite
    (json_dumps : pyval -> result string) (body : list (string * pyval))
    (r : gmap string Z) :
  openai_analyze_request json_dumps body = ret r ->
  let body' := fst (openai_rewrite_request body) in
  snd (openai_rewrite_request body) = None /\
  (forall r',
      openai_analyze_request json_dumps body' = ret r' ->
      forall key, key <> "conversation_history_chars"%string -> r' !! key = r !! key) /\
  ((forall v, exists s, json_dumps v = ret s) ->
   exists r', openai_analyze_request json_dumps body' = ret r').
Proof.
  intros Hr. cbn zeta.
  destruct (dict_get body "messages") as [messages|] eqn:Hm.
  2:{ assert (Hfst : openai_rewrite_request body = (body, None))
        by (unfold openai_rewrite_request; rewrite Hm; reflexivity).
      rewrite Hfst. cbn [fst snd]. split; [reflexivity|]. split.
      - intros r' Hr' key _. rewrite Hr in Hr'. apply ret_inj in Hr'. subst r'.
        reflexivity.
      - intros _. exists r. exact Hr. }
  destruct (classic_list messages) as [[msgs ->]|Hnot].
  - rewrite (openai_rewrite_request_messages body msgs Hm). cbn [fst snd].
    revert Hr. unfold openai_analyze_request.
    rewrite Hm, dict_get_set_eq,
      !(dict_get_set_ne body "messages") by discriminate.
    cbn [default from_option id py_iter bind ret py_len].
    rewrite (foldM_openai_analyze_message_rewritten json_dumps msgs _ _
               (rewrite_messages_rewritten msgs)).
    rewrite (Forall2_length _ _ _ (rewrite_messages_rewritten msgs)).
    destruct (foldM (openai_analyze_message json_dumps) msgs _) as [e|acc] eqn:Hfold;
      [discriminate|].
    cbn [bind].
    destruct (match json_dumps (PList msgs) with inl _ => _ | inr _ => _ end)
      as [e|history]; [discriminate|].
    cbn [bind].
    destruct (py_len (default _ (dict_get body "tools"))) as [e|tool_count];
      [discriminate|].
    cbn [bind]. intros Hr. apply ret_inj in Hr. subst r.
    split; [apply rewrite_messages_done,
              (foldM_openai_analyze_message_dicts_only _ _ _ _ Hfold)|].
    split.
    + intros r'.
      destruct (match json_dumps (PList (fst (rewrite_messages msgs))) with
                | inl _ => _ | inr _ => _ end) as [e|history']; [discriminate|].
      cbn [bind]. intros Hr' key Hne. apply ret_inj in Hr'. subst r'.
      destruct (decide (key = "tool_count"%string)) as [->|Ht];
        [rewrite !lookup_insert_eq; reflexivity|].
      rewrite !(lookup_insert_ne _ "tool_count"%string) by congruence.
      rewrite !(lookup_insert_ne _ "conversation_history_chars"%string) by congruence.
      reflexivity.
    + intros Hdumps.
      destruct (Hdumps (PList (fst (rewrite_messages msgs)))) as [s ->].
      cbn [bind ret]. eexists. reflexivity.
  - assert (Hfst : fst (openai_rewrite_request body) = body).
    { apply openai_rewrite_request_other. intros msgs. rewrite Hm.
      intros [= ->]. apply Hnot. eexists. reflexivity. }
    rewrite Hfst. split.
    + revert Hr. unfold openai_analyze_request, openai_rewrite_request.
      rewrite Hm. cbn [default from_option id].
      destruct messages as [| | | |s|l|d]; try discriminate.
      * destruct s as [|c s]; [reflexivity|]. discriminate.
      * exfalso. apply Hnot. eexists. reflexivity.
      * destruct d as [|kv d]; [reflexivity|]. discriminate.
    + split.
      * intros r' Hr' key _. rewrite Hr in Hr'. apply ret_inj in Hr'. subst r'.
        reflexivity.
      * intros _. exists r. exact Hr.
Qed.

(** ** Session status: the current session alone *)

Lemma reset_at_drop (rows : list usage_row) (b i : nat) :
  reset_at (drop b rows) i -> reset_at rows (b + i).
Proof.
  intros (j & prev & curr & -> & Hp & Hc & Hh).
  rewrite lookup_drop in Hp, Hc.
  exists (b + j)%nat, prev, curr. repeat split; try assumption. lia.
Qed.

Lemma find_last_reset_drop (rows : list usage_row) (b : nat) :
  Forall int64_row rows -> last_reset rows b -> (b < length rows)%nat ->
  find_last_reset (drop b rows) = ret 0%nat.
Proof.
  intros Hrows [_ Hnone] Hlt.
  assert (Hne : drop b rows <> []).
  { intros H. apply (f_equal length) in H. rewrite length_drop in H. cbn in H. lia. }
  destruct (find_last_reset_spec (drop b rows) Hne (Forall_drop _ _ _ Hrows))
    as (b' & Hb' & [Hres _] & _).
  rewrite Hb'. f_equal. destruct Hres as [->|Hres]; [reflexivity|].
  exfalso. pose proof (reset_at_in_range _ _ Hres) as Hrange.
  apply reset_at_drop in Hres. apply (Hnone (b + b')%nat); [lia|exact Hres].
Qed.

Lemma query_session_status_eq (agent : string) (rows : list usage_row) (T : Z) (b : nat) :
  rows <> [] -> find_last_reset rows = ret b ->
  query_session_status agent rows T
  = (let session_rows := drop b rows in
     let* last_row :=
       match last session_rows with
       | Some r => ret r
       | None => raise IndexError
       end in
     let* total_cost := py_sum (map cost_or_0 session_rows) in
     let last_5 := last_five session_rows in
     let* sum_cost_5 := py_sum (map cost_or_0 last_5) in
     let* avg_cost_5 :=
       py_truediv sum_cost_5 (NInt (Z.max (Z.of_nat (length last_5)) 1)) in
     let* cache_write_pct :=
       py_truediv (NInt (sum_Z (map write_tokens last_5)))
                  (NInt (Z.max (sum_Z (map cache_tokens last_5)) 1)) in
     let* rec :=
       recommend (history_chars last_row) T cache_write_pct (length last_5) in
     ret {| agent := agent;
            current_session_turns := Z.of_nat (length session_rows);
            current_history_chars := history_chars last_row;
            last_turn_cost := py_round (cost_or_0 last_row) 6;
            avg_cost_last_5 := py_round (NFloat avg_cost_5) 6;
            cache_write_pct_last_5 := py_round (NFloat cache_write_pct) 4;
            cost_since_last_reset := py_round total_cost 6;
            turns_since_last_reset := Z.of_nat (length session_rows);
            recommendation := rec |}).
Proof.
  intros Hne Hb. unfold query_session_status.
  destruct rows as [|r0 rows]; [congruence|]. rewrite Hb. reflexivity.
Qed.

(** The status is that of the current session alone: on a non-empty window
    the rows before the session boundary have no influence, the status
    computed from the rows of the current session only is the same, and
    within these rows no further boundary is found. *)
Theorem status_of_current_session_alone
    (agent : string) (rows : list usage_row) (char_limit : Z) :
  rows <> [] -> Forall int64_row rows -> fits_float char_limit ->
  exists b,
    find_last_reset rows = ret b /\ (b < length rows)%nat /\
    find_last_reset (drop b rows) = ret 0%nat /\
    query_session_status agent (drop b rows) char_limit
    = query_session_status agent rows char_limit.
Proof.
  intros Hne Hrows HT.
  destruct (find_last_reset_spec rows Hne Hrows) as (b & Hb & Hlast & Hlt).
  exists b. split; [exact Hb|]. split; [exact Hlt|].
  pose proof (find_last_reset_drop rows b Hrows Hlast Hlt) as H0.
  split; [exact H0|].
  assert (Hne' : drop b rows <> []).
  { intros H. apply (f_equal length) in H. rewrite length_drop in H. cbn in H. lia. }
  rewrite (query_session_status_eq agent rows char_limit b Hne Hb).
  rewrite (query_session_status_eq agent (drop b rows) char_limit 0 Hne' H0).
  rewrite drop_0. reflexivity.
Qed.

(** The costs and the turns of the status of a non-empty window: the last
    turn cost is the cost of the newest row and the average cost is the sum
    of the costs of the rolling window divided by its size, which is between
    1 and 5, so that the floor of 1 on the divisor never acts; a missing cost
    counts as [0]; both are rounded to six places.  The session has at least
    one turn and at most as many as the window has rows, the recommendation
    is not "no_data", and with fewer than three turns it is not
    "cache_unstable". *)
Theorem session_costs_and_turns
    (agent : string) (rows : list usage_row) (char_limit : Z) :
  rows <> [] -> Forall int64_row rows -> fits_float char_limit ->
  exists st b last_row sum_5 avg,
    query_session_status agent rows char_limit = ret st /\
    last_reset rows b /\
    last (drop b rows) = Some last_row /\ last rows = Some last_row /\
    last_turn_cost st = py_round (cost_or_0 last_row) 6 /\
    py_sum (map cost_or_0 (last_five (drop b rows))) = ret sum_5 /\
    (1 <= length (last_five (drop b rows)) <= 5)%nat /\
    py_truediv sum_5 (NInt (Z.of_nat (length (last_five (drop b rows))))) = ret avg /\
    avg_cost_last_5 st = py_round (NFloat avg) 6 /\
    current_session_turns st = Z.of_nat (length rows - b) /\
    turns_since_last_reset st = current_session_turns st /\
    (1 <= current_session_turns st <= Z.of_nat (length rows))%Z /\
    recommendation st <> "no_data"%string /\
    ((current_session_turns st < 3)%Z -> recommendation st <> "cache_unstable"%string).
Proof.
  intros Hne Hrows HT.
  destruct (query_session_status_run agent rows char_limit Hne Hrows HT)
    as (b & last_row & total & sum_5 & avg & ratio &
        Hb & Hlast & Hlt & Hrow & Htotal & Hsum5 & Havg & Hratio & Hrun).
  exists (status_of agent rows char_limit b last_row total avg ratio), b, last_row,
    sum_5, avg.
  pose proof (length_last_five (drop b rows)) as Hl5.
  rewrite length_drop in Hl5.
  assert (Hmax : Z.max (Z.of_nat (length (last_five (drop b rows)))) 1
                 = Z.of_nat (length (last_five (drop b rows)))) by lia.
  rewrite Hmax in Havg.
  cbn [status_of last_turn_cost avg_cost_last_5 current_session_turns
       turns_since_last_reset recommendation].
  rewrite length_drop.
  split; [exact Hrun|]. split; [exact Hlast|]. split; [exact Hrow|].
  split.
  { rewrite <- (take_drop b rows). rewrite last_app, Hrow. reflexivity. }
  split; [reflexivity|]. split; [exact Hsum5|]. split; [lia|].
  split; [exact Havg|]. split; [reflexivity|]. split; [reflexivity|].
  split; [reflexivity|]. split; [lia|].
  assert (Hrec : forall ratio' window,
             recommendation_for (history_chars last_row) char_limit ratio' window
             <> "no_data"%string /\
             ((window < 3)%nat ->
              recommendation_for (history_chars last_row) char_limit ratio' window
              <> "cache_unstable"%string)).
  { intros ratio' window. unfold recommendation_for.
    destruct (py_gt _ _); [split; [discriminate|intros _; discriminate]|].
    destruct (_ <? _)%Z; [split; [discriminate|intros _; discriminate]|].
    destruct (_ <? _)%Z; [split; [discriminate|intros _; discriminate]|].
    destruct (Nat.leb_spec 3 window).
    - destruct (F64.ltb _ _); cbn [andb];
        (split; [discriminate|intros ?; first [lia|discriminate]]).
    - rewrite andb_false_r. split; [discriminate|intros _; discriminate]. }
  split; [apply Hrec|]. intros Hturns. apply Hrec. rewrite Hl5. lia.
Qed.

(** ** Stream extraction: when it raises *)

Lemma returns_ret {A} (a : A) : returns (ret a).
Proof. exists a. reflexivity. Qed.

Lemma returns_raise {A} (e : exn) : ~ returns (raise e : result A).
Proof. intros [a H]. discriminate H. Qed.

Lemma returns_bind_get {A} (d : list (string * pyval)) (k : string) (dflt : pyval)
    (f : pyval -> result A) :
  returns (let* v := py_get (PDict d) k dflt in f v)
  <-> returns (f (default dflt (dict_get d k))).
Proof. rewrite py_get_dict. reflexivity. Qed.

Lemma returns_bind_not_dict {A} (v : pyval) (k : string) (dflt : pyval)
    (f : pyval -> result A) :
  is_dict v = false -> ~ returns (let* x := py_get v k dflt in f x).
Proof. intros H. rewrite (py_get_not_dict v) by exact H. apply returns_raise. Qed.

(** The payloads on which the stream extraction raises, for a payload that is
    a JSON object.  The OpenAI-compatible extraction returns exactly when
    [usage] is falsy or a dict whose [prompt_tokens_details] is falsy or a
    dict, and [choices] is falsy or a list whose first item is a dict.  The
    Anthropic extraction returns on [message_start] exactly when [message] is
    a dict whose [usage] is falsy or a dict, and on [message_delta] exactly
    when [usage] and [delta] are dicts: there a [null] usage raises. *)
Theorem stream_extraction_error_domain (d : list (string * pyval)) :
  let usage := default (PDict []) (dict_get d "usage") in
  let choices := default (PList []) (dict_get d "choices") in
  let message := default (PDict []) (dict_get d "message") in
  let delta := default (PDict []) (dict_get d "delta") in
  (returns (openai_usage_of (PDict d)) <->
   (truthy usage = false \/
    exists u, usage = PDict u /\
              falsy_or_dict (default (PDict []) (dict_get u "prompt_tokens_details"))
              = true) /\
   readable_choices choices = true) /\
  (returns (anthropic_usage_of (PDict d) (Some "message_start"%string)) <->
   exists m, message = PDict m /\
             falsy_or_dict (default (PDict []) (dict_get m "usage")) = true) /\
  (returns (anthropic_usage_of (PDict d) (Some "message_delta"%string)) <->
   is_dict usage = true /\ is_dict delta = true).
Proof.
  cbn zeta. split; [|split].
  - unfold openai_usage_of. rewrite py_get_dict. cbn [bind ret].
    set (usage := default (PDict []) (dict_get d "usage")).
    
    assert (Hchoices : forall result : gmap string pyval,
               returns (let* result :=
                          if truthy (default (PList []) (dict_get d "choices"))
                          then let* choice := py_first (default (PList []) (dict_get d "choices")) in
                               let* finish_reason := py_get choice "finish_reason" PNone in
                               ret (if truthy finish_reason
                                    then <["stop_reason"%string := finish_reason]> result
                                    else result)
                          else ret result in
                        ret (nonempty_or_none result))
               <-> readable_choices (default (PList []) (dict_get d "choices")) = true).
    { intros result. unfold readable_choices.
      destruct (truthy (default (PList []) (dict_get d "choices"))) eqn:Ht; cbn [negb orb bind ret];
        [|split; [reflexivity|intros _; apply returns_ret]].
      destruct (default (PList []) (dict_get d "choices")) as [| | | |s|l|c];
        try discriminate Ht;
        try (split; [intros H; exfalso; revert H; apply returns_raise|discriminate]).
      - destruct s as [|a s]; [discriminate Ht|].
        split; [intros H; exfalso; revert H; apply returns_raise|discriminate].
      - destruct l as [|first l]; [discriminate Ht|]. cbn [py_first bind ret].
        destruct first; cbn [is_dict];
          try (split; [intros H; exfalso; revert H; apply returns_raise|discriminate]).
        cbn [py_get bind ret]. split; [reflexivity|intros _; apply returns_ret]. }
    destruct (truthy usage) eqn:Hu.
    + destruct usage as [| | | |s|l|u] eqn:Husage;
        try (split; [intros H; exfalso; revert H; apply returns_raise
                    |intros [[H|(u0 & H & _)] _]; discriminate H]).
      rewrite !py_get_dict. cbn [bind ret].
      unfold falsy_or_dict.
      destruct (truthy (default (PDict []) (dict_get u "prompt_tokens_details"))) eqn:Hd.
      * cbn [negb orb].
        destruct (default (PDict []) (dict_get u "prompt_tokens_details"))
          as [| | | |s|l|details] eqn:Hdetails;
          try (split; [intros H; exfalso; revert H; apply returns_raise
                      |intros [[H|(u0 & [= <-] & H)] _];
                       [congruence|rewrite Hdetails, Hd in H; discriminate H]]).
        rewrite py_get_dict. cbn [bind ret]. rewrite Hchoices.
        split; [intros H; split; [right; exists u; split; [reflexivity|]|exact H]
               |intros [_ H]; exact H].
        rewrite ?Hdetails. cbn [is_dict]. apply orb_true_r.
      * cbn [bind ret]. rewrite Hchoices.
        split; [intros H; split; [right; exists u; split; [reflexivity|]|exact H]
               |intros [_ H]; exact H].
        rewrite Hd. reflexivity.
    + cbn [bind ret]. rewrite py_get_dict. cbn [bind ret]. rewrite Hchoices.
      split; [intros H; split; [left; reflexivity|exact H]|intros [_ H]; exact H].
  - unfold anthropic_usage_of.
    destruct (decide (Some "message_start"%string = Some "message_start"%string))
      as [_|]; [|contradiction].
    rewrite py_get_dict. cbn [bind ret].
    destruct (default (PDict []) (dict_get d "message")) as [| | | |s|l|m];
      try (split; [intros H; exfalso; revert H; apply returns_raise
                  |intros (m0 & H & _); discriminate H]).
    rewrite py_get_dict. cbn [bind ret]. unfold falsy_or_dict.
    destruct (truthy (default (PDict []) (dict_get m "usage"))) eqn:Ht.
    + destruct (default (PDict []) (dict_get m "usage")) as [| | | |s|l|u] eqn:Hu;
        try (split; [intros H; exfalso; revert H; apply returns_raise
                    |intros (m0 & [= <-] & H); rewrite Hu, Ht in H; discriminate H]).
      rewrite !py_get_dict. cbn [bind ret].
      split; [intros _; exists m; split; [reflexivity|rewrite Hu; apply orb_true_r]
             |intros _; apply returns_ret].
    + cbn [bind ret].
      split; [intros _; exists m; split; [reflexivity|rewrite Ht; reflexivity]
             |intros _; apply returns_ret].
  - unfold anthropic_usage_of.
    destruct (decide (Some "message_delta"%string = Some "message_start"%string))
      as [H|_]; [discriminate H|].
    destruct (decide (Some "message_delta"%string = Some "message_delta"%string))
      as [_|]; [|contradiction].
    rewrite !py_get_dict. cbn [bind ret].
    destruct (default (PDict []) (dict_get d "usage")) as [| | | |s|l|u];
      try (split; [intros H; exfalso; revert H; apply returns_raise
                  |intros [H _]; discriminate H]).
    rewrite py_get_dict. cbn [bind ret].
    destruct (default (PDict []) (dict_get d "delta")) as [| | | |s|l|dl];
      try (split; [intros H; exfalso; revert H; apply returns_raise
                  |intros [_ H]; discriminate H]).
    rewrite py_get_dict. cbn [bind ret].
    split; [intros _; split; reflexivity|intros _; apply returns_ret].
Qed.

(** ** System-prompt analysis: how it composes *)

Lemma sum_Z_app (l1 l2 : list Z) : sum_Z (l1 ++ l2) = (sum_Z l1 + sum_Z l2)%Z.
Proof.
  induction l1 as [|z l1 IH]; [change (sum_Z l2 = 0 + sum_Z l2)%Z; lia|].
  cbn [app]. rewrite !sum_Z_cons, IH. lia.
Qed.

Lemma sum_Z_perm (l l' : list Z) : Permutation l l' -> sum_Z l = sum_Z l'.
Proof.
  induction 1 as [|z l l' _ IH|y z l|l l' l'' _ IH1 _ IH2].
  - reflexivity.
  - rewrite !sum_Z_cons, IH. reflexivity.
  - rewrite !sum_Z_cons. lia.
  - rewrite IH1. exact IH2.
Qed.

Lemma sum_Z_filter_dicts (g : pyval -> Z) (blocks : list pyval) :
  (forall block, is_dict block = false -> g block = 0%Z) ->
  sum_Z (map g (List.filter is_dict blocks)) = sum_Z (map g blocks).
Proof.
  intros Hg. induction blocks as [|block blocks IH]; [reflexivity|].
  cbn [List.filter map]. destruct (is_dict block) eqn:Hd.
  - cbn [map]. rewrite !sum_Z_cons, IH. reflexivity.
  - rewrite sum_Z_cons, IH, (Hg block Hd). lia.
Qed.

(** The analysis of a list of blocks as a function of the three kinds of
    counts. *)
Lemma analyze_blocks_eq (py_str : pyval -> string) (blocks blocks' : list pyval) :
  chars_of py_str blocks = chars_of py_str blocks' ->
  (forall dest, chars_to py_str dest blocks = chars_to py_str dest blocks') ->
  _analyze_system_prompt py_str (PList blocks)
  = _analyze_system_prompt py_str (PList blocks').
Proof.
  intros Hof Hto. apply map_eq. intros key.
  destruct (analyze_blocks_counts py_str blocks) as (Ht & Hb & Hw).
  destruct (analyze_blocks_counts py_str blocks') as (Ht' & Hb' & Hw').
  destruct (decide (key ∈ dom (_analyze_system_prompt py_str (PList blocks))))
    as [Hin|Hnin].
  - rewrite dom_analyze_system_prompt in Hin.
    rewrite elem_of_union, elem_of_union, !elem_of_singleton, elem_of_list_to_set in Hin.
    destruct Hin as [[->| ->]|Hin].
    + rewrite Ht, Ht', Hof. reflexivity.
    + rewrite Hb, Hb', Hto. reflexivity.
    + rewrite Forall_forall in Hw, Hw'.
      rewrite (Hw key Hin), (Hw' key Hin), Hto. reflexivity.
  - assert (Hnin' : key ∉ dom (_analyze_system_prompt py_str (PList blocks')))
      by (rewrite dom_analyze_system_prompt;
          rewrite dom_analyze_system_prompt in Hnin; exact Hnin).
    apply not_elem_of_dom in Hnin, Hnin'. rewrite Hnin, Hnin'. reflexivity.
Qed.

Lemma zero_result_lookup (key : string) :
  let zero := zero_keys (map snd WORKSPACE_FILE_MAP)
                (<["base_prompt_chars"%string := 0%Z]>
                   ({["system_prompt_total_chars"%string := 0%Z]} : gmap string Z)) in
  key ∈ dom zero -> zero !! key = Some 0%Z.
Proof.
  cbn zeta. intros Hin. apply elem_of_dom in Hin. destruct Hin as [count Hcount].
  rewrite Hcount. f_equal.
  assert (H0 : default 0%Z
                 (zero_keys (map snd WORKSPACE_FILE_MAP)
                    (<["base_prompt_chars"%string := 0%Z]>
                       ({["system_prompt_total_chars"%string := 0%Z]}
                        : gmap string Z)) !! key) = 0%Z).
  { apply zero_keys_lookup. intros k.
    destruct (decide (k = "base_prompt_chars"%string)) as [->|Hb];
      [rewrite lookup_insert_eq; reflexivity|].
    rewrite lookup_insert_ne by congruence.
    destruct (decide (k = "system_prompt_total_chars"%string)) as [->|Ht];
      [rewrite lookup_singleton_eq; reflexivity|].
    rewrite lookup_singleton_ne by congruence. reflexivity. }
  rewrite Hcount in H0. exact H0.
Qed.

(** The analysis of a system prompt does not depend on the order of the
    blocks, ignores the blocks that are not dicts, and adds up: each count of
    two lists of blocks put together is the sum of the counts of the two
    lists.  A prompt that is neither a string nor a list has all counts
    [0]. *)
Theorem system_prompt_analysis_composes (py_str : pyval -> string) :
  (forall blocks blocks',
      Permutation blocks blocks' ->
      _analyze_system_prompt py_str (PList blocks)
      = _analyze_system_prompt py_str (PList blocks')) /\
  (forall blocks,
      _analyze_system_prompt py_str (PList (List.filter is_dict blocks))
      = _analyze_system_prompt py_str (PList blocks)) /\
  (forall blocks1 blocks2 key,
      default 0%Z (_analyze_system_prompt py_str (PList (blocks1 ++ blocks2)) !! key)
      = (default 0%Z (_analyze_system_prompt py_str (PList blocks1) !! key)
         + default 0%Z (_analyze_system_prompt py_str (PList blocks2) !! key))%Z) /\
  (forall system key,
      (forall s, system <> PStr s) -> (forall l, system <> PList l) ->
      key ∈ dom (_analyze_system_prompt py_str system) ->
      _analyze_system_prompt py_str system !! key = Some 0%Z).
Proof.
  split; [|split; [|split]].
  - intros blocks blocks' Hperm. apply analyze_blocks_eq.
    + unfold chars_of. apply sum_Z_perm, Permutation_map, Hperm.
    + intros dest. unfold chars_to. apply sum_Z_perm, Permutation_map, Hperm.
  - intros blocks. apply analyze_blocks_eq.
    + unfold chars_of. apply sum_Z_filter_dicts.
      intros block Hd. destruct block; try discriminate Hd; reflexivity.
    + intros dest. unfold chars_to. apply sum_Z_filter_dicts.
      intros block Hd. destruct block; try discriminate Hd; reflexivity.
  - intros blocks1 blocks2 key.
    destruct (analyze_blocks_counts py_str (blocks1 ++ blocks2)) as (Ht & Hb & Hw).
    destruct (analyze_blocks_counts py_str blocks1) as (Ht1 & Hb1 & Hw1).
    destruct (analyze_blocks_counts py_str blocks2) as (Ht2 & Hb2 & Hw2).
    assert (Hto : forall dest,
               chars_to py_str dest (blocks1 ++ blocks2)
               = (chars_to py_str dest blocks1 + chars_to py_str dest blocks2)%Z).
    { intros dest. unfold chars_to. rewrite map_app. apply sum_Z_app. }
    destruct (decide (key ∈ dom (_analyze_system_prompt py_str (PList blocks1))))
      as [Hin|Hnin].
    + rewrite dom_analyze_system_prompt in Hin.
      rewrite elem_of_union, elem_of_union, !elem_of_singleton, elem_of_list_to_set in Hin.
      destruct Hin as [[->| ->]|Hin].
      * rewrite Ht, Ht1, Ht2. cbn [default from_option id].
        unfold chars_of. rewrite map_app. apply sum_Z_app.
      * rewrite Hb, Hb1, Hb2. cbn [default from_option id]. apply Hto.
      * rewrite Forall_forall in Hw, Hw1, Hw2.
        rewrite (Hw key Hin), (Hw1 key Hin), (Hw2 key Hin).
        cbn [default from_option id]. apply Hto.
    + assert (H12 : key ∉ dom (_analyze_system_prompt py_str (PList (blocks1 ++ blocks2))))
        by (rewrite dom_analyze_system_prompt;
            rewrite dom_analyze_system_prompt in Hnin; exact Hnin).
      assert (H2 : key ∉ dom (_analyze_system_prompt py_str (PList blocks2)))
        by (rewrite dom_analyze_system_prompt;
            rewrite dom_analyze_system_prompt in Hnin; exact Hnin).
      apply not_elem_of_dom in Hnin, H12, H2. rewrite Hnin, H12, H2. reflexivity.
  - intros system key Hs Hl Hin.
    destruct system as [| | | |s|l|d];
      try (exfalso; eapply Hs; reflexivity);
      try (exfalso; eapply Hl; reflexivity);
      apply zero_result_lookup, Hin.
Qed.

(** ** The recommendation grows with the history *)

(** For a threshold that is not negative (and below [2^50]) the
    recommendation never gets milder when the history gets longer, the
    cache-write ratio and the rolling window being the same: the tests on the
    history are nested, [history > 2.5 T] implies [history > 2 T] implies
    [history > T]. *)
Theorem recommendation_monotone
    (history1 history2 char_limit : Z) (ratio : spec_float) (window : nat) :
  (0 <= char_limit < 2 ^ 50)%Z -> (history1 <= history2)%Z ->
  exists rec1 rec2,
    recommend history1 char_limit ratio window = ret rec1 /\
    recommend history2 char_limit ratio window = ret rec2 /\
    (severity rec1 <= severity rec2)%nat.
Proof.
  intros HT Hh.
  assert (Hfit : fits_float char_limit).
  { unfold fits_float. pose proof int_limit_large as Hl.
    assert ((2 ^ 50 < 2 ^ 70)%Z) by reflexivity. lia. }
  exists (recommendation_for history1 char_limit ratio window),
    (recommendation_for history2 char_limit ratio window).
  split; [apply recommend_total, Hfit|]. split; [apply recommend_total, Hfit|].
  unfold recommendation_for.
  rewrite !limit_2_5_exact by lia. unfold exceeds_2_5.
  destruct (Z.ltb_spec (5 * char_limit) (2 * history1)),
    (Z.ltb_spec (5 * char_limit) (2 * history2)),
    (Z.ltb_spec (2 * char_limit) history1), (Z.ltb_spec (2 * char_limit) history2),
    (Z.ltb_spec char_limit history1), (Z.ltb_spec char_limit history2);
    try lia;
    destruct (F64.ltb (F64.dec 20 2) ratio && (3 <=? window)%nat);
    cbn; lia.
Qed.

(** ** Stream lines: the prefix and the white space *)

Lemma rstrip_cons (c : ascii) (s : string) :
  rstrip (String c s)
  = match rstrip s with
    | EmptyString => if is_whitespace c then EmptyString else String c EmptyString
    | t => String c t
    end.
Proof. reflexivity. Qed.

Lemma rstrip_cons_keep (c : ascii) (s : string) :
  is_whitespace c = false -> rstrip (String c s) = String c (rstrip s).
Proof. intros Hc. rewrite rstrip_cons, Hc. destruct (rstrip s); reflexivity. Qed.

Lemma lstrip_rstrip (s : string) : lstrip (rstrip s) = rstrip (lstrip s).
Proof.
  induction s as [|c s IH]; [reflexivity|].
  cbn [lstrip]. destruct (is_whitespace c) eqn:Hc.
  - rewrite rstrip_cons, Hc. rewrite <- IH.
    destruct (rstrip s) as [|d t]; [reflexivity|].
    cbn [lstrip]. rewrite Hc. reflexivity.
  - rewrite (rstrip_cons_keep c s Hc). cbn [lstrip]. rewrite Hc. reflexivity.
Qed.

Lemma rstrip_idempotent (s : string) : rstrip (rstrip s) = rstrip s.
Proof.
  induction s as [|c s IH]; [reflexivity|].
  rewrite rstrip_cons. destruct (rstrip s) as [|d t] eqn:Hr.
  - destruct (is_whitespace c) eqn:Hc; [reflexivity|].
    cbn [rstrip]. rewrite Hc. reflexivity.
  - rewrite rstrip_cons, IH. reflexivity.
Qed.

Lemma lstrip_idempotent (s : string) : lstrip (lstrip s) = lstrip s.
Proof.
  induction s as [|c s IH]; [reflexivity|].
  cbn [lstrip]. destruct (is_whitespace c) eqn:Hc; [exact IH|].
  cbn [lstrip]. rewrite Hc. reflexivity.
Qed.

Lemma strip_idempotent (s : string) : strip (strip s) = strip s.
Proof.
  unfold strip. rewrite lstrip_rstrip, lstrip_idempotent, rstrip_idempotent.
  reflexivity.
Qed.

Lemma strip_rstrip (s : string) : strip (rstrip s) = strip s.
Proof. unfold strip. rewrite lstrip_rstrip, rstrip_idempotent. reflexivity. Qed.

Lemma strip_data_line (p : string) : strip ("data:" +:+ p) = "data:" +:+ rstrip p.
Proof.
  unfold strip.
  change ("data:" +:+ p)
    with (String "d" (String "a" (String "t" (String "a" (String ":" p))))).
  cbn [lstrip]. change (is_whitespace "d") with false. cbv iota.
  rewrite !rstrip_cons_keep by reflexivity. reflexivity.
Qed.

(** How a stream line is read.  White space around the line is ignored.  A
    line [data:] followed by a payload hands the payload, with the white
    space around it removed, to [json.loads], whether or not a space follows
    the colon; the payload [[DONE]] is skipped.  The prefix is matched
    exactly: a line that starts otherwise, such as an [event:] line or
    [Data:] in capitals, is skipped. *)
Theorem stream_line_reading (json_loads : string -> result pyval) :
  (forall line, stream_payload json_loads (strip line) = stream_payload json_loads line) /\
  (forall payload,
      stream_payload json_loads ("data:" +:+ payload)
      = if String.eqb (strip payload) "[DONE]" then ret None
        else match json_loads (strip payload) with
             | inr data => ret (Some data)
             | inl JSONDecodeError => ret None
             | inl e => raise e
             end) /\
  (forall payload,
      stream_payload json_loads ("data: " +:+ payload)
      = stream_payload json_loads ("data:" +:+ payload)) /\
  (forall rest,
      stream_payload json_loads ("event:" +:+ rest) = ret None /\
      stream_payload json_loads ("Data:" +:+ rest) = ret None).
Proof.
  assert (Hdata : forall payload,
             stream_payload json_loads ("data:" +:+ payload)
             = if String.eqb (strip payload) "[DONE]" then ret None
               else match json_loads (strip payload) with
                    | inr data => ret (Some data)
                    | inl JSONDecodeError => ret None
                    | inl e => raise e
                    end).
  { intros payload. unfold stream_payload. cbv zeta. rewrite strip_data_line.
    assert (Hstart : startswith ("data:" +:+ rstrip payload) "data:" = true)
      by (apply startswith_spec; eexists; reflexivity).
    rewrite Hstart. cbn [negb].
    change (drop_chars 5 ("data:" +:+ rstrip payload)) with (rstrip payload).
    rewrite strip_rstrip. reflexivity. }
  split; [|split; [exact Hdata|split]].
  - intros line. unfold stream_payload. cbv zeta. rewrite strip_idempotent. reflexivity.
  - intros payload.
    change ("data: " +:+ payload) with ("data:" +:+ String " " payload).
    rewrite !Hdata.
    assert (Hs : strip (String " " payload) = strip payload) by reflexivity.
    rewrite Hs. reflexivity.
  - intros rest. split.
    + unfold stream_payload, strip. cbv zeta.
      change ("event:" +:+ rest)
        with (String "e" (String "v" (String "e" (String "n" (String "t"
               (String ":" rest)))))).
      cbn [lstrip]. change (is_whitespace "e") with false. cbv iota.
      rewrite !rstrip_cons_keep by reflexivity. reflexivity.
    + unfold stream_payload, strip. cbv zeta.
      change ("Data:" +:+ rest)
        with (String "D" (String "a" (String "t" (String "a" (String ":" rest))))).
      cbn [lstrip]. change (is_whitespace "D") with false. cbv iota.
      rewrite !rstrip_cons_keep by reflexivity. reflexivity.
Qed.

(** ** The providers of the package *)

(** In the registry as the package sets it up, every registered name gives an
    instance whose [name] property is that name in lower case, whose base URL
    is the default one of its class, and whose endpoint is the Messages
    endpoint for [anthropic] and the chat-completions endpoint otherwise. *)
Theorem package_providers (name : string) :
  list_providers initial_registry = ["anthropic"; "openai"; "moonshot"; "local"]%string /\
  (is_registered name initial_registry = true ->
   exists obj s' inst,
     get name None initial_registry = (ret obj, s') /\
     objects s' !! obj = Some inst /\
     LLMProvider.name (instance_class inst) = lower name /\
     LLMProvider.base_url inst
     = LLMProvider.default_base_url (default_instance (instance_class inst)) /\
     LLMProvider.api_endpoint (instance_class inst)
     = if String.eqb (lower name) "anthropic" then "/v1/messages"%string
       else "/v1/chat/completions"%string).
Proof.
  split; [reflexivity|].
  unfold is_registered.
  destruct (providers_get (_providers initial_registry) (lower name)) as [c|] eqn:Hreg;
    [|discriminate].
  intros _.
  assert (Hc : _instances initial_registry !! lower name = None) by apply lookup_empty.
  eexists _, _, (default_instance c).
  split; [apply (get_first_use name c initial_registry Hreg Hc)|].
  cbn [objects]. split; [apply lookup_app_new|].
  cbn [default_instance instance_class].
  let v := eval vm_compute in (_providers initial_registry) in
  change (_providers initial_registry) with v in Hreg.
  cbn [providers_get] in Hreg.
  repeat match type of Hreg with
         | context [String.eqb (lower name) ?n] =>
             destruct (String.eqb_spec (lower name) n) as [Hn|_];
             [injection Hreg as <-; rewrite Hn; repeat split|]
         end.
  discriminate Hreg.
Qed.

(** ** Instances of the further properties at concrete inputs *)

Lemma register_then_get_witness :
  lower "mycloud" = lower "MyCloud" /\
  is_registered "mycloud" (register "MyCloud" Local initial_registry) = true.
Proof.
  split; [reflexivity|].
  apply (register_then_get "MyCloud" "mycloud" Local initial_registry). reflexivity.
Defined.

Lemma reregister_keeps_cached_instance_witness :
  registered initial_registry "openai" OpenAICompatible /\
  _instances initial_registry !! lower "openai" = None /\
  exists obj s1,
    get "openai" None initial_registry = (ret obj, s1) /\
    get "openai" None (register "openai" Local s1)
    = (ret obj, register "openai" Local s1).
Proof.
  assert (Hreg : registered initial_registry "openai" OpenAICompatible) by reflexivity.
  assert (Hc : _instances initial_registry !! lower "openai" = None)
    by apply lookup_empty.
  split; [exact Hreg|]. split; [exact Hc|].
  destruct (reregister_keeps_cached_instance "openai" OpenAICompatible Local
              initial_registry Hreg Hc) as (obj & s1 & Hget & _ & _ & Hget2 & _).
  exists obj, s1. split; [exact Hget|exact Hget2].
Defined.

Lemma unregister_contract_witness :
  is_registered "Local" initial_registry = true /\
  exists s',
    unregister "Local" initial_registry = (true, s') /\
    is_registered "local" s' = false.
Proof.
  split; [reflexivity|].
  destruct (proj2 (unregister_contract "Local" initial_registry) eq_refl)
    as (s' & Hun & Hreg & _).
  exists s'. split; [exact Hun|exact Hreg].
Defined.

Lemma config_override_does_not_leak_witness :
  registered initial_registry "local" Local /\
  cache_sound initial_registry /\
  dict_get [("base_url"%string, PStr "http://gpu:8000")] "base_url"
  = Some (PStr "http://gpu:8000") /\
  exists obj s1 inst,
    get "local" (Some [("base_url"%string, PStr "http://gpu:8000")]) initial_registry
    = (ret obj, s1) /\
    objects s1 !! obj = Some inst /\
    LLMProvider.base_url inst = PStr "http://gpu:8000".
Proof.
  assert (Hreg : registered initial_registry "local" Local) by reflexivity.
  split; [exact Hreg|]. split; [exact cache_sound_initial|]. split; [reflexivity|].
  destruct (config_override_does_not_leak "local" Local
              [("base_url"%string, PStr "http://gpu:8000")] (PStr "http://gpu:8000")
              initial_registry Hreg cache_sound_initial eq_refl)
    as (obj & s1 & inst & Hget & Hobj & _ & Hurl & _).
  exists obj, s1, inst. repeat split; assumption.
Defined.

Lemma token_count_example_usage (c : category) : token_count (tokens_of example_usage c).
Proof.
  unfold token_count, tokens_of, example_usage.
  destruct c;
    repeat first [ rewrite lookup_insert_eq
                 | rewrite lookup_singleton_eq
                 | rewrite lookup_insert_ne by discriminate
                 | rewrite lookup_singleton_ne by discriminate ];
    cbn [default from_option id]; split; try lia; reflexivity.
Qed.

Lemma calculate_cost_nonnegative_witness :
  (forall c, token_count (tokens_of example_usage c)) /\
  exists cost,
    calculate_cost Anthropic example_usage "claude-sonnet-4" = ret cost /\
    nonneg_float cost = true.
Proof.
  split; [exact token_count_example_usage|].
  apply (calculate_cost_nonnegative Anthropic example_usage "claude-sonnet-4"
           token_count_example_usage).
Defined.

Lemma status_of_current_session_alone_witness :
  example_window <> [] /\ Forall int64_row example_window /\ fits_float 200000 /\
  exists b,
    find_last_reset example_window = ret b /\
    query_session_status "agent" (drop b example_window) 200000
    = query_session_status "agent" example_window 200000.
Proof.
  split; [discriminate|]. split; [exact int64_example_window|].
  split; [exact fits_float_200000|].
  destruct (status_of_current_session_alone "agent" example_window 200000)
    as (b & Hb & _ & _ & Heq);
    [discriminate | exact int64_example_window | exact fits_float_200000 |].
  exists b. split; [exact Hb|exact Heq].
Defined.

Lemma session_costs_and_turns_witness :
  example_window <> [] /\ Forall int64_row example_window /\ fits_float 200000 /\
  exists st,
    query_session_status "agent" example_window 200000 = ret st /\
    (1 <= current_session_turns st <= 5)%Z.
Proof.
  split; [discriminate|]. split; [exact int64_example_window|].
  split; [exact fits_float_200000|].
  destruct (session_costs_and_turns "agent" example_window 200000)
    as (st & b & last_row & sum_5 & avg & Hst & _ & _ & _ & _ & _ & _ & _ & _ & _ & _
        & Hturns & _);
    [discriminate | exact int64_example_window | exact fits_float_200000 |].
  exists st. split; [exact Hst|exact Hturns].
Defined.

Lemma recommendation_monotone_witness :
  (0 <= 200000 < 2 ^ 50)%Z /\ (100000 <= 450000)%Z /\
  exists rec1 rec2,
    recommend 100000 200000 F64.zero 5 = ret rec1 /\
    recommend 450000 200000 F64.zero 5 = ret rec2 /\
    (severity rec1 <= severity rec2)%nat.
Proof.
  assert (HT : (0 <= 200000 < 2 ^ 50)%Z) by (split; [lia|reflexivity]).
  assert (Hh : (100000 <= 450000)%Z) by lia.
  split; [exact HT|]. split; [exact Hh|].
  exact (recommendation_monotone 100000 450000 200000 F64.zero 5 HT Hh).
Defined.

Lemma analysis_unchanged_by_rewrite_witness :
  exists r,
    openai_analyze_request dumps_empty_list developer_body = ret r /\
    snd (openai_rewrite_request developer_body) = None.
Proof.
  assert (H : {r | openai_analyze_request dumps_empty_list developer_body = ret r})
    by (eexists; reflexivity).
  destruct H as [r Hr]. exists r. split; [exact Hr|].
  exact (proj1 (analysis_unchanged_by_rewrite dumps_empty_list developer_body r Hr)).
Defined.

Lemma openai_analysis_counts_witness :
  exists r,
    openai_analyze_request dumps_empty_list developer_body = ret r /\
    dom r = request_keys.
Proof.
  assert (H : {r | openai_analyze_request dumps_empty_list developer_body = ret r})
    by (eexists; reflexivity).
  destruct H as [r Hr]. exists r. split; [exact Hr|].
  exact (proj1 (proj1 (openai_analysis_counts dumps_empty_list developer_body) r Hr)).
Defined.

Lemma anthropic_analysis_keys_and_counts_witness :
  exists r,
    analyze_request (fun _ => EmptyString) dumps_empty_list example_body = ret r /\
    dom r = analysis_keys.
Proof.
  assert (H : {r | analyze_request (fun _ => EmptyString) dumps_empty_list example_body
                   = ret r})
    by (eexists; reflexivity).
  destruct H as [r Hr]. exists r. split; [exact Hr|].
  exact (proj1 (proj1 (anthropic_analysis_keys_and_counts
                         (fun _ => EmptyString) dumps_empty_list example_body) r Hr)).
Defined.

Lemma openai_stream_within_response_witness :
  exists r r',
    openai_extract_usage_from_response usage_chunk = ret r /\
    openai_usage_of usage_chunk = ret (Some r') /\
    r' ⊆ r.
Proof.
  assert (Hr : {r | openai_extract_usage_from_response usage_chunk = ret r})
    by (eexists; reflexivity).
  assert (Hr' : {r' | openai_usage_of usage_chunk = ret (Some r')}).
  { eexists. unfold openai_usage_of, usage_chunk.
    cbn [py_get dict_get String.eqb Ascii.eqb Bool.eqb default from_option id bind ret
         truthy].
    rewrite nonempty_or_none_insert. reflexivity. }
  destruct Hr as [r Hr], Hr' as [r' Hr']. exists r, r'.
  split; [exact Hr|]. split; [exact Hr'|].
  exact (proj1 (proj2 (openai_stream_within_response usage_chunk)) r r' Hr Hr').
Defined.
